(** * Tasklet subsystem of Argobots ([src/task.c]): model and properties

    The development embeds the functions of [task.c] over an explicit
    process state ([ABTI_global]): the live [ABTI_task] objects, the name
    buffers, the streams with their schedulers, the global pools, the
    static task-id counter and the calling context.  Results of the
    collaborators that live outside [task.c] (allocator, mutex, stream
    control, the runtime that runs while the caller yields) are supplied by
    the caller of each model function, so that every theorem quantifies
    over all of their behaviours. *)

From stdpp Require Import base option list gmap strings.
From Stdlib Require Import ZArith Lia.

Open Scope Z_scope.

(** ** Constants and enumerations of the public header *)

Inductive abt_errno : Type :=
| ABT_SUCCESS
| ABT_ERR_MEM
| ABT_ERR_TASK
| ABT_ERR_INV_TASK
| ABT_ERR_OTHER (code : Z).

Inductive ABT_task_state : Type :=
| ABT_TASK_STATE_CREATED
| ABT_TASK_STATE_DELAYED
| ABT_TASK_STATE_RUNNING
| ABT_TASK_STATE_COMPLETED
| ABT_TASK_STATE_TERMINATED.

Inductive ABT_stream_state : Type :=
| ABT_STREAM_STATE_CREATED
| ABT_STREAM_STATE_RUNNING
| ABT_STREAM_STATE_TERMINATED.

#[global] Instance abt_errno_eq_dec : EqDecision abt_errno.
Proof. solve_decision. Defined.
#[global] Instance ABT_task_state_eq_dec : EqDecision ABT_task_state.
Proof. solve_decision. Defined.
#[global] Instance ABT_stream_state_eq_dec : EqDecision ABT_stream_state.
Proof. solve_decision. Defined.

(** The C null pointer. *)
Definition NULL : Z := 0.

(** Modelled from the spec: [abt.h] and [abti.h] are not part of the
    sources.  The null sentinels of the handle types, the cancel bit of the
    request word and the scheduler-agnostic unit factory are parameters of
    the whole development. *)
Class abti_h : Type := {
  ABT_TASK_NULL : Z;
  ABT_STREAM_NULL : Z;
  ABTI_TASK_REQ_CANCEL : Z;
  (** generic wrapper factory: the unit built around a task handle *)
  ABTI_unit_create_from_task : Z → Z;
  (** generic wrapper destructor: what it leaves in the unit cell *)
  ABTI_unit_free : Z → Z
}.

(** ** Objects *)

(** [ABTI_task].  Pointers, handles and opaque payloads are machine words. *)
Record ABTI_task : Type := {
  t_id : Z;                   (* uint64_t id *)
  t_p_name : Z;               (* char *p_name *)
  t_state : ABT_task_state;
  t_refcount : Z;             (* uint32_t refcount *)
  t_request : Z;              (* uint32_t request *)
  t_f_task : Z;               (* void (*f_task)(void *) *)
  t_p_arg : Z;                (* void *p_arg *)
  t_mutex : Z;                (* ABT_mutex mutex *)
  t_p_stream : Z;             (* ABTI_stream *p_stream *)
  t_unit : Z                  (* ABT_unit unit *)
}.

(** [ABTI_scheduler]: the two function pointers used by [task.c] and the
    scheduler's pool of work units. *)
Record ABTI_scheduler : Type := {
  u_create_from_task : Z → Z;
  u_free : Z → Z;
  sched_pool : list Z
}.

(** [ABTI_stream]; the scheduler a stream points to is kept in place. *)
Record ABTI_stream : Type := {
  s_id : Z;
  s_state : ABT_stream_state;
  s_p_sched : ABTI_scheduler;
  s_mutex : Z;
  s_deads : list Z
}.

(** The process state seen by [task.c]. *)
Record ABTI_global : Type := {
  tasks : gmap Z ABTI_task;         (* live task objects, by address *)
  names : gmap Z string;            (* live name buffers, by address *)
  streams : gmap Z ABTI_stream;     (* live streams, by address *)
  p_tasks : list Z;                 (* gp_ABTI_global->p_tasks *)
  p_streams_active : list Z;        (* gp_ABTI_global->p_streams->active *)
  p_streams_created : list Z;       (* gp_ABTI_global->p_streams->created *)
  task_id : Z;                      (* static counter of ABTI_task_get_new_id *)
  local_thread : Z                  (* ABTI_local_get_thread() *)
}.

(** *** Field updates *)

Definition set_t_p_name (v : Z) (t : ABTI_task) : ABTI_task :=
  {| t_id := t_id t; t_p_name := v; t_state := t_state t;
     t_refcount := t_refcount t; t_request := t_request t;
     t_f_task := t_f_task t; t_p_arg := t_p_arg t; t_mutex := t_mutex t;
     t_p_stream := t_p_stream t; t_unit := t_unit t |}.

Definition set_t_state (v : ABT_task_state) (t : ABTI_task) : ABTI_task :=
  {| t_id := t_id t; t_p_name := t_p_name t; t_state := v;
     t_refcount := t_refcount t; t_request := t_request t;
     t_f_task := t_f_task t; t_p_arg := t_p_arg t; t_mutex := t_mutex t;
     t_p_stream := t_p_stream t; t_unit := t_unit t |}.

Definition set_t_refcount (v : Z) (t : ABTI_task) : ABTI_task :=
  {| t_id := t_id t; t_p_name := t_p_name t; t_state := t_state t;
     t_refcount := v; t_request := t_request t;
     t_f_task := t_f_task t; t_p_arg := t_p_arg t; t_mutex := t_mutex t;
     t_p_stream := t_p_stream t; t_unit := t_unit t |}.

Definition set_t_request (v : Z) (t : ABTI_task) : ABTI_task :=
  {| t_id := t_id t; t_p_name := t_p_name t; t_state := t_state t;
     t_refcount := t_refcount t; t_request := v;
     t_f_task := t_f_task t; t_p_arg := t_p_arg t; t_mutex := t_mutex t;
     t_p_stream := t_p_stream t; t_unit := t_unit t |}.

Definition set_t_mutex (v : Z) (t : ABTI_task) : ABTI_task :=
  {| t_id := t_id t; t_p_name := t_p_name t; t_state := t_state t;
     t_refcount := t_refcount t; t_request := t_request t;
     t_f_task := t_f_task t; t_p_arg := t_p_arg t; t_mutex := v;
     t_p_stream := t_p_stream t; t_unit := t_unit t |}.

Definition set_t_p_stream (v : Z) (t : ABTI_task) : ABTI_task :=
  {| t_id := t_id t; t_p_name := t_p_name t; t_state := t_state t;
     t_refcount := t_refcount t; t_request := t_request t;
     t_f_task := t_f_task t; t_p_arg := t_p_arg t; t_mutex := t_mutex t;
     t_p_stream := v; t_unit := t_unit t |}.

Definition set_t_unit (v : Z) (t : ABTI_task) : ABTI_task :=
  {| t_id := t_id t; t_p_name := t_p_name t; t_state := t_state t;
     t_refcount := t_refcount t; t_request := t_request t;
     t_f_task := t_f_task t; t_p_arg := t_p_arg t; t_mutex := t_mutex t;
     t_p_stream := t_p_stream t; t_unit := v |}.

Definition set_sched_pool (v : list Z) (s : ABTI_scheduler) : ABTI_scheduler :=
  {| u_create_from_task := u_create_from_task s; u_free := u_free s;
     sched_pool := v |}.

Definition set_s_state (v : ABT_stream_state) (s : ABTI_stream) : ABTI_stream :=
  {| s_id := s_id s; s_state := v; s_p_sched := s_p_sched s;
     s_mutex := s_mutex s; s_deads := s_deads s |}.

Definition set_s_p_sched (v : ABTI_scheduler) (s : ABTI_stream) : ABTI_stream :=
  {| s_id := s_id s; s_state := s_state s; s_p_sched := v;
     s_mutex := s_mutex s; s_deads := s_deads s |}.

Definition set_s_deads (v : list Z) (s : ABTI_stream) : ABTI_stream :=
  {| s_id := s_id s; s_state := s_state s; s_p_sched := s_p_sched s;
     s_mutex := s_mutex s; s_deads := v |}.

Definition set_tasks (v : gmap Z ABTI_task) (g : ABTI_global) : ABTI_global :=
  {| tasks := v; names := names g; streams := streams g; p_tasks := p_tasks g;
     p_streams_active := p_streams_active g;
     p_streams_created := p_streams_created g;
     task_id := task_id g; local_thread := local_thread g |}.

Definition set_names (v : gmap Z string) (g : ABTI_global) : ABTI_global :=
  {| tasks := tasks g; names := v; streams := streams g; p_tasks := p_tasks g;
     p_streams_active := p_streams_active g;
     p_streams_created := p_streams_created g;
     task_id := task_id g; local_thread := local_thread g |}.

Definition set_streams (v : gmap Z ABTI_stream) (g : ABTI_global) : ABTI_global :=
  {| tasks := tasks g; names := names g; streams := v; p_tasks := p_tasks g;
     p_streams_active := p_streams_active g;
     p_streams_created := p_streams_created g;
     task_id := task_id g; local_thread := local_thread g |}.

Definition set_p_tasks (v : list Z) (g : ABTI_global) : ABTI_global :=
  {| tasks := tasks g; names := names g; streams := streams g; p_tasks := v;
     p_streams_active := p_streams_active g;
     p_streams_created := p_streams_created g;
     task_id := task_id g; local_thread := local_thread g |}.

Definition set_p_streams (act cre : list Z) (g : ABTI_global) : ABTI_global :=
  {| tasks := tasks g; names := names g; streams := streams g;
     p_tasks := p_tasks g;
     p_streams_active := act; p_streams_created := cre;
     task_id := task_id g; local_thread := local_thread g |}.

Definition set_task_id (v : Z) (g : ABTI_global) : ABTI_global :=
  {| tasks := tasks g; names := names g; streams := streams g;
     p_tasks := p_tasks g;
     p_streams_active := p_streams_active g;
     p_streams_created := p_streams_created g;
     task_id := v; local_thread := local_thread g |}.

(** ** Computations over the process state

    A call either returns a value and a new state, has no defined behaviour
    in C (a dereference of a pointer to no live object, a [free] of such a
    pointer), or is still waiting when the supplied environment script is
    exhausted. *)

Inductive outcome (A : Type) : Type :=
| Ret (a : A) (g : ABTI_global)
| Undefined
| OutOfFuel.
Arguments Ret {A} a g.
Arguments Undefined {A}.
Arguments OutOfFuel {A}.

Definition M (A : Type) : Type := ABTI_global → outcome A.

#[global] Instance M_ret : MRet M := λ A a g, Ret a g.
#[global] Instance M_bind : MBind M := λ A B k c g,
  match c g with
  | Ret a g' => k a g'
  | Undefined => Undefined
  | OutOfFuel => OutOfFuel
  end.

Definition get_global : M ABTI_global := λ g, Ret g g.
Definition modify_global (f : ABTI_global → ABTI_global) : M unit :=
  λ g, Ret tt (f g).
Definition undefined {A} : M A := λ _, Undefined.
Definition out_of_fuel {A} : M A := λ _, OutOfFuel.

(** The object a pointer designates in a typed heap: none for the null
    pointer and for an address with no live object. *)
Definition deref {A} (heap : gmap Z A) (p : Z) : option A :=
  if decide (p = NULL) then None else heap !! p.

(** [*p] for a task pointer. *)
Definition load_task (p : Z) : M ABTI_task := λ g,
  match deref (tasks g) p with
  | Some t => Ret t g
  | None => Undefined
  end.

(** [p->field = v] for a task pointer, through a field update [f]. *)
Definition update_task (p : Z) (f : ABTI_task → ABTI_task) : M unit := λ g,
  match deref (tasks g) p with
  | Some t => Ret tt (set_tasks (<[p := f t]> (tasks g)) g)
  | None => Undefined
  end.

Definition load_stream (p : Z) : M ABTI_stream := λ g,
  match deref (streams g) p with
  | Some s => Ret s g
  | None => Undefined
  end.

Definition update_stream (p : Z) (f : ABTI_stream → ABTI_stream) : M unit := λ g,
  match deref (streams g) p with
  | Some s => Ret tt (set_streams (<[p := f s]> (streams g)) g)
  | None => Undefined
  end.

(** ** Collaborators outside [task.c] *)

Definition uint32_max : Z := 2 ^ 32 - 1.
Definition wrap32 (z : Z) : Z := z mod 2 ^ 32.
Definition wrap64 (z : Z) : Z := z mod 2 ^ 64.

(** Modelled from the spec: the atomic primitives of the [ABTD] layer, on
    the content of the word they are applied to.  Each returns the value
    read and the value left in the word. *)
Definition ABTD_atomic_fetch_add_uint32 (cell v : Z) : Z * Z :=
  (cell, wrap32 (cell + v)).

Definition ABTD_atomic_fetch_add_uint64 (cell v : Z) : Z * Z :=
  (cell, wrap64 (cell + v)).

Definition ABTD_atomic_fetch_or_uint32 (cell v : Z) : Z * Z :=
  (cell, Z.lor cell v).

Definition ABTD_atomic_cas_uint32 (cell old new : Z) : Z * Z :=
  (cell, if decide (cell = old) then new else cell).

(** Modelled from the spec: [ABTU_malloc] over a typed heap.  The allocator
    proposes an address; a proposal that is null or the address of a live
    object is an allocation failure, so that a successful allocation never
    aliases a live object. *)
Definition ABTU_malloc {A} (heap : gmap Z A) (proposal : Z) : Z :=
  if decide (proposal ≠ NULL ∧ heap !! proposal = None) then proposal else NULL.

(** Modelled from the spec: [ABTU_free] of a name buffer. *)
Definition ABTU_free_name (p : Z) : M unit := λ g,
  match deref (names g) p with
  | Some _ => Ret tt (set_names (delete p (names g)) g)
  | None => Undefined
  end.

(** Modelled from the spec: [ABTU_free] of a task object. *)
Definition ABTU_free_task (p : Z) : M unit := λ g,
  match deref (tasks g) p with
  | Some _ => Ret tt (set_tasks (delete p (tasks g)) g)
  | None => Undefined
  end.

(** Modelled from the spec: [ABT_mutex_create(&cell)] stores a new handle in
    the cell when it succeeds and leaves the cell alone otherwise. *)
Definition ABT_mutex_create (ret : abt_errno) (handle cell : Z) : abt_errno * Z :=
  (ret, if decide (ret = ABT_SUCCESS) then handle else cell).

(** Modelled from the spec: the task mutex is free on entry in the
    executions modelled here, so locking and unlocking leave the state as it
    is. *)
Definition ABTI_mutex_waitlock (mutex : Z) : M unit := mret tt.
Definition ABT_mutex_unlock (mutex : Z) : M unit := mret tt.

(** Modelled from the spec: pool operations ([push] at the tail, [remove]
    of a unit, [size]). *)
Definition ABTI_pool_push (pool : list Z) (u : Z) : list Z := pool ++ [u].
Definition ABTI_pool_remove (pool : list Z) (u : Z) : list Z :=
  filter (λ v, v ≠ u) pool.
Definition ABTI_pool_get_size (pool : list Z) : Z := Z.of_nat (length pool).

(** Modelled from the spec: [ABTI_scheduler_push]. *)
Definition ABTI_scheduler_push (p_stream : Z) (u : Z) : M unit :=
  update_stream p_stream
    (λ s, set_s_p_sched
            (set_sched_pool (ABTI_pool_push (sched_pool (s_p_sched s)) u)
                            (s_p_sched s)) s).

(** Modelled from the spec: [ABTI_global_add_task] pushes the unit of the
    task into the global pool of unassigned tasks, unless it fails. *)
Definition ABTI_global_add_task (ret : abt_errno) (p_task : Z) : M abt_errno :=
  t ← load_task p_task;
  if decide (ret = ABT_SUCCESS) then
    modify_global (λ g, set_p_tasks (ABTI_pool_push (p_tasks g) (t_unit t)) g);;
    mret ABT_SUCCESS
  else mret ret.

(** Modelled from the spec: [ABTI_stream_start] puts the stream in the
    running state, unless it fails. *)
Definition ABTI_stream_start (ret : abt_errno) (p_stream : Z) : M abt_errno :=
  if decide (ret = ABT_SUCCESS) then
    update_stream p_stream (set_s_state ABT_STREAM_STATE_RUNNING);;
    mret ABT_SUCCESS
  else mret ret.

(** Modelled from the spec: [ABTI_stream_start_any] starts an idle
    created-but-not-started stream and moves it to the active pool. *)
Definition ABTI_stream_start_any (ret : abt_errno) : M abt_errno :=
  g ← get_global;
  match p_streams_created g with
  | [] => mret ret
  | p_stream :: rest =>
      if decide (ret = ABT_SUCCESS) then
        update_stream p_stream (set_s_state ABT_STREAM_STATE_RUNNING);;
        modify_global
          (set_p_streams (ABTI_pool_push (p_streams_active g) p_stream) rest);;
        mret ABT_SUCCESS
      else mret ret
  end.

(** Modelled from the spec: [strlen] and [ABTU_strcpy] on name buffers.  A
    buffer holds the characters before its terminating NUL. *)
Definition strlen (p : Z) : M Z := λ g,
  match deref (names g) p with
  | Some s => Ret (Z.of_nat (String.length s)) g
  | None => Undefined
  end.

Definition load_name (p : Z) : M string := λ g,
  match deref (names g) p with
  | Some s => Ret s g
  | None => Undefined
  end.

Definition ABTU_strcpy (dst : Z) (src : string) : M unit := λ g,
  match deref (names g) dst with
  | Some _ => Ret tt (set_names (<[dst := src]> (names g)) g)
  | None => Undefined
  end.

(** An atomic read-modify-write of one word of a task object. *)
Definition atomic_task (p : Z) (get : ABTI_task → Z)
    (set : Z → ABTI_task → ABTI_task) (op : Z → Z * Z) : M Z :=
  t ← load_task p;
  update_task p (set (op (get t)).2);;
  mret (op (get t)).1.

(** ** What the collaborators answer during one call *)

(** During [ABT_task_create]. *)
Record create_env : Type := {
  ce_malloc : Z;                    (* address proposed by ABTU_malloc *)
  ce_block : ABTI_task;             (* indeterminate content of the block *)
  ce_mutex_create : abt_errno;      (* status of ABT_mutex_create *)
  ce_mutex : Z;                     (* the mutex handle it stores *)
  ce_global_add_task : abt_errno;   (* status of ABTI_global_add_task *)
  ce_stream_start_any : abt_errno;  (* status of ABTI_stream_start_any *)
  ce_stream_start : abt_errno       (* status of ABTI_stream_start *)
}.

(** During [ABT_task_free]: what the rest of the runtime does to the process
    state at each [ABT_thread_yield], and the status of [ABT_mutex_free]. *)
Record free_env : Type := {
  fe_yields : list (ABTI_global → ABTI_global);
  fe_mutex_free : abt_errno
}.

(** During [ABT_task_set_name]. *)
Record set_name_env : Type := {
  sn_malloc : Z;                    (* address proposed by ABTU_malloc *)
  sn_block : string                 (* indeterminate content of the buffer *)
}.

(** ** The functions of [task.c] *)

Section task_c.
Context `{hdr : !abti_h}.

(** *** Private APIs *)

Definition ABTI_task_get_ptr (task : Z) : Z :=
  if decide (task = ABT_TASK_NULL) then NULL else task.

Definition ABTI_task_get_handle (p_task : Z) : Z :=
  if decide (p_task = NULL) then ABT_TASK_NULL else p_task.

(** Modelled from the spec: [ABTI_stream_get_ptr] of [stream.c], the
    counterpart of [ABTI_task_get_ptr]. *)
Definition ABTI_stream_get_ptr (stream : Z) : Z :=
  if decide (stream = ABT_STREAM_NULL) then NULL else stream.

Definition ABTI_task_get_new_id : M Z :=
  g ← get_global;
  modify_global (set_task_id (ABTD_atomic_fetch_add_uint64 (task_id g) 1).2);;
  mret (ABTD_atomic_fetch_add_uint64 (task_id g) 1).1.

Definition ABTI_task_free (mutex_free : abt_errno) (p_task : Z) : M abt_errno :=
  t ← load_task p_task;
  (* Free the unit *)
  (if decide (t_refcount t > 0) then
     update_task p_task (set_t_unit (ABTI_unit_free (t_unit t)))
   else
     s ← load_stream (t_p_stream t);
     update_task p_task (set_t_unit (u_free (s_p_sched s) (t_unit t))));;
  (if decide (t_p_name t ≠ NULL) then ABTU_free_name (t_p_name t) else mret tt);;
  (* Free the mutex *)
  let abt_errno := mutex_free in
  if decide (abt_errno ≠ ABT_SUCCESS) then mret abt_errno
  else
    ABTU_free_task p_task;;
    mret abt_errno.

(** *** ABT_task_create

    [newtask] is [None] for a null output pointer and [Some v] for a
    pointer to a handle cell holding [v]; the cell is returned next to the
    status. *)

Definition create_global (env : create_env) (p_newtask h_newtask : Z) : M abt_errno :=
  update_task p_newtask (set_t_p_stream NULL);;
  (* Create a wrapper work unit *)
  update_task p_newtask (set_t_unit (ABTI_unit_create_from_task h_newtask));;
  (* Add this task to the global task pool *)
  abt_errno ← ABTI_global_add_task (ce_global_add_task env) p_newtask;
  if decide (abt_errno ≠ ABT_SUCCESS) then mret abt_errno
  else
    (* Start any stream if there is no running stream *)
    g ← get_global;
    if decide (ABTI_pool_get_size (p_streams_active g) ≤ 1
               ∧ ABTI_pool_get_size (p_streams_created g) > 0)
    then ABTI_stream_start_any (ce_stream_start_any env)
    else mret abt_errno.

Definition create_bound (env : create_env) (stream p_newtask h_newtask : Z) : M abt_errno :=
  let p_stream := ABTI_stream_get_ptr stream in
  s ← load_stream p_stream;
  let p_sched := s_p_sched s in
  (* Set the state as DELAYED *)
  update_task p_newtask (set_t_state ABT_TASK_STATE_DELAYED);;
  (* Set the stream for this task *)
  update_task p_newtask (set_t_p_stream p_stream);;
  (* Create a wrapper work unit *)
  update_task p_newtask (set_t_unit (u_create_from_task p_sched h_newtask));;
  (* Add this task to the scheduler's pool *)
  t ← load_task p_newtask;
  ABTI_scheduler_push p_stream (t_unit t);;
  (* Start the stream if it is not running *)
  s' ← load_stream p_stream;
  if decide (s_state s' = ABT_STREAM_STATE_CREATED)
  then ABTI_stream_start (ce_stream_start env) p_stream
  else mret ABT_SUCCESS.

Definition ABT_task_create (env : create_env) (stream task_func arg : Z)
    (newtask : option Z) : M (abt_errno * option Z) :=
  g ← get_global;
  let p_newtask := ABTU_malloc (tasks g) (ce_malloc env) in
  if decide (p_newtask = NULL) then
    mret (ABT_ERR_MEM, (λ _, ABT_TASK_NULL) <$> newtask)
  else
    modify_global (set_tasks (<[p_newtask := ce_block env]> (tasks g)));;
    new_id ← ABTI_task_get_new_id;
    update_task p_newtask (λ t,
      {| t_id := new_id;
         t_p_name := NULL;
         t_state := ABT_TASK_STATE_CREATED;
         t_refcount := match newtask with Some _ => 1 | None => 0 end;
         t_request := 0;
         t_f_task := task_func;
         t_p_arg := arg;
         t_mutex := t_mutex t; t_p_stream := t_p_stream t;
         t_unit := t_unit t |});;
    (* Create a mutex *)
    t ← load_task p_newtask;
    let r := ABT_mutex_create (ce_mutex_create env) (ce_mutex env) (t_mutex t) in
    update_task p_newtask (set_t_mutex r.2);;
    if decide (r.1 ≠ ABT_SUCCESS) then mret (r.1, newtask)
    else
      let h_newtask := ABTI_task_get_handle p_newtask in
      abt_errno ←
        (if decide (stream = ABT_STREAM_NULL)
         then create_global env p_newtask h_newtask
         else create_bound env stream p_newtask h_newtask);
      if decide (abt_errno ≠ ABT_SUCCESS) then mret (abt_errno, newtask)
      else
        (* Return value *)
        mret (abt_errno, (λ _, h_newtask) <$> newtask).

(** *** ABT_task_free

    [task] is the content of the caller's handle cell; the cell is returned
    next to the status. *)

(** The loop [while (p_task->state != ABT_TASK_STATE_TERMINATED)
    ABT_thread_yield();], one element of the script per yield. *)
Fixpoint wait_terminated (yields : list (ABTI_global → ABTI_global))
    (p_task : Z) : M unit :=
  t ← load_task p_task;
  if decide (t_state t ≠ ABT_TASK_STATE_TERMINATED) then
    match yields with
    | [] => out_of_fuel
    | ABT_thread_yield :: rest =>
        modify_global ABT_thread_yield;;
        wait_terminated rest p_task
    end
  else mret tt.

(** The part of [ABT_task_free] after the wait. *)
Definition free_terminated (mutex_free : abt_errno) (task p_task : Z)
    : M (abt_errno * Z) :=
  t ← load_task p_task;
  (if decide (t_refcount t > 0) then
     (* The task has finished but it is still referenced.
        Thus it exists in the stream's deads pool. *)
     let p_stream := t_p_stream t in
     s ← load_stream p_stream;
     ABTI_mutex_waitlock (s_mutex s);;
     update_stream p_stream
       (λ s, set_s_deads (ABTI_pool_remove (s_deads s) (t_unit t)) s);;
     ABT_mutex_unlock (s_mutex s)
   else mret tt);;
  (* Free the ABTI_task structure *)
  abt_errno ← ABTI_task_free mutex_free p_task;
  if decide (abt_errno ≠ ABT_SUCCESS) then mret (abt_errno, task)
  else
    (* Return value *)
    mret (abt_errno, ABT_TASK_NULL).

Definition ABT_task_free (env : free_env) (task : Z) : M (abt_errno * Z) :=
  g ← get_global;
  if decide (local_thread g = NULL) then mret (ABT_ERR_TASK, task)
  else
    let h_task := task in
    let p_task := ABTI_task_get_ptr h_task in
    (* Wait until the task terminates *)
    wait_terminated (fe_yields env) p_task;;
    free_terminated (fe_mutex_free env) task p_task.

(** *** ABT_task_cancel *)

Definition ABT_task_cancel (task : Z) : M abt_errno :=
  g ← get_global;
  if decide (local_thread g = NULL) then mret ABT_ERR_TASK
  else
    let p_task := ABTI_task_get_ptr task in
    if decide (p_task = NULL) then mret ABT_ERR_INV_TASK
    else
      (* Set the cancel request *)
      atomic_task p_task t_request set_t_request
        (λ cell, ABTD_atomic_fetch_or_uint32 cell ABTI_TASK_REQ_CANCEL);;
      mret ABT_SUCCESS.

(** *** ABT_task_retain *)

Definition ABT_task_retain (task : Z) : M abt_errno :=
  let p_task := ABTI_task_get_ptr task in
  if decide (p_task = NULL) then mret ABT_ERR_INV_TASK
  else
    atomic_task p_task t_refcount set_t_refcount
      (λ cell, ABTD_atomic_fetch_add_uint32 cell 1);;
    mret ABT_SUCCESS.

(** *** ABT_task_release *)

(** The compare-and-swap loop, run by one caller with no other party
    touching the counter; [fuel] bounds the number of loop tests. *)
Fixpoint release_loop (fuel : nat) (p_task : Z) : M unit :=
  match fuel with
  | O => out_of_fuel
  | S fuel' =>
      t ← load_task p_task;
      let refcount := t_refcount t in
      if decide (refcount > 0) then
        old ← atomic_task p_task t_refcount set_t_refcount
                (λ cell, ABTD_atomic_cas_uint32 cell refcount (wrap32 (refcount - 1)));
        if decide (old = refcount) then mret tt
        else release_loop fuel' p_task
      else mret tt
  end.

Definition ABT_task_release (fuel : nat) (task : Z) : M abt_errno :=
  let p_task := ABTI_task_get_ptr task in
  if decide (p_task = NULL) then mret ABT_ERR_INV_TASK
  else
    release_loop fuel p_task;;
    mret ABT_SUCCESS.

(** The same function as a transition system, one shared-memory access per
    step, for executions in which several callers interleave. *)
Inductive release_pc : Type :=
| RelEntry (task : Z)               (* the call has not started *)
| RelTest (p_task : Z)              (* about to read p_task->refcount *)
| RelCas (p_task refcount : Z)      (* about to compare-and-swap *)
| RelReturn (abt_errno : abt_errno). (* returned *)

Definition release_step (pc : release_pc) : M release_pc :=
  match pc with
  | RelEntry task =>
      let p_task := ABTI_task_get_ptr task in
      if decide (p_task = NULL) then mret (RelReturn ABT_ERR_INV_TASK)
      else mret (RelTest p_task)
  | RelTest p_task =>
      t ← load_task p_task;
      let refcount := t_refcount t in
      if decide (refcount > 0) then mret (RelCas p_task refcount)
      else mret (RelReturn ABT_SUCCESS)
  | RelCas p_task refcount =>
      old ← atomic_task p_task t_refcount set_t_refcount
              (λ cell, ABTD_atomic_cas_uint32 cell refcount (wrap32 (refcount - 1)));
      if decide (old = refcount) then mret (RelReturn ABT_SUCCESS)
      else mret (RelTest p_task)
  | RelReturn e => mret (RelReturn e)
  end.

Definition returned (pc : release_pc) : Prop :=
  match pc with RelReturn _ => True | _ => False end.

#[global] Instance returned_dec pc : Decision (returned pc).
Proof. destruct pc; simpl; apply _. Defined.

(** A configuration: the process state and the callers in flight.  One step
    lets one caller that has not returned perform its next access. *)
Inductive release_sys_step :
    ABTI_global * list release_pc → ABTI_global * list release_pc → Prop :=
| release_sys_step_at g callers i pc pc' g' :
    callers !! i = Some pc →
    ¬ returned pc →
    release_step pc g = Ret pc' g' →
    release_sys_step (g, callers) (g', <[i := pc']> callers).

(** ** Concurrent releases of one task

    The number of callers that have returned, what each caller in flight
    may hold, and what a configuration reached by callers releasing the
    task object at [p] looks like: [t0] and [g0] are the task object and
    the process state at the start, [rc] the current reference count. *)
Definition returned_count (callers : list release_pc) : Z :=
  Z.of_nat (length (filter returned callers)).

Definition pc_ok (p bound : Z) (pc : release_pc) : Prop :=
  match pc with
  | RelEntry task => ABTI_task_get_ptr task = p
  | RelTest p_task => p_task = p
  | RelCas p_task refcount => p_task = p ∧ 0 < refcount ≤ bound
  | RelReturn e => e = ABT_SUCCESS
  end.

Definition release_inv (p : Z) (t0 : ABTI_task) (g0 : ABTI_global)
    (n : nat) (rc : Z) (cfg : ABTI_global * list release_pc) : Prop :=
  cfg.1 = set_tasks (<[p := set_t_refcount rc t0]> (tasks g0)) g0
  ∧ length cfg.2 = n
  ∧ 0 ≤ rc ≤ t_refcount t0
  ∧ t_refcount t0 - returned_count cfg.2 ≤ rc
  ∧ (rc = 0 ∨ rc = t_refcount t0 - returned_count cfg.2)
  ∧ Forall (pc_ok p (t_refcount t0)) cfg.2.

(** A bound on the accesses the callers can still perform: a caller about
    to compare-and-swap with a stale value has a failed attempt and a new
    test ahead, and each decrement makes the values read by the others
    stale. *)
Definition pc_weight (rc : Z) (pc : release_pc) : Z :=
  match pc with
  | RelEntry _ => 3
  | RelTest _ => 2
  | RelCas _ refcount => if decide (refcount = rc) then 1 else 3
  | RelReturn _ => 0
  end.

Definition weight_sum (rc : Z) (callers : list release_pc) : Z :=
  foldr (λ pc acc, pc_weight rc pc + acc) 0 callers.

Definition release_measure (n : nat) (rc : Z) (callers : list release_pc) : Z :=
  2 * Z.of_nat n * rc + weight_sum rc callers.

(** *** ABT_task_equal *)

Definition ABT_task_equal (task1 task2 : Z) : M (abt_errno * Z) :=
  let p_task1 := ABTI_task_get_ptr task1 in
  let p_task2 := ABTI_task_get_ptr task2 in
  mret (ABT_SUCCESS, if decide (p_task1 = p_task2) then 1 else 0).

(** *** ABT_task_get_state

    [state] is the content of the caller's output cell. *)

Definition ABT_task_get_state (task : Z) (state : ABT_task_state)
    : M (abt_errno * ABT_task_state) :=
  let p_task := ABTI_task_get_ptr task in
  if decide (p_task = NULL) then mret (ABT_ERR_INV_TASK, state)
  else
    t ← load_task p_task;
    (* Return value *)
    mret (ABT_SUCCESS, t_state t).

(** *** ABT_task_set_name

    [name] is [None] for a null pointer and [Some s] for a C string [s]. *)

Definition ABT_task_set_name (env : set_name_env) (task : Z)
    (name : option string) : M abt_errno :=
  let p_task := ABTI_task_get_ptr task in
  if decide (p_task = NULL) then mret ABT_ERR_INV_TASK
  else
    match name with
    | None => undefined
    | Some name =>
        t ← load_task p_task;
        ABTI_mutex_waitlock (t_mutex t);;
        (if decide (t_p_name t ≠ NULL) then ABTU_free_name (t_p_name t)
         else mret tt);;
        g ← get_global;
        let buf := ABTU_malloc (names g) (sn_malloc env) in
        update_task p_task (set_t_p_name buf);;
        if decide (buf = NULL) then
          ABT_mutex_unlock (t_mutex t);;
          mret ABT_ERR_MEM
        else
          modify_global (set_names (<[buf := sn_block env]> (names g)));;
          ABTU_strcpy buf name;;
          ABT_mutex_unlock (t_mutex t);;
          mret ABT_SUCCESS
    end.

(** *** ABT_task_get_name

    [name] is [None] for a null buffer pointer and [Some s] for a buffer
    holding [s]; [len] is the content of the length cell.  Both are
    returned next to the status. *)

Definition ABT_task_get_name (task : Z) (name : option string) (len : Z)
    : M (abt_errno * option string * Z) :=
  let p_task := ABTI_task_get_ptr task in
  if decide (p_task = NULL) then mret (ABT_ERR_INV_TASK, name, len)
  else
    t ← load_task p_task;
    len' ← strlen (t_p_name t);
    match name with
    | Some _ =>
        s ← load_name (t_p_name t);
        mret (ABT_SUCCESS, Some s, len')
    | None => mret (ABT_SUCCESS, None, len')
    end.

(** The task object as [ABT_task_create] has initialised it when it reaches
    the binding decision. *)
Definition created_task (env : create_env) (g : ABTI_global)
    (task_func arg : Z) (newtask : option Z) : ABTI_task :=
  {| t_id := task_id g; t_p_name := NULL; t_state := ABT_TASK_STATE_CREATED;
     t_refcount := match newtask with Some _ => 1 | None => 0 end;
     t_request := 0; t_f_task := task_func; t_p_arg := arg;
     t_mutex := ce_mutex env; t_p_stream := t_p_stream (ce_block env);
     t_unit := t_unit (ce_block env) |}.

(** ** Calls and executions

    One call of the public interface with its arguments and with what the
    collaborators answer during it; [run_call] keeps the status and drops
    the other outputs. *)
Inductive api_call : Type :=
| Call_create (env : create_env) (stream task_func arg : Z) (newtask : option Z)
| Call_free (env : free_env) (task : Z)
| Call_cancel (task : Z)
| Call_retain (task : Z)
| Call_release (fuel : nat) (task : Z)
| Call_equal (task1 task2 : Z)
| Call_get_state (task : Z) (state : ABT_task_state)
| Call_set_name (env : set_name_env) (task : Z) (name : option string)
| Call_get_name (task : Z) (name : option string) (len : Z).

Definition run_call (c : api_call) : M abt_errno :=
  match c with
  | Call_create env stream task_func arg newtask =>
      r ← ABT_task_create env stream task_func arg newtask; mret r.1
  | Call_free env task => r ← ABT_task_free env task; mret r.1
  | Call_cancel task => ABT_task_cancel task
  | Call_retain task => ABT_task_retain task
  | Call_release fuel task => ABT_task_release fuel task
  | Call_equal task1 task2 => r ← ABT_task_equal task1 task2; mret r.1
  | Call_get_state task state => r ← ABT_task_get_state task state; mret r.1
  | Call_set_name env task name => ABT_task_set_name env task name
  | Call_get_name task name len => r ← ABT_task_get_name task name len; mret r.1.1
  end.

(** An execution of calls one after the other, with the status of each,
    throughout which the task object at [p] stays live. *)
Inductive runs (p : Z) :
    ABTI_global → list (api_call * abt_errno) → ABTI_global → Prop :=
| runs_nil g : runs p g [] g
| runs_cons g c e g1 tr g' :
    run_call c g = Ret e g1 →
    is_Some (tasks g1 !! p) →
    runs p g1 tr g' →
    runs p g ((c, e) :: tr) g'.

(** The process state after the first [k] yields of a script. *)
Definition after_yields (yields : list (ABTI_global → ABTI_global))
    (k : nat) (g : ABTI_global) : ABTI_global :=
  foldl (λ g y, y g) g (take k yields).

(** The cancel bit of the request word is set. *)
Definition cancel_requested (t : ABTI_task) : Prop :=
  Z.land (t_request t) ABTI_TASK_REQ_CANCEL = ABTI_TASK_REQ_CANCEL.

(** What the rest of the runtime may do while a caller waits, for the
    properties of the request word and of the name: it leaves the request
    word and the name pointer of the task objects that are live before and
    after as they are. *)
Definition yield_keeps (y : ABTI_global → ABTI_global) : Prop :=
  ∀ g q t t', tasks g !! q = Some t → tasks (y g) !! q = Some t' →
    t_request t' = t_request t ∧ t_p_name t' = t_p_name t.

Definition env_keeps (c : api_call) : Prop :=
  match c with
  | Call_free env _ => ∀ k, yield_keeps (after_yields (fe_yields env) k)
  | _ => True
  end.

(** The call is an [ABT_task_set_name] on the task object at [p]. *)
Definition sets_name_of (p : Z) (c : api_call) : Prop :=
  match c with
  | Call_set_name _ task _ => ABTI_task_get_ptr task = p
  | _ => False
  end.

(** The request word and the name pointer of a task object before and after
    a call [c] on the object at [q] that returned [e]. *)
Definition task_kept (c : api_call) (e : abt_errno) (q : Z)
    (t t' : ABTI_task) : Prop :=
  (t_request t' = t_request t
   ∨ t_request t' = Z.lor (t_request t) ABTI_TASK_REQ_CANCEL)
  ∧ (t_p_name t' = t_p_name t ∨ t_p_name t' = NULL
     ∨ (sets_name_of q c ∧ e = ABT_SUCCESS)).

(** *** ABTI_task_print

    The text goes to the standard output; the model returns the calls of
    [printf] in order, each with its format and the values of its
    arguments.  The [default] case of the [switch] is not reachable with a
    state of the enumeration. *)
Inductive printf_arg : Type :=
| Arg_uint (z : Z)           (* an argument of %lu, %u or %x *)
| Arg_str (s : string).      (* the string an argument of %s points to *)

Inductive printf_call : Type :=
| Printf (format : string) (args : list printf_arg).

Definition task_state_label (st : ABT_task_state) : string :=
  match st with
  | ABT_TASK_STATE_CREATED => "CREATED "
  | ABT_TASK_STATE_DELAYED => "DELAYED "
  | ABT_TASK_STATE_RUNNING => "RUNNING "
  | ABT_TASK_STATE_COMPLETED => "COMPLETED "
  | ABT_TASK_STATE_TERMINATED => "TERMINATED "
  end.

Definition ABTI_task_print (p_task : Z) : M (abt_errno * list printf_call) :=
  if decide (p_task = NULL) then
    mret (ABT_SUCCESS, [Printf "[NULL TASK]" []])
  else
    t ← load_task p_task;
    s ← load_stream (t_p_stream t);
    name ← load_name (t_p_name t);
    mret (ABT_SUCCESS,
          [Printf "[" [];
           Printf "id:%lu " [Arg_uint (t_id t)];
           Printf "stream:%lu " [Arg_uint (s_id s)];
           Printf "name:%s " [Arg_str name];
           Printf "state:" [];
           Printf (task_state_label (t_state t)) [];
           Printf "refcount:%u " [Arg_uint (t_refcount t)];
           Printf "request:%x " [Arg_uint (t_request t)];
           Printf "]" []]).

(** ** Sequences of calls and what they keep *)

(** The same call [n] times in a row, stopping at nothing: the statuses are
    dropped. *)
Fixpoint mrepeat (n : nat) (c : M abt_errno) : M unit :=
  match n with
  | O => mret tt
  | S n' => c;; mrepeat n' c
  end.

(** An execution of calls one after the other, with the status of each. *)
Inductive executes :
    ABTI_global → list (api_call * abt_errno) → ABTI_global → Prop :=
| executes_nil g : executes g [] g
| executes_cons g c e g1 tr g' :
    run_call c g = Ret e g1 →
    executes g1 tr g' →
    executes g ((c, e) :: tr) g'.

(** The counter is a 64-bit value, and the ids of the live task objects are
    below it and pairwise different. *)
Definition ids_distinct (g : ABTI_global) : Prop :=
  0 ≤ task_id g < 2 ^ 64
  ∧ (∀ p t, tasks g !! p = Some t → 0 ≤ t_id t < task_id g)
  ∧ (∀ p q t u, tasks g !! p = Some t → tasks g !! q = Some u →
       t_id t = t_id u → p = q).

(** Every name pointer of a live task object is null or designates a live
    buffer, and no buffer is the name of two task objects. *)
Definition names_owned (g : ABTI_global) : Prop :=
  (∀ p t, tasks g !! p = Some t → t_p_name t ≠ NULL →
       is_Some (names g !! t_p_name t))
  ∧ (∀ p q t u, tasks g !! p = Some t → tasks g !! q = Some u →
       t_p_name t ≠ NULL → t_p_name t = t_p_name u → p = q).

(** What the rest of the runtime may do while a caller of [ABT_task_free]
    waits, for the property [I] of the process state: it keeps [I] and the
    id counter. *)
Definition env_preserves (I : ABTI_global → Prop) (c : api_call) : Prop :=
  match c with
  | Call_free env _ =>
      ∀ k g, I g →
        I (after_yields (fe_yields env) k g)
        ∧ task_id (after_yields (fe_yields env) k g) = task_id g
  | _ => True
  end.

(** The call is an [ABT_task_free] that did not succeed. *)
Definition failed_free (ce : api_call * abt_errno) : Prop :=
  match ce.1 with
  | Call_free _ _ => ce.2 ≠ ABT_SUCCESS
  | _ => False
  end.

End task_c.

(** ** Concrete headers and states used to exercise the theorems *)

(** A header with [(ABT_task)-1] and [(ABT_stream)-1] as null sentinels,
    bit 0 as the cancel bit and a generic factory that tags the handle. *)
Definition sample_header : abti_h :=
  {| ABT_TASK_NULL := -1;
     ABT_STREAM_NULL := -1;
     ABTI_TASK_REQ_CANCEL := 1;
     ABTI_unit_create_from_task := λ h, 2 * h;
     ABTI_unit_free := λ _, 0 |}.

Definition sample_task (st : ABT_task_state) (rc : Z) : ABTI_task :=
  {| t_id := 0; t_p_name := NULL; t_state := st; t_refcount := rc;
     t_request := 0; t_f_task := 100; t_p_arg := 200; t_mutex := 300;
     t_p_stream := 48; t_unit := 32 |}.

Definition sample_sched : ABTI_scheduler :=
  {| u_create_from_task := λ h, 2 * h + 1; u_free := λ _, 0; sched_pool := [] |}.

Definition sample_stream : ABTI_stream :=
  {| s_id := 0; s_state := ABT_STREAM_STATE_CREATED; s_p_sched := sample_sched;
     s_mutex := 400; s_deads := [32] |}.

(** A state with one stream at address 48 and no task, seen from a thread
    ([thread = 500]) or from a tasklet ([thread = NULL]). *)
Definition sample_start (thread : Z) : ABTI_global :=
  {| tasks := ∅; names := ∅; streams := {[ 48 := sample_stream ]};
     p_tasks := []; p_streams_active := []; p_streams_created := [48];
     task_id := 0; local_thread := thread |}.

(** The same state with one task object at address 16. *)
Definition sample_with_task (thread : Z) (st : ABT_task_state) (rc : Z)
    : ABTI_global :=
  set_tasks {[ 16 := sample_task st rc ]} (sample_start thread).

Definition sample_create_env (mutex_create : abt_errno) : create_env :=
  {| ce_malloc := 16; ce_block := sample_task ABT_TASK_STATE_RUNNING 77;
     ce_mutex_create := mutex_create; ce_mutex := 300;
     ce_global_add_task := ABT_SUCCESS;
     ce_stream_start_any := ABT_SUCCESS;
     ce_stream_start := ABT_SUCCESS |}.

(** The allocator fails. *)
Definition sample_create_env_nomem : create_env :=
  {| ce_malloc := NULL; ce_block := sample_task ABT_TASK_STATE_RUNNING 77;
     ce_mutex_create := ABT_SUCCESS; ce_mutex := 300;
     ce_global_add_task := ABT_SUCCESS;
     ce_stream_start_any := ABT_SUCCESS;
     ce_stream_start := ABT_SUCCESS |}.

(** The rest of the runtime completes the task at address 16 during a
    yield. *)
Definition sample_terminate (g : ABTI_global) : ABTI_global :=
  set_tasks (alter (set_t_state ABT_TASK_STATE_TERMINATED) 16 (tasks g)) g.

Definition sample_free_env : free_env :=
  {| fe_yields := [sample_terminate]; fe_mutex_free := ABT_SUCCESS |}.

(** The state with the task at address 16 created, cancelled and referenced
    [rc] times, its request word being [req]. *)
Definition sample_with_task_after_cancel (rc req : Z) : ABTI_global :=
  set_tasks
    {[ 16 := set_t_request req (sample_task ABT_TASK_STATE_CREATED rc) ]}
    (sample_start 500).

(** The state after a thread has created a task at address 16 on the stream
    at address 48, with [rc] references to the task. *)
Definition sample_created (rc : Z) : ABTI_global :=
  {| tasks :=
       {[ 16 := {| t_id := 0; t_p_name := NULL;
                   t_state := ABT_TASK_STATE_DELAYED; t_refcount := rc;
                   t_request := 0; t_f_task := 100; t_p_arg := 200;
                   t_mutex := 300; t_p_stream := 48; t_unit := 33 |} ]};
     names := ∅;
     streams :=
       {[ 48 := set_s_state ABT_STREAM_STATE_RUNNING
                  (set_s_p_sched (set_sched_pool [33] sample_sched)
                                 sample_stream) ]};
     p_tasks := []; p_streams_active := []; p_streams_created := [48];
     task_id := 1; local_thread := 500 |}.

(** The allocator of name buffers answers with address 64, or fails. *)
Definition sample_name_env : set_name_env :=
  {| sn_malloc := 64; sn_block := "" |}.

Definition sample_name_env_nomem : set_name_env :=
  {| sn_malloc := NULL; sn_block := "" |}.

(** The state with the running task at address 16, referenced once and
    named "worker-1" in the buffer at address 64. *)
Definition sample_named : ABTI_global :=
  set_names {[ 64 := "worker-1" ]}
    (set_tasks {[ 16 := set_t_p_name 64 (sample_task ABT_TASK_STATE_RUNNING 1) ]}
               (sample_start 500)).

(** The task terminates during the first yield and [ABT_mutex_free]
    fails. *)
Definition sample_free_env_fail : free_env :=
  {| fe_yields := [sample_terminate]; fe_mutex_free := ABT_ERR_OTHER 2 |}.

(** The state with a terminated task at address 16 that no stream has
    claimed. *)
Definition sample_unbound_terminated : ABTI_global :=
  set_tasks
    {[ 16 := set_t_p_stream NULL (sample_task ABT_TASK_STATE_TERMINATED 0) ]}
    (sample_start 500).

(** The stream cannot be started. *)
Definition sample_create_env_nostart : create_env :=
  {| ce_malloc := 16; ce_block := sample_task ABT_TASK_STATE_RUNNING 77;
     ce_mutex_create := ABT_SUCCESS; ce_mutex := 300;
     ce_global_add_task := ABT_SUCCESS;
     ce_stream_start_any := ABT_ERR_OTHER 3;
     ce_stream_start := ABT_ERR_OTHER 3 |}.

(** The allocator of task objects answers with address [p]. *)
Definition sample_create_env_at (p : Z) : create_env :=
  {| ce_malloc := p; ce_block := sample_task ABT_TASK_STATE_RUNNING 77;
     ce_mutex_create := ABT_SUCCESS; ce_mutex := 300;
     ce_global_add_task := ABT_SUCCESS;
     ce_stream_start_any := ABT_SUCCESS;
     ce_stream_start := ABT_SUCCESS |}.

(** * Properties *)

Section properties.
Context `{hdr : !abti_h}.

(** ** Reading the outcome of a computation *)

Lemma deref_Some {A} (m : gmap Z A) p x :
  deref m p = Some x ↔ p ≠ NULL ∧ m !! p = Some x.
Proof.
  unfold deref. destruct (decide (p = NULL)) as [->|Hp]; split.
  - done.
  - by intros [? _].
  - done.
  - by intros [_ ?].
Qed.

Lemma deref_null {A} (m : gmap Z A) : deref m NULL = None.
Proof. unfold deref. by rewrite decide_True. Qed.

Lemma deref_insert_eq {A} (m : gmap Z A) p x :
  p ≠ NULL → deref (<[p:=x]> m) p = Some x.
Proof. intros. unfold deref. rewrite decide_False by done. apply lookup_insert_eq. Qed.

Lemma deref_insert_ne {A} (m : gmap Z A) p q x :
  p ≠ q → deref (<[p:=x]> m) q = deref m q.
Proof. intros. unfold deref. case_decide; [done|]. by apply lookup_insert_ne. Qed.

Lemma bind_Ret {A B} (c : M A) (k : A → M B) g b g' :
  (c ≫= k) g = Ret b g' → ∃ a g1, c g = Ret a g1 ∧ k a g1 = Ret b g'.
Proof. unfold mbind, M_bind. destruct (c g) as [a g1| |]; [eauto|done..]. Qed.

Lemma bind_Ret_intro {A B} (c : M A) (k : A → M B) g a g1 :
  c g = Ret a g1 → (c ≫= k) g = k a g1.
Proof. unfold mbind, M_bind. by intros ->. Qed.

Lemma mret_Ret {A} (a b : A) g g' :
  (mret a : M A) g = Ret b g' → a = b ∧ g = g'.
Proof. by intros [= -> ->]. Qed.

Lemma load_task_Ret p g t g' :
  load_task p g = Ret t g' → deref (tasks g) p = Some t ∧ g' = g.
Proof. unfold load_task. destruct (deref _ _); [by intros [= -> ->]|done]. Qed.

Lemma update_task_Ret p f g u g' :
  update_task p f g = Ret u g' →
  ∃ t, deref (tasks g) p = Some t ∧ g' = set_tasks (<[p := f t]> (tasks g)) g.
Proof. unfold update_task. destruct (deref _ _); [intros [= <-]; eauto|done]. Qed.

Lemma load_stream_Ret p g s g' :
  load_stream p g = Ret s g' → deref (streams g) p = Some s ∧ g' = g.
Proof. unfold load_stream. destruct (deref _ _); [by intros [= -> ->]|done]. Qed.

Lemma update_stream_Ret p f g u g' :
  update_stream p f g = Ret u g' →
  ∃ s, deref (streams g) p = Some s
       ∧ g' = set_streams (<[p := f s]> (streams g)) g.
Proof. unfold update_stream. destruct (deref _ _); [intros [= <-]; eauto|done]. Qed.

Lemma get_global_Ret g a g' : get_global g = Ret a g' → a = g ∧ g' = g.
Proof. by intros [= -> ->]. Qed.

Lemma modify_global_Ret f g u g' : modify_global f g = Ret u g' → g' = f g.
Proof. by intros [= <-]. Qed.

Lemma atomic_task_Ret p get set op g r g' :
  atomic_task p get set op g = Ret r g' →
  ∃ t, deref (tasks g) p = Some t ∧ r = (op (get t)).1
       ∧ g' = set_tasks (<[p := set (op (get t)).2 t]> (tasks g)) g.
Proof.
  unfold atomic_task. intros Hrun.
  apply bind_Ret in Hrun as (t & g1 & [Ht ->]%load_task_Ret & Hrun).
  apply bind_Ret in Hrun as (u & g2 & (t' & Ht' & ->)%update_task_Ret & Hrun).
  apply mret_Ret in Hrun as [<- <-]. exists t. by simplify_eq.
Qed.

Lemma free_name_Ret p g u g' :
  ABTU_free_name p g = Ret u g' →
  is_Some (deref (names g) p) ∧ g' = set_names (delete p (names g)) g.
Proof. unfold ABTU_free_name. destruct (deref _ _); [intros [= <-]; eauto|done]. Qed.

Lemma free_task_Ret p g u g' :
  ABTU_free_task p g = Ret u g' →
  is_Some (deref (tasks g) p) ∧ g' = set_tasks (delete p (tasks g)) g.
Proof. unfold ABTU_free_task. destruct (deref _ _); [intros [= <-]; eauto|done]. Qed.

(** Decomposes the hypotheses that say that a computation returned. *)
Ltac minv :=
  repeat match goal with
  | H : @mbind _ _ _ _ _ _ _ = Ret _ _ |- _ =>
      apply bind_Ret in H; destruct H as (? & ? & ? & ?)
  | H : @mret _ _ _ _ _ = Ret _ _ |- _ =>
      apply mret_Ret in H; destruct H as [? ?]
  | H : load_task _ _ = Ret _ _ |- _ =>
      apply load_task_Ret in H; destruct H as [? ?]
  | H : update_task _ _ _ = Ret _ _ |- _ =>
      apply update_task_Ret in H; destruct H as (? & ? & ?)
  | H : atomic_task _ _ _ _ _ = Ret _ _ |- _ =>
      apply atomic_task_Ret in H; destruct H as (? & ? & ? & ?)
  | H : load_stream _ _ = Ret _ _ |- _ =>
      apply load_stream_Ret in H; destruct H as [? ?]
  | H : update_stream _ _ _ = Ret _ _ |- _ =>
      apply update_stream_Ret in H; destruct H as (? & ? & ?)
  | H : get_global _ = Ret _ _ |- _ =>
      apply get_global_Ret in H; destruct H as [? ?]
  | H : modify_global _ _ = Ret _ _ |- _ => apply modify_global_Ret in H
  | H : ABTU_free_name _ _ = Ret _ _ |- _ =>
      apply free_name_Ret in H; destruct H as [? ?]
  | H : ABTU_free_task _ _ = Ret _ _ |- _ =>
      apply free_task_Ret in H; destruct H as [? ?]
  | H : (if ?d then _ else _) _ = Ret _ _ |- _ => destruct d
  | H : @undefined _ _ = Ret _ _ |- _ => discriminate H
  | H : @out_of_fuel _ _ = Ret _ _ |- _ => discriminate H
  | H : ABTI_mutex_waitlock _ _ = Ret _ _ |- _ => unfold ABTI_mutex_waitlock in H
  | H : ABT_mutex_unlock _ _ = Ret _ _ |- _ => unfold ABT_mutex_unlock in H
  end.

(** Normalises the state projections and the lookups they expose. *)
Ltac msimpl :=
  repeat first
    [ progress subst
    | progress cbn [tasks names streams p_tasks p_streams_active
                    p_streams_created task_id local_thread
                    set_tasks set_names set_streams set_p_tasks
                    set_p_streams set_task_id] in *
    | match goal with
      | H : deref _ ?p = Some _ |- _ =>
          lazymatch goal with
          | _ : p ≠ NULL |- _ => fail
          | _ => assert (p ≠ NULL) by (apply deref_Some in H; tauto)
          end
      | H : deref (<[?p:=_]> _) ?p = Some _ |- _ =>
          rewrite deref_insert_eq in H by (first [assumption|congruence]);
          injection H as H
      | H : deref ?m ?p = Some _ |- context [deref (<[?p:=_]> _) ?p] =>
          rewrite deref_insert_eq by (apply deref_Some in H; tauto)
      end ].

(** Runs a computation forward on the goal. *)
Ltac mrun :=
  repeat first
    [ progress cbv beta iota delta
        [mbind M_bind mret M_ret load_task update_task load_stream
         update_stream ABTU_free_name ABTU_free_task ABTI_mutex_waitlock
         ABT_mutex_unlock modify_global get_global]
    | progress cbn [tasks names streams p_tasks p_streams_active
                    p_streams_created task_id local_thread
                    set_tasks set_names set_streams set_p_tasks
                    set_p_streams set_task_id] ].

(** ** Collaborators leave the task objects alone *)

Lemma stream_start_any_frame r g e g' :
  ABTI_stream_start_any r g = Ret e g' →
  tasks g' = tasks g ∧ names g' = names g ∧ p_tasks g' = p_tasks g
  ∧ local_thread g' = local_thread g.
Proof.
  unfold ABTI_stream_start_any. intros Hrun. minv. subst.
  destruct (p_streams_created _); minv; by subst.
Qed.

Lemma stream_start_frame r p g e g' :
  ABTI_stream_start r p g = Ret e g' →
  tasks g' = tasks g ∧ names g' = names g ∧ p_tasks g' = p_tasks g
  ∧ local_thread g' = local_thread g
  ∧ ∀ q s, deref (streams g) q = Some s →
           ∃ s', deref (streams g') q = Some s'
                 ∧ s_p_sched s' = s_p_sched s ∧ s_deads s' = s_deads s.
Proof.
  unfold ABTI_stream_start. intros Hrun. minv; subst; cbn; repeat split; eauto.
  intros q s Hq. destruct (decide (p = q)) as [->|Hne].
  - rewrite deref_insert_eq by (apply deref_Some in Hq; tauto).
    simplify_eq. eauto.
  - rewrite deref_insert_ne by done. eauto.
Qed.

(** ** What a successful [ABT_task_create] has done *)

Lemma create_global_ok env p h g t g' :
  deref (tasks g) p = Some t →
  create_global env p h g = Ret ABT_SUCCESS g' →
  tasks g' = <[p := set_t_unit (ABTI_unit_create_from_task h)
                     (set_t_p_stream NULL t)]> (tasks g)
  ∧ p_tasks g' = ABTI_pool_push (p_tasks g) (ABTI_unit_create_from_task h)
  ∧ names g' = names g.
Proof.
  intros Ht Hrun. unfold create_global, ABTI_global_add_task in Hrun.
  minv; msimpl; try done; simplify_eq.
  - match goal with
    | Hs : ABTI_stream_start_any _ _ = Ret _ _ |- _ =>
        apply stream_start_any_frame in Hs as (-> & -> & -> & _)
    end.
    cbn. by rewrite insert_insert_eq.
  - cbn. by rewrite insert_insert_eq.
Qed.

Lemma create_bound_ok env stream p h g t g' :
  deref (tasks g) p = Some t →
  create_bound env stream p h g = Ret ABT_SUCCESS g' →
  ∃ s s', deref (streams g) (ABTI_stream_get_ptr stream) = Some s
    ∧ deref (streams g') (ABTI_stream_get_ptr stream) = Some s'
    ∧ tasks g' = <[p := set_t_unit (u_create_from_task (s_p_sched s) h)
                       (set_t_p_stream (ABTI_stream_get_ptr stream)
                          (set_t_state ABT_TASK_STATE_DELAYED t))]> (tasks g)
    ∧ sched_pool (s_p_sched s')
      = ABTI_pool_push (sched_pool (s_p_sched s))
                       (u_create_from_task (s_p_sched s) h)
    ∧ p_tasks g' = p_tasks g
    ∧ names g' = names g.
Proof.
  intros Ht Hrun. unfold create_bound, ABTI_scheduler_push in Hrun.
  minv; msimpl; simplify_eq.
  - match goal with
    | Hs : ABTI_stream_start _ _ _ = Ret _ _ |- _ =>
        apply stream_start_frame in Hs as (-> & -> & -> & _ & Hs);
        edestruct Hs as (s' & Hs' & Hsched & _);
          [cbn; by apply deref_insert_eq|]
    end.
    eexists _, s'. split; [done|]. split; [done|]. rewrite Hsched. cbn.
    by rewrite !insert_insert_eq.
  - eexists _, _. split; [done|]. split; [done|]. cbn.
    by rewrite !insert_insert_eq.
Qed.

Lemma ABTU_malloc_fresh {A} (heap : gmap Z A) proposal :
  ABTU_malloc heap proposal ≠ NULL →
  ABTU_malloc heap proposal = proposal ∧ proposal ≠ NULL
  ∧ heap !! proposal = None.
Proof. unfold ABTU_malloc. case_decide; [tauto|done]. Qed.

Lemma ABT_task_create_success env stream task_func arg newtask g out g' :
  ABT_task_create env stream task_func arg newtask g = Ret (ABT_SUCCESS, out) g' →
  let p := ce_malloc env in
  let t0 := created_task env g task_func arg newtask in
  p ≠ NULL ∧ tasks g !! p = None ∧ out = (λ _, p) <$> newtask
  ∧ names g' = names g
  ∧ ((stream = ABT_STREAM_NULL
      ∧ tasks g' = <[p := set_t_unit (ABTI_unit_create_from_task p)
                           (set_t_p_stream NULL t0)]> (tasks g)
      ∧ p_tasks g' = ABTI_pool_push (p_tasks g) (ABTI_unit_create_from_task p))
     ∨ (stream ≠ ABT_STREAM_NULL
        ∧ ∃ s s', deref (streams g) stream = Some s
          ∧ deref (streams g') stream = Some s'
          ∧ tasks g' = <[p := set_t_unit (u_create_from_task (s_p_sched s) p)
                               (set_t_p_stream stream
                                  (set_t_state ABT_TASK_STATE_DELAYED t0))]>
                         (tasks g)
          ∧ sched_pool (s_p_sched s')
            = ABTI_pool_push (sched_pool (s_p_sched s))
                             (u_create_from_task (s_p_sched s) p)
          ∧ p_tasks g' = p_tasks g)).
Proof.
  intros Hrun p t0. unfold ABT_task_create in Hrun.
  apply bind_Ret in Hrun as (g0 & g1 & [-> ->]%get_global_Ret & Hrun).
  destruct (decide (ABTU_malloc (tasks g) (ce_malloc env) = NULL)) as [|Hm].
  { by apply mret_Ret in Hrun as [[=] _]. }
  apply ABTU_malloc_fresh in Hm as (Hm & Hp & Hfresh). rewrite !Hm in Hrun.
  fold p in Hrun, Hp, Hfresh.
  unfold ABTI_task_get_new_id, ABT_mutex_create, ABTD_atomic_fetch_add_uint64 in Hrun.
  unfold ABTI_task_get_handle in Hrun. rewrite (decide_False (P := p = NULL)) in Hrun by done.
  minv; msimpl; simplify_eq; cbn [fst snd] in *;
    (assert (ce_mutex_create env = ABT_SUCCESS) as Hmx
       by (destruct (decide (ce_mutex_create env = ABT_SUCCESS)); [done|contradiction]));
    rewrite Hmx in *; rewrite decide_True in * by done;
    (split; [done|]); (split; [done|]); (split; [done|]).
  - match goal with
    | Hc : create_global _ _ _ _ = Ret _ _ |- _ =>
        eapply create_global_ok in Hc as (-> & -> & ->);
          [|cbn; by apply deref_insert_eq]
    end.
    cbn. split; [done|]. left. split; [done|]. split; [|done].
    by rewrite !insert_insert_eq.
  - match goal with
    | Hc : create_bound _ _ _ _ _ = Ret _ _ |- _ =>
        eapply create_bound_ok in Hc as (s & s' & Hs & Hs' & -> & Hpool & -> & ->);
          [|cbn; by apply deref_insert_eq]
    end.
    unfold ABTI_stream_get_ptr in *. rewrite decide_False in * by done.
    cbn in Hs. cbn. split; [done|]. right. split; [done|].
    exists s, s'. rewrite !insert_insert_eq. done.
Qed.

(** C3: after a successful [ABT_task_create] the new task object, at the
    address the handle designates, is CREATED, bound to no stream, wrapped
    by the generic factory and pushed into the global pool when no stream
    was given; it is DELAYED, bound to the given stream, wrapped by the
    factory of that stream's scheduler and pushed into that scheduler's
    pool when a stream was given. *)
Theorem ABT_task_create_binding env stream task_func arg newtask g out g' :
  ABT_task_create env stream task_func arg newtask g = Ret (ABT_SUCCESS, out) g' →
  let p := ce_malloc env in
  ∃ t, tasks g !! p = None ∧ deref (tasks g') p = Some t
    ∧ out = (λ _, p) <$> newtask
    ∧ if decide (stream = ABT_STREAM_NULL) then
        t_state t = ABT_TASK_STATE_CREATED
        ∧ t_p_stream t = NULL
        ∧ t_unit t = ABTI_unit_create_from_task p
        ∧ p_tasks g' = ABTI_pool_push (p_tasks g) (t_unit t)
        ∧ t_unit t ∈ p_tasks g'
      else
        ∃ s s', deref (streams g) stream = Some s
          ∧ deref (streams g') stream = Some s'
          ∧ t_state t = ABT_TASK_STATE_DELAYED
          ∧ t_p_stream t = stream
          ∧ t_unit t = u_create_from_task (s_p_sched s) p
          ∧ sched_pool (s_p_sched s')
            = ABTI_pool_push (sched_pool (s_p_sched s)) (t_unit t)
          ∧ t_unit t ∈ sched_pool (s_p_sched s').
Proof.
  intros Hrun p.
  apply ABT_task_create_success in Hrun
    as (Hp & Hfresh & -> & _ & [(-> & Ht & Hpool)|(Hne & s & s' & Hs & Hs' & Ht & Hpool & _)]);
    fold p in Hp, Hfresh, Ht, Hpool |- *.
  - eexists. split; [done|]. split; [rewrite Ht; by apply deref_insert_eq|].
    split; [done|]. rewrite decide_True by done. cbn.
    repeat split; try done. rewrite Hpool. unfold ABTI_pool_push. set_solver.
  - eexists. split; [done|]. split; [rewrite Ht; by apply deref_insert_eq|].
    split; [done|]. rewrite decide_False by done. exists s, s'. cbn.
    repeat split; try done. rewrite Hpool. unfold ABTI_pool_push. set_solver.
Qed.

(** C4: after a successful [ABT_task_create] the reference count of the new
    task object is 1 when the caller passed an output handle and 0 when it
    passed none. *)
Theorem ABT_task_create_refcount env stream task_func arg newtask g out g' :
  ABT_task_create env stream task_func arg newtask g = Ret (ABT_SUCCESS, out) g' →
  ∃ t, tasks g !! ce_malloc env = None
    ∧ deref (tasks g') (ce_malloc env) = Some t
    ∧ t_refcount t = match newtask with Some _ => 1 | None => 0 end.
Proof.
  intros Hrun.
  apply ABT_task_create_success in Hrun
    as (Hp & Hfresh & _ & _ & [(_ & Ht & _)|(_ & s & s' & _ & _ & Ht & _)]).
  - eexists. split; [done|]. split; [rewrite Ht; by apply deref_insert_eq|]. done.
  - eexists. split; [done|]. split; [rewrite Ht; by apply deref_insert_eq|]. done.
Qed.

(** ** What a failing [ABT_task_create] has done *)

Lemma create_global_live env p h g e g' :
  create_global env p h g = Ret e g' → is_Some (tasks g' !! p).
Proof.
  intros Hrun. unfold create_global, ABTI_global_add_task in Hrun.
  minv; msimpl; simplify_eq;
    try match goal with
    | Hs : ABTI_stream_start_any _ _ = Ret _ _ |- _ =>
        apply stream_start_any_frame in Hs as (-> & _)
    end; cbn; by rewrite lookup_insert_eq.
Qed.

Lemma create_bound_live env stream p h g e g' :
  create_bound env stream p h g = Ret e g' → is_Some (tasks g' !! p).
Proof.
  intros Hrun. unfold create_bound, ABTI_scheduler_push in Hrun.
  minv; msimpl; simplify_eq;
    try match goal with
    | Hs : ABTI_stream_start _ _ _ = Ret _ _ |- _ =>
        apply stream_start_frame in Hs as (-> & _)
    end; cbn; by rewrite lookup_insert_eq.
Qed.

(** When the allocation fails the output cell receives the null sentinel
    and the state is untouched; when a later step fails the output cell
    keeps what it held and the task object stays allocated. *)
Lemma ABT_task_create_failure env stream task_func arg newtask g e out g' :
  ABT_task_create env stream task_func arg newtask g = Ret (e, out) g' →
  e ≠ ABT_SUCCESS →
  (ABTU_malloc (tasks g) (ce_malloc env) = NULL ∧ e = ABT_ERR_MEM
   ∧ out = (λ _, ABT_TASK_NULL) <$> newtask ∧ g' = g)
  ∨ (ABTU_malloc (tasks g) (ce_malloc env) ≠ NULL ∧ out = newtask
     ∧ is_Some (tasks g' !! ce_malloc env)).
Proof.
  intros Hrun He. unfold ABT_task_create in Hrun.
  apply bind_Ret in Hrun as (g0 & g1 & [-> ->]%get_global_Ret & Hrun).
  destruct (decide (ABTU_malloc (tasks g) (ce_malloc env) = NULL)) as [Hm|Hm].
  { apply mret_Ret in Hrun as [[= <- <-] <-]. by left. }
  right. split; [done|].
  apply ABTU_malloc_fresh in Hm as (Hm & Hp & Hfresh). rewrite !Hm in Hrun.
  unfold ABTI_task_get_new_id, ABT_mutex_create, ABTD_atomic_fetch_add_uint64 in Hrun.
  minv; msimpl; simplify_eq; cbn [fst snd] in *; try done; (split; [done|]).
  - by rewrite lookup_insert_eq.
  - by eapply create_global_live.
  - by eapply create_bound_live.
Qed.

(** ** [ABT_task_free] *)

Lemma after_yields_cons y ys k g :
  after_yields (y :: ys) (S k) g = after_yields ys k (y g).
Proof. done. Qed.

Lemma wait_terminated_Ret yields p g u g' :
  wait_terminated yields p g = Ret u g' →
  ∃ k t, (k ≤ length yields)%nat
    ∧ g' = after_yields yields k g
    ∧ deref (tasks g') p = Some t
    ∧ t_state t = ABT_TASK_STATE_TERMINATED
    ∧ ∀ j, (j < k)%nat →
        ∃ tj, deref (tasks (after_yields yields j g)) p = Some tj
              ∧ t_state tj ≠ ABT_TASK_STATE_TERMINATED.
Proof.
  revert g. induction yields as [|y ys IH]; intros g Hrun; cbn in Hrun.
  - apply bind_Ret in Hrun as (t & g1 & [Ht ->]%load_task_Ret & Hrun).
    destruct (decide (t_state t ≠ ABT_TASK_STATE_TERMINATED)) as [Hst|Hst];
      [done|].
    apply mret_Ret in Hrun as [_ <-].
    exists 0%nat, t. repeat split; try done. { by apply dec_stable. } lia.
  - apply bind_Ret in Hrun as (t & g1 & [Ht ->]%load_task_Ret & Hrun).
    destruct (decide (t_state t ≠ ABT_TASK_STATE_TERMINATED)) as [Hst|Hst].
    + apply bind_Ret in Hrun as (? & g2 & ->%modify_global_Ret & Hrun).
      apply IH in Hrun as (k & t' & Hk & -> & Ht' & Hst' & Hbefore).
      exists (S k), t'. rewrite after_yields_cons. cbn [length].
      repeat split; try done; [lia|].
      intros [|j] Hj; [by exists t|].
      rewrite after_yields_cons. apply Hbefore. lia.
    + apply mret_Ret in Hrun as [_ <-].
      exists 0%nat, t. repeat split; try done.
      * cbn [length]; lia.
      * by apply dec_stable.
      * lia.
Qed.

Lemma ABTI_task_free_Ret mutex_free p g e g' :
  ABTI_task_free mutex_free p g = Ret e g' →
  e = mutex_free
  ∧ ∃ t, deref (tasks g) p = Some t
    ∧ (e = ABT_SUCCESS → tasks g' = delete p (tasks g))
    ∧ (e ≠ ABT_SUCCESS →
       ∃ u, tasks g' = <[p := set_t_unit u t]> (tasks g))
    ∧ streams g' = streams g ∧ p_tasks g' = p_tasks g
    ∧ local_thread g' = local_thread g.
Proof.
  intros Hrun. unfold ABTI_task_free in Hrun.
  minv; msimpl; simplify_eq;
    (split; [done|]);
    (eexists; split; [done|]);
    (split; [intros He; try done; cbn; by rewrite delete_insert_eq|]);
    (split; [intros He; try done; cbn; eauto|]); done.
Qed.

Lemma free_terminated_Ret mutex_free task p g e cell g' :
  free_terminated mutex_free task p g = Ret (e, cell) g' →
  e = mutex_free
  ∧ ∃ t, deref (tasks g) p = Some t
    ∧ (e = ABT_SUCCESS → cell = ABT_TASK_NULL ∧ tasks g' = delete p (tasks g))
    ∧ (e ≠ ABT_SUCCESS →
       cell = task ∧ ∃ u, tasks g' = <[p := set_t_unit u t]> (tasks g))
    ∧ p_tasks g' = p_tasks g ∧ local_thread g' = local_thread g.
Proof.
  intros Hrun. unfold free_terminated in Hrun.
  minv; msimpl; simplify_eq;
    match goal with
    | Hf : ABTI_task_free _ _ _ = Ret _ _ |- _ =>
        apply ABTI_task_free_Ret in Hf
          as (-> & t & Ht & Hok & Hfail & Hstreams & Hpool & Hthread)
    end; cbn in *; simplify_eq;
    (split; [done|]); (eexists; split; [done|]);
    (split; [intros He; first [done | split; [done|auto]]|]);
    (split; [intros He; first [done | split; [done|auto]]|]); done.
Qed.


Lemma wait_terminated_returns yields p g k t :
  (k ≤ length yields)%nat →
  deref (tasks (after_yields yields k g)) p = Some t →
  t_state t = ABT_TASK_STATE_TERMINATED →
  (∀ j, (j < k)%nat →
     ∃ tj, deref (tasks (after_yields yields j g)) p = Some tj
           ∧ t_state tj ≠ ABT_TASK_STATE_TERMINATED) →
  wait_terminated yields p g = Ret tt (after_yields yields k g).
Proof.
  revert g k. induction yields as [|y ys IH]; intros g k Hk Ht Hst Hbefore.
  - cbn [length] in Hk. assert (k = 0%nat) as -> by lia.
    cbn in Ht |- *. unfold mbind, M_bind, load_task. rewrite Ht.
    rewrite decide_False; [done|]. by intros [].
  - destruct k as [|k].
    + cbn in Ht |- *. unfold mbind, M_bind, load_task. rewrite Ht.
      rewrite decide_False; [done|]. by intros [].
    + destruct (Hbefore 0%nat) as (t0 & Ht0 & Hst0); [lia|].
      cbn in Ht0. cbn [wait_terminated]. unfold mbind, M_bind at 1.
      unfold load_task at 1. rewrite Ht0. rewrite decide_True by done.
      unfold mbind, M_bind at 1. unfold modify_global at 1.
      rewrite after_yields_cons. apply IH.
      * cbn [length] in Hk. lia.
      * by rewrite <- after_yields_cons.
      * done.
      * intros j Hj. rewrite <- after_yields_cons. apply Hbefore. lia.
Qed.

(** When the task terminates during the wait and the pointers of the task
    object designate live objects, [ABT_task_free] returns. *)
Lemma ABT_task_free_returns env task g k t s :
  local_thread g ≠ NULL →
  (k ≤ length (fe_yields env))%nat →
  let p := ABTI_task_get_ptr task in
  let g_k := after_yields (fe_yields env) k g in
  deref (tasks g_k) p = Some t →
  t_state t = ABT_TASK_STATE_TERMINATED →
  (∀ j, (j < k)%nat →
     ∃ tj, deref (tasks (after_yields (fe_yields env) j g)) p = Some tj
           ∧ t_state tj ≠ ABT_TASK_STATE_TERMINATED) →
  deref (streams g_k) (t_p_stream t) = Some s →
  t_p_name t = NULL ∨ is_Some (deref (names g_k) (t_p_name t)) →
  ∃ g', ABT_task_free env task g
        = Ret (fe_mutex_free env,
               if decide (fe_mutex_free env = ABT_SUCCESS)
               then ABT_TASK_NULL else task) g'.
Proof.
  intros Hthread Hk p g_k Ht Hst Hbefore Hs Hname.
  assert (p ≠ NULL) as Hp by (apply deref_Some in Ht; tauto).
  assert (t_p_stream t ≠ NULL) as Hps by (apply deref_Some in Hs; tauto).
  unfold ABT_task_free. unfold mbind at 1, M_bind at 1, get_global at 1.
  rewrite decide_False by done. fold p.
  unfold mbind at 1, M_bind at 1.
  rewrite (wait_terminated_returns _ _ _ k t Hk Ht Hst Hbefore). fold g_k.
  unfold free_terminated, ABTI_task_free.
  destruct Hname as [Hnull|[nm Hnm]].
  - repeat first
      [ progress mrun
      | rewrite Ht | rewrite Hs | rewrite Hnull
      | rewrite deref_insert_eq by done
      | case_decide ];
      try done; eauto.
  - repeat first
      [ progress mrun
      | rewrite Ht | rewrite Hs | rewrite Hnm
      | rewrite deref_insert_eq by done
      | case_decide ];
      try done; eauto.
Qed.

(** C5: from a thread, [ABT_task_free] returns only once it has read the
    state TERMINATED from the task object, after some number of yields
    before each of which it read another state; when it succeeds the task
    object is deallocated and the handle cell holds the null sentinel; and
    whatever it returns, every task object that is live afterwards has the
    reference count it had when the wait ended. *)
Theorem ABT_task_free_waits_then_deallocates env task g e cell g' :
  local_thread g ≠ NULL →
  ABT_task_free env task g = Ret (e, cell) g' →
  let p := ABTI_task_get_ptr task in
  let at_yield k := after_yields (fe_yields env) k g in
  ∃ k t, (k ≤ length (fe_yields env))%nat
    ∧ deref (tasks (at_yield k)) p = Some t
    ∧ t_state t = ABT_TASK_STATE_TERMINATED
    ∧ (∀ j, (j < k)%nat →
         ∃ tj, deref (tasks (at_yield j)) p = Some tj
               ∧ t_state tj ≠ ABT_TASK_STATE_TERMINATED)
    ∧ (e = ABT_SUCCESS →
         cell = ABT_TASK_NULL ∧ tasks g' = delete p (tasks (at_yield k))
         ∧ deref (tasks g') p = None)
    ∧ (∀ q tq', tasks g' !! q = Some tq' →
         ∃ tq, tasks (at_yield k) !! q = Some tq
               ∧ t_refcount tq' = t_refcount tq).
Proof.
  intros Hthread Hrun p at_yield. unfold ABT_task_free in Hrun.
  apply bind_Ret in Hrun as (g0 & g1 & [-> ->]%get_global_Ret & Hrun).
  rewrite decide_False in Hrun by done.
  apply bind_Ret in Hrun as (? & g1 & Hwait & Hrun). fold p in Hwait, Hrun.
  apply wait_terminated_Ret in Hwait as (k & t & Hk & -> & Ht & Hst & Hbefore).
  apply free_terminated_Ret in Hrun as (-> & t' & Ht' & Hok & Hfail & _).
  fold (at_yield k) in Ht, Ht', Hok, Hfail. simplify_eq.
  exists k, t. repeat split; try done.
  - by apply Hok.
  - by apply Hok.
  - destruct Hok as [_ ->]; [done|]. unfold deref. case_decide; [done|].
    apply lookup_delete_eq.
  - intros q tq' Hq.
    destruct (decide (fe_mutex_free env = ABT_SUCCESS)) as [He|He].
    + destruct Hok as [_ Hg']; [done|]. rewrite Hg' in Hq.
      apply lookup_delete_Some in Hq as [_ Hq]. eauto.
    + destruct Hfail as [_ [u Hg']]; [done|]. rewrite Hg' in Hq.
      apply deref_Some in Ht as [_ Ht].
      destruct (decide (p = q)) as [<-|Hne].
      * rewrite lookup_insert_eq in Hq. simplify_eq. eauto.
      * rewrite lookup_insert_ne in Hq by done. eauto.
Qed.

(** C6: from a tasklet, [ABT_task_free] returns the illegal-caller-context
    error and leaves the whole process state (every task object with its
    state, reference count and name, and every pool) and the handle cell
    as they were. *)
Theorem ABT_task_free_from_task_context env task g :
  local_thread g = NULL →
  ABT_task_free env task g = Ret (ABT_ERR_TASK, task) g.
Proof.
  intros Hthread. unfold ABT_task_free, mbind, M_bind, get_global.
  by rewrite decide_True.
Qed.

(** ** Retain and release by one caller *)

Lemma set_tasks_id g : set_tasks (tasks g) g = g.
Proof. by destruct g. Qed.

Lemma set_t_refcount_id t : set_t_refcount (t_refcount t) t = t.
Proof. by destruct t. Qed.

Lemma ABT_task_retain_Ret task g t :
  deref (tasks g) (ABTI_task_get_ptr task) = Some t →
  ABT_task_retain task g
  = Ret ABT_SUCCESS
      (set_tasks (<[ABTI_task_get_ptr task :=
                      set_t_refcount (wrap32 (t_refcount t + 1)) t]> (tasks g)) g).
Proof.
  intros Ht. unfold ABT_task_retain.
  rewrite decide_False by (apply deref_Some in Ht; tauto).
  unfold atomic_task, mbind, M_bind, mret, M_ret, load_task, update_task.
  by rewrite !Ht.
Qed.

(** One loop test suffices when no other party touches the counter. *)
Lemma release_loop_Ret fuel p g t :
  deref (tasks g) p = Some t →
  release_loop (S fuel) p g
  = Ret tt (if decide (t_refcount t > 0)
            then set_tasks (<[p := set_t_refcount (wrap32 (t_refcount t - 1)) t]>
                              (tasks g)) g
            else g).
Proof.
  intros Ht. cbn [release_loop].
  unfold atomic_task, mbind, M_bind, mret, M_ret, load_task, update_task.
  rewrite Ht.
  destruct (decide (t_refcount t > 0)); [|done].
  repeat first [rewrite Ht | rewrite decide_True by done | progress cbn].
  done.
Qed.

Lemma ABT_task_release_Ret fuel task g t :
  deref (tasks g) (ABTI_task_get_ptr task) = Some t →
  ABT_task_release (S fuel) task g
  = Ret ABT_SUCCESS
      (if decide (t_refcount t > 0)
       then set_tasks (<[ABTI_task_get_ptr task :=
                           set_t_refcount (wrap32 (t_refcount t - 1)) t]>
                         (tasks g)) g
       else g).
Proof.
  intros Ht. unfold ABT_task_release.
  rewrite decide_False by (apply deref_Some in Ht; tauto).
  unfold mbind, M_bind at 1. by rewrite (release_loop_Ret _ _ _ t).
Qed.

(** C2 (as amended): for a handle to a live task whose reference count is
    below the largest 32-bit value, [ABT_task_retain] raises the count by
    one and the [ABT_task_release] that follows brings the process state,
    and with it the count, back to what it was before the pair. *)
Theorem ABT_task_retain_release_restores fuel task g t :
  deref (tasks g) (ABTI_task_get_ptr task) = Some t →
  0 ≤ t_refcount t < uint32_max →
  ∃ g1 t1,
    ABT_task_retain task g = Ret ABT_SUCCESS g1
    ∧ deref (tasks g1) (ABTI_task_get_ptr task) = Some t1
    ∧ t_refcount t1 = t_refcount t + 1
    ∧ ABT_task_release (S fuel) task g1 = Ret ABT_SUCCESS g.
Proof.
  intros Ht Hrc. unfold uint32_max in Hrc.
  assert (ABTI_task_get_ptr task ≠ NULL) as Hp by (apply deref_Some in Ht; tauto).
  eexists _, _. split; [by apply ABT_task_retain_Ret|].
  split; [cbn; by apply deref_insert_eq|].
  assert (wrap32 (t_refcount t + 1) = t_refcount t + 1) as Hw
    by (unfold wrap32; apply Z.mod_small; lia).
  split; [done|].
  erewrite ABT_task_release_Ret by (cbn; by apply deref_insert_eq).
  cbn. rewrite Hw. rewrite decide_True by lia. f_equal.
  replace (t_refcount t + 1 - 1) with (t_refcount t) by lia.
  unfold wrap32. rewrite Z.mod_small by lia.
  rewrite insert_insert_eq.
  replace (set_t_refcount (t_refcount t) (set_t_refcount (t_refcount t + 1) t))
    with t by (by destruct t).
  apply deref_Some in Ht as [_ Ht]. rewrite insert_id by done.
  by destruct g.
Qed.

(** ** The null handle *)

Lemma ABTI_task_get_ptr_null : ABTI_task_get_ptr ABT_TASK_NULL = NULL.
Proof. unfold ABTI_task_get_ptr. by rewrite decide_True. Qed.

(** C9 (as amended): with the null handle, [ABT_task_get_state],
    [ABT_task_get_name], [ABT_task_set_name], [ABT_task_retain] and
    [ABT_task_release] return the invalid-task error and leave the process
    state and the output cells as they were; so does [ABT_task_cancel]
    when a thread calls it, while from a tasklet it returns the
    illegal-caller-context error, the state again untouched. *)
Theorem null_handle_is_invalid_task g st name len env nm fuel :
  ABT_task_get_state ABT_TASK_NULL st g = Ret (ABT_ERR_INV_TASK, st) g
  ∧ ABT_task_get_name ABT_TASK_NULL name len g
    = Ret (ABT_ERR_INV_TASK, name, len) g
  ∧ ABT_task_set_name env ABT_TASK_NULL nm g = Ret ABT_ERR_INV_TASK g
  ∧ ABT_task_retain ABT_TASK_NULL g = Ret ABT_ERR_INV_TASK g
  ∧ ABT_task_release fuel ABT_TASK_NULL g = Ret ABT_ERR_INV_TASK g
  ∧ (local_thread g ≠ NULL →
     ABT_task_cancel ABT_TASK_NULL g = Ret ABT_ERR_INV_TASK g)
  ∧ (local_thread g = NULL →
     ABT_task_cancel ABT_TASK_NULL g = Ret ABT_ERR_TASK g).
Proof.
  unfold ABT_task_get_state, ABT_task_get_name, ABT_task_set_name,
    ABT_task_retain, ABT_task_release, ABT_task_cancel.
  rewrite ABTI_task_get_ptr_null. rewrite !decide_True by done.
  repeat split; try done.
  - intros Hthread. unfold mbind, M_bind, get_global.
    by rewrite decide_False.
  - intros Hthread. unfold mbind, M_bind, get_global.
    by rewrite decide_True.
Qed.

(** ** What one call does to the task objects that stay live *)

Lemma task_kept_refl c e q t : task_kept c e q t t.
Proof. split; by left. Qed.

Lemma create_global_tasks env p h g e g' :
  create_global env p h g = Ret e g' → ∃ t', tasks g' = <[p := t']> (tasks g).
Proof.
  intros Hrun. unfold create_global, ABTI_global_add_task in Hrun.
  minv; msimpl; simplify_eq;
    try match goal with
    | Hs : ABTI_stream_start_any _ _ = Ret _ _ |- _ =>
        apply stream_start_any_frame in Hs as (-> & _)
    end; cbn; rewrite ?insert_insert_eq; eauto.
Qed.

Lemma create_bound_tasks env stream p h g e g' :
  create_bound env stream p h g = Ret e g' → ∃ t', tasks g' = <[p := t']> (tasks g).
Proof.
  intros Hrun. unfold create_bound, ABTI_scheduler_push in Hrun.
  minv; msimpl; simplify_eq;
    try match goal with
    | Hs : ABTI_stream_start _ _ _ = Ret _ _ |- _ =>
        apply stream_start_frame in Hs as (-> & _)
    end; cbn; rewrite ?insert_insert_eq; eauto.
Qed.

(** [ABT_task_create] leaves the task objects that were live as they are. *)
Lemma ABT_task_create_frame env stream task_func arg newtask g r g' q t :
  ABT_task_create env stream task_func arg newtask g = Ret r g' →
  tasks g !! q = Some t → tasks g' !! q = Some t.
Proof.
  intros Hrun Hq. unfold ABT_task_create in Hrun.
  apply bind_Ret in Hrun as (g0 & g1 & [-> ->]%get_global_Ret & Hrun).
  destruct (decide (ABTU_malloc (tasks g) (ce_malloc env) = NULL)) as [Hm|Hm].
  { by apply mret_Ret in Hrun as [_ <-]. }
  apply ABTU_malloc_fresh in Hm as (Hm & Hp & Hfresh). rewrite !Hm in Hrun.
  assert (ce_malloc env ≠ q) as Hne by congruence.
  unfold ABTI_task_get_new_id, ABT_mutex_create, ABTD_atomic_fetch_add_uint64 in Hrun.
  minv; msimpl; simplify_eq; cbn [fst snd] in *;
    try match goal with
    | Hc : create_global _ _ _ _ = Ret _ _ |- _ =>
        apply create_global_tasks in Hc as [? ->]
    | Hc : create_bound _ _ _ _ _ = Ret _ _ |- _ =>
        apply create_bound_tasks in Hc as [? ->]
    end; cbn; by rewrite !lookup_insert_ne.
Qed.

Lemma ABT_task_cancel_Ret task g e g' :
  ABT_task_cancel task g = Ret e g' →
  (g' = g ∧ e ≠ ABT_SUCCESS)
  ∨ ∃ t, local_thread g ≠ NULL
      ∧ deref (tasks g) (ABTI_task_get_ptr task) = Some t
      ∧ e = ABT_SUCCESS
      ∧ g' = set_tasks
               (<[ABTI_task_get_ptr task :=
                    set_t_request (Z.lor (t_request t) ABTI_TASK_REQ_CANCEL) t]>
                  (tasks g)) g.
Proof.
  intros Hrun. unfold ABT_task_cancel in Hrun.
  minv; msimpl; simplify_eq; [by left..|].
  right. eexists. by repeat split.
Qed.

Lemma ABT_task_retain_inv task g e g' :
  ABT_task_retain task g = Ret e g' →
  g' = g
  ∨ ∃ t v, deref (tasks g) (ABTI_task_get_ptr task) = Some t
      ∧ g' = set_tasks (<[ABTI_task_get_ptr task := set_t_refcount v t]>
                          (tasks g)) g.
Proof.
  intros Hrun. unfold ABT_task_retain in Hrun.
  minv; msimpl; simplify_eq; [by left|].
  right. eexists _, _. by split.
Qed.

Lemma ABT_task_release_inv fuel task g e g' :
  ABT_task_release fuel task g = Ret e g' →
  g' = g
  ∨ ∃ t v, deref (tasks g) (ABTI_task_get_ptr task) = Some t
      ∧ g' = set_tasks (<[ABTI_task_get_ptr task := set_t_refcount v t]>
                          (tasks g)) g.
Proof.
  intros Hrun. unfold ABT_task_release in Hrun.
  destruct (decide (ABTI_task_get_ptr task = NULL)) as [|Hp].
  { apply mret_Ret in Hrun as [_ <-]. by left. }
  apply bind_Ret in Hrun as (? & g1 & Hloop & [_ <-]%mret_Ret).
  destruct fuel as [|fuel]; [done|].
  destruct (deref (tasks g) (ABTI_task_get_ptr task)) as [t|] eqn:Ht.
  - rewrite (release_loop_Ret _ _ _ t) in Hloop by done.
    injection Hloop as <-. case_decide; [|by left].
    right. eexists _, _. by split.
  - cbn in Hloop. unfold mbind, M_bind, load_task in Hloop.
    by rewrite Ht in Hloop.
Qed.

Lemma strcpy_Ret dst src g u g' :
  ABTU_strcpy dst src g = Ret u g' →
  is_Some (deref (names g) dst) ∧ g' = set_names (<[dst := src]> (names g)) g.
Proof. unfold ABTU_strcpy. destruct (deref _ _); [intros [= <-]; eauto|done]. Qed.

Lemma ABT_task_set_name_inv env task name g e g' :
  ABT_task_set_name env task name g = Ret e g' →
  (g' = g ∧ e ≠ ABT_SUCCESS)
  ∨ ∃ t buf, deref (tasks g) (ABTI_task_get_ptr task) = Some t
      ∧ tasks g' = <[ABTI_task_get_ptr task := set_t_p_name buf t]> (tasks g)
      ∧ (buf = NULL ∨ e = ABT_SUCCESS).
Proof.
  intros Hrun. unfold ABT_task_set_name in Hrun.
  destruct (decide (ABTI_task_get_ptr task = NULL)) as [|Hp].
  { apply mret_Ret in Hrun as [<- <-]. by left. }
  destruct name as [name|]; [|done].
  minv; msimpl; simplify_eq;
    try match goal with
    | Hs : ABTU_strcpy _ _ _ = Ret _ _ |- _ => apply strcpy_Ret in Hs as [_ ->]
    end;
    right; eexists _, _; (split; [done|]); cbn;
    first [split; [done|by left] | split; [done|by right]].
Qed.

Lemma ABT_task_get_name_inv task name len g r g' :
  ABT_task_get_name task name len g = Ret r g' → g' = g.
Proof.
  intros Hrun. unfold ABT_task_get_name, strlen, load_name in Hrun.
  destruct (decide (ABTI_task_get_ptr task = NULL)).
  { by apply mret_Ret in Hrun as [_ <-]. }
  apply bind_Ret in Hrun as (t & g1 & [Ht ->]%load_task_Ret & Hrun).
  unfold mbind, M_bind in Hrun.
  destruct (deref (names g) (t_p_name t)) eqn:Hn; [|done].
  destruct name; cbn in Hrun; rewrite ?Hn in Hrun;
    by apply mret_Ret in Hrun as [_ <-].
Qed.

Lemma ABT_task_get_state_inv task state g r g' :
  ABT_task_get_state task state g = Ret r g' → g' = g.
Proof.
  intros Hrun. unfold ABT_task_get_state in Hrun. by minv; subst.
Qed.

(** What [ABT_task_free] does to the task objects after its wait. *)
Lemma ABT_task_free_inv env task g r g' :
  ABT_task_free env task g = Ret r g' →
  g' = g
  ∨ ∃ k t, deref (tasks (after_yields (fe_yields env) k g))
                 (ABTI_task_get_ptr task) = Some t
      ∧ (tasks g' = delete (ABTI_task_get_ptr task)
                      (tasks (after_yields (fe_yields env) k g))
         ∨ ∃ u, tasks g' = <[ABTI_task_get_ptr task := set_t_unit u t]>
                             (tasks (after_yields (fe_yields env) k g))).
Proof.
  intros Hrun. unfold ABT_task_free in Hrun.
  apply bind_Ret in Hrun as (g0 & g1 & [-> ->]%get_global_Ret & Hrun).
  destruct (decide (local_thread g = NULL)).
  { apply mret_Ret in Hrun as [_ <-]. by left. }
  apply bind_Ret in Hrun as (? & g1 & Hwait & Hrun).
  apply wait_terminated_Ret in Hwait as (k & t & Hk & -> & Ht & Hst & Hbefore).
  destruct r as [e cell].
  apply free_terminated_Ret in Hrun as (-> & t' & Ht' & Hok & Hfail & _).
  simplify_eq. right. exists k, t. split; [done|].
  destruct (decide (fe_mutex_free env = ABT_SUCCESS)) as [He|He].
  - left. by apply Hok.
  - right. by apply Hfail.
Qed.

Lemma run_call_task_kept c g e g' q t t' :
  env_keeps c →
  run_call c g = Ret e g' →
  tasks g !! q = Some t →
  tasks g' !! q = Some t' →
  task_kept c e q t t'.
Proof.
  intros Henv Hrun Hq Hq'. destruct c; cbn [run_call] in Hrun.
  - apply bind_Ret in Hrun as (r & g1 & Hrun & [_ <-]%mret_Ret).
    eapply ABT_task_create_frame in Hrun; [|done]. simplify_eq.
    apply task_kept_refl.
  - apply bind_Ret in Hrun as (r & g1 & Hrun & [_ <-]%mret_Ret).
    apply ABT_task_free_inv in Hrun as [->|(k & t0 & Ht0 & Hg')].
    { simplify_eq. apply task_kept_refl. }
    assert (∃ tq, tasks (after_yields (fe_yields env) k g) !! q = Some tq
                  ∧ t_request t' = t_request tq ∧ t_p_name t' = t_p_name tq)
      as (tq & Htq & Hreq & Hname).
    { apply deref_Some in Ht0 as [_ Ht0].
      destruct Hg' as [Hg'|[u Hg']]; rewrite Hg' in Hq'.
      - apply lookup_delete_Some in Hq' as [_ Hq']. eauto.
      - destruct (decide (ABTI_task_get_ptr task = q)) as [<-|Hne].
        + rewrite lookup_insert_eq in Hq'. simplify_eq. eauto.
        + rewrite lookup_insert_ne in Hq' by done. eauto. }
    destruct (Henv k g q t tq Hq Htq) as [Hreq' Hname'].
    split; left; congruence.
  - apply ABT_task_cancel_Ret in Hrun as [[-> _]|(t0 & _ & Ht0 & -> & ->)].
    { simplify_eq. apply task_kept_refl. }
    cbn in Hq'. apply deref_Some in Ht0 as [_ Ht0].
    destruct (decide (ABTI_task_get_ptr task = q)) as [<-|Hne].
    + rewrite lookup_insert_eq in Hq'. simplify_eq. split; [by right|by left].
    + rewrite lookup_insert_ne in Hq' by done. simplify_eq. apply task_kept_refl.
  - apply ABT_task_retain_inv in Hrun as [->|(t0 & v & Ht0 & ->)].
    { simplify_eq. apply task_kept_refl. }
    cbn in Hq'. apply deref_Some in Ht0 as [_ Ht0].
    destruct (decide (ABTI_task_get_ptr task = q)) as [<-|Hne].
    + rewrite lookup_insert_eq in Hq'. simplify_eq. split; by left.
    + rewrite lookup_insert_ne in Hq' by done. simplify_eq. apply task_kept_refl.
  - apply ABT_task_release_inv in Hrun as [->|(t0 & v & Ht0 & ->)].
    { simplify_eq. apply task_kept_refl. }
    cbn in Hq'. apply deref_Some in Ht0 as [_ Ht0].
    destruct (decide (ABTI_task_get_ptr task = q)) as [<-|Hne].
    + rewrite lookup_insert_eq in Hq'. simplify_eq. split; by left.
    + rewrite lookup_insert_ne in Hq' by done. simplify_eq. apply task_kept_refl.
  - apply bind_Ret in Hrun as (r & g1 & Hrun & [_ <-]%mret_Ret).
    apply mret_Ret in Hrun as [_ <-]. simplify_eq. apply task_kept_refl.
  - apply bind_Ret in Hrun as (r & g1 & Hrun & [_ <-]%mret_Ret).
    apply ABT_task_get_state_inv in Hrun as ->. simplify_eq. apply task_kept_refl.
  - apply ABT_task_set_name_inv in Hrun as [[-> _]|(t0 & buf & Ht0 & Hg' & Hbuf)].
    { simplify_eq. apply task_kept_refl. }
    rewrite Hg' in Hq'. apply deref_Some in Ht0 as [_ Ht0].
    destruct (decide (ABTI_task_get_ptr task = q)) as [<-|Hne].
    + rewrite lookup_insert_eq in Hq'. simplify_eq. split; [by left|].
      destruct Hbuf as [->| ->]; [right; by left|]. right; right. done.
    + rewrite lookup_insert_ne in Hq' by done. simplify_eq. apply task_kept_refl.
  - apply bind_Ret in Hrun as (r & g1 & Hrun & [_ <-]%mret_Ret).
    apply ABT_task_get_name_inv in Hrun as ->. simplify_eq. apply task_kept_refl.
Qed.

(** ** The cancel request *)

Lemma land_lor_absorb r c : Z.land (Z.lor r c) c = c.
Proof.
  apply Z.bits_inj'. intros n Hn.
  rewrite Z.land_spec, Z.lor_spec. by destruct (Z.testbit r n), (Z.testbit c n).
Qed.

Lemma cancel_requested_kept c e q t t' :
  task_kept c e q t t' → cancel_requested t → cancel_requested t'.
Proof.
  unfold cancel_requested. intros [[-> | ->] _] Hset; [done|].
  apply land_lor_absorb.
Qed.

Lemma runs_cancel_requested p g tr g' t :
  runs p g tr g' →
  Forall (λ ce, env_keeps ce.1) tr →
  tasks g !! p = Some t →
  cancel_requested t →
  ∃ t', tasks g' !! p = Some t' ∧ cancel_requested t'.
Proof.
  intros Hruns. revert t.
  induction Hruns as [g|g c e g1 tr g' Hcall [t1 Ht1] Hruns IH];
    intros t Henv Ht Hset.
  - eauto.
  - apply Forall_cons in Henv as [Hc Henv]. cbn in Hc.
    apply (IH t1); [done..|].
    eapply cancel_requested_kept; [|done].
    by eapply run_call_task_kept.
Qed.

(** C8: once a call of [ABT_task_cancel] has succeeded on a task, the task
    object differs from what it was only by the cancel bit, so its state is
    the one it had, and after any further calls of the public interface
    throughout which the task object stays live the cancel bit is still
    set. *)
Theorem cancel_request_is_monotonic task g0 g tr g' :
  ABT_task_cancel task g0 = Ret ABT_SUCCESS g →
  Forall (λ ce, env_keeps ce.1) tr →
  runs (ABTI_task_get_ptr task) g tr g' →
  let p := ABTI_task_get_ptr task in
  ∃ t0 t t',
    deref (tasks g0) p = Some t0
    ∧ deref (tasks g) p = Some t
    ∧ t = set_t_request (Z.lor (t_request t0) ABTI_TASK_REQ_CANCEL) t0
    ∧ t_state t = t_state t0
    ∧ cancel_requested t
    ∧ tasks g' !! p = Some t'
    ∧ cancel_requested t'.
Proof.
  intros Hcancel Henv Hruns p.
  apply ABT_task_cancel_Ret in Hcancel as [[_ ?]|(t0 & _ & Ht0 & _ & ->)];
    [done|].
  fold p in Ht0, Hruns.
  assert (p ≠ NULL) as Hp by (apply deref_Some in Ht0; tauto).
  set (t := set_t_request (Z.lor (t_request t0) ABTI_TASK_REQ_CANCEL) t0).
  assert (cancel_requested t) as Hset by apply land_lor_absorb.
  destruct (runs_cancel_requested _ _ _ _ t Hruns Henv) as (t' & Ht' & Hset');
    [cbn; apply lookup_insert_eq | done |].
  exists t0, t, t'. repeat split; try done.
  cbn. by apply deref_insert_eq.
Qed.

(** ** The name *)

Lemma ABT_task_get_name_undefined task name len g t :
  deref (tasks g) (ABTI_task_get_ptr task) = Some t →
  deref (names g) (t_p_name t) = None →
  ABT_task_get_name task name len g = Undefined.
Proof.
  intros Ht Hn. unfold ABT_task_get_name.
  rewrite decide_False by (apply deref_Some in Ht; tauto).
  unfold mbind, M_bind, load_task, strlen. by rewrite Ht, Hn.
Qed.

Lemma ABT_task_get_name_Ret task name len g t s :
  deref (tasks g) (ABTI_task_get_ptr task) = Some t →
  deref (names g) (t_p_name t) = Some s →
  ABT_task_get_name task name len g
  = Ret (ABT_SUCCESS, (λ _, s) <$> name, Z.of_nat (String.length s)) g.
Proof.
  intros Ht Hn. unfold ABT_task_get_name.
  rewrite decide_False by (apply deref_Some in Ht; tauto).
  unfold mbind, M_bind, load_task, strlen, load_name. rewrite Ht, Hn.
  destruct name; cbn; by rewrite ?Hn.
Qed.

(** The name pointer stays null until an [ABT_task_set_name] on the task
    succeeds. *)
Lemma runs_name_null p g tr g' t :
  runs p g tr g' →
  Forall (λ ce, env_keeps ce.1) tr →
  tasks g !! p = Some t →
  t_p_name t = NULL →
  Exists (λ ce, sets_name_of p ce.1 ∧ ce.2 = ABT_SUCCESS) tr
  ∨ ∃ t', tasks g' !! p = Some t' ∧ t_p_name t' = NULL.
Proof.
  intros Hruns. revert t.
  induction Hruns as [g|g c e g1 tr g' Hcall [t1 Ht1] Hruns IH];
    intros t Henv Ht Hnull.
  - right. eauto.
  - apply Forall_cons in Henv as [Hc Henv]. cbn in Hc.
    destruct (run_call_task_kept c g e g1 p t t1 Hc Hcall Ht Ht1)
      as [_ [Hname|[Hname|Hname]]].
    + destruct (IH t1 Henv Ht1) as [Hex|Hend]; [congruence| |].
      * left. by apply Exists_cons_tl.
      * by right.
    + destruct (IH t1 Henv Ht1) as [Hex|Hend]; [done| |].
      * left. by apply Exists_cons_tl.
      * by right.
    + left. by apply Exists_cons_hd.
Qed.

(** C10: the task object that a successful [ABT_task_create] leaves has a
    null name pointer, and [ABT_task_get_name] with a handle to it has no
    defined behaviour, since it applies [strlen] to that pointer; this is
    still so after any further calls of the public interface, throughout
    which the task object stays live, none of which is an
    [ABT_task_set_name] on this task that succeeded. *)
Theorem ABT_task_get_name_needs_set_name
    env stream task_func arg newtask g0 out g tr g' task name len :
  ABT_task_create env stream task_func arg newtask g0 = Ret (ABT_SUCCESS, out) g →
  ABTI_task_get_ptr task = ce_malloc env →
  Forall (λ ce, env_keeps ce.1) tr →
  runs (ce_malloc env) g tr g' →
  (∃ t, deref (tasks g) (ce_malloc env) = Some t ∧ t_p_name t = NULL)
  ∧ ABT_task_get_name task name len g = Undefined
  ∧ (¬ Exists (λ ce, sets_name_of (ce_malloc env) ce.1 ∧ ce.2 = ABT_SUCCESS) tr →
     ABT_task_get_name task name len g' = Undefined).
Proof.
  intros Hcreate Htask Henv Hruns.
  apply ABT_task_create_success in Hcreate
    as (Hp & Hfresh & _ & _ & Hcase).
  assert (∃ t, deref (tasks g) (ce_malloc env) = Some t ∧ t_p_name t = NULL)
    as (t & Ht & Hnull).
  { destruct Hcase as [(_ & -> & _)|(_ & s & s' & _ & _ & -> & _)];
      (eexists; split; [by apply deref_insert_eq|done]). }
  split; [by eauto|]. split.
  - eapply ABT_task_get_name_undefined; [by rewrite Htask|].
    rewrite Hnull. apply deref_null.
  - intros Hnone.
    destruct (runs_name_null _ _ _ _ t Hruns Henv) as [Hex|(t' & Ht' & Hnull')];
      [by apply deref_Some in Ht as [_ ?] | done | done |].
    eapply (ABT_task_get_name_undefined _ _ _ _ t').
    + rewrite Htask. by apply deref_Some.
    + rewrite Hnull'. apply deref_null.
Qed.

(** ** Concurrent releases never take the count below zero *)

Lemma returned_count_insert callers i pc pc' :
  callers !! i = Some pc →
  ¬ returned pc →
  returned_count (<[i := pc']> callers)
  = returned_count callers + (if decide (returned pc') then 1 else 0).
Proof.
  unfold returned_count. revert i.
  induction callers as [|x l IH]; intros i Hi Hpc; [done|].
  destruct i as [|i]; cbn in Hi.
  - simplify_eq. change (<[0%nat:=pc']> (pc :: l)) with (pc' :: l).
    rewrite !filter_cons.
    rewrite (decide_False (P := returned pc)) by done.
    destruct (decide (returned pc')); cbn [length]; lia.
  - change (<[S i:=pc']> (x :: l)) with (x :: <[i:=pc']> l).
    rewrite !filter_cons. specialize (IH i Hi Hpc).
    destruct (decide (returned x)); cbn [length]; lia.
Qed.

Lemma returned_count_replicate n task :
  returned_count (replicate n (RelEntry task)) = 0.
Proof.
  unfold returned_count. induction n as [|n IH]; [done|].
  cbn [replicate]. rewrite filter_cons. by rewrite decide_False by (by intros []).
Qed.

Lemma returned_count_all callers :
  Forall returned callers → returned_count callers = Z.of_nat (length callers).
Proof.
  unfold returned_count. induction 1 as [|x l Hx Hl IH]; [done|].
  rewrite filter_cons, decide_True by done. cbn [length]. lia.
Qed.

Lemma returned_count_nonneg callers : 0 ≤ returned_count callers.
Proof. unfold returned_count. lia. Qed.

Lemma set_t_refcount_twice v w t :
  set_t_refcount v (set_t_refcount w t) = set_t_refcount v t.
Proof. done. Qed.

Lemma release_inv_init task g0 t0 n :
  deref (tasks g0) (ABTI_task_get_ptr task) = Some t0 →
  0 ≤ t_refcount t0 →
  release_inv (ABTI_task_get_ptr task) t0 g0 n (t_refcount t0)
    (g0, replicate n (RelEntry task)).
Proof.
  intros [Hp Ht0]%deref_Some Hrc. unfold release_inv. cbn [fst snd].
  rewrite returned_count_replicate.
  split; [|split; [by rewrite length_replicate|
           split; [lia|split; [lia|split; [right; lia|]]]]].
  - rewrite set_t_refcount_id, insert_id by done. by rewrite set_tasks_id.
  - apply Forall_replicate. done.
Qed.

Lemma weight_sum_insert rc callers i pc pc' :
  callers !! i = Some pc →
  weight_sum rc (<[i := pc']> callers)
  = weight_sum rc callers - pc_weight rc pc + pc_weight rc pc'.
Proof.
  unfold weight_sum. revert i.
  induction callers as [|x l IH]; intros i Hi; [done|].
  destruct i as [|i]; cbn in Hi.
  - simplify_eq. change (<[0%nat:=pc']> (pc :: l)) with (pc' :: l).
    cbn [foldr]. lia.
  - change (<[S i:=pc']> (x :: l)) with (x :: <[i:=pc']> l).
    cbn [foldr]. rewrite (IH i Hi). lia.
Qed.

Lemma pc_weight_range rc pc : 0 ≤ pc_weight rc pc ≤ 3.
Proof. destruct pc; cbn; try case_decide; lia. Qed.

Lemma weight_sum_range rc callers :
  0 ≤ weight_sum rc callers ≤ 3 * Z.of_nat (length callers).
Proof.
  unfold weight_sum. induction callers as [|x l IH]; cbn [foldr length]; [lia|].
  pose proof (pc_weight_range rc x). lia.
Qed.

Lemma weight_sum_stale rc rc' callers :
  weight_sum rc' callers ≤ weight_sum rc callers + 2 * Z.of_nat (length callers).
Proof.
  unfold weight_sum. induction callers as [|x l IH]; cbn [foldr length]; [lia|].
  assert (pc_weight rc' x ≤ pc_weight rc x + 2)
    by (destruct x; cbn; repeat case_decide; lia).
  lia.
Qed.

Lemma weight_sum_replicate rc n task :
  weight_sum rc (replicate n (RelEntry task)) = 3 * Z.of_nat n.
Proof.
  unfold weight_sum. induction n as [|n IH]; [done|].
  cbn [replicate foldr pc_weight]. lia.
Qed.

(** Every step keeps the invariant, does not raise the count and lowers the
    bound on the remaining accesses. *)
Lemma release_inv_step p t0 g0 n rc cfg cfg' :
  p ≠ NULL →
  t_refcount t0 ≤ uint32_max →
  release_inv p t0 g0 n rc cfg →
  release_sys_step cfg cfg' →
  ∃ rc', rc' ≤ rc ∧ release_inv p t0 g0 n rc' cfg'
    ∧ release_measure n rc' cfg'.2 < release_measure n rc cfg.2.
Proof.
  intros Hp Hmax (Hg & Hlen & Hrc & Hlow & Hexact & Hpcs) Hstep.
  destruct Hstep as [g callers i pc pc' g' Hi Hpc Hstep].
  cbn [fst snd] in *.
  pose proof (Forall_lookup_1 _ _ _ _ Hpcs Hi) as Hok.
  pose proof (returned_count_insert callers i pc pc' Hi Hpc) as Hcount.
  assert (deref (tasks g) p = Some (set_t_refcount rc t0)) as Ht.
  { rewrite Hg. cbn. by apply deref_insert_eq. }
  unfold release_measure.
  destruct pc as [task|q|q r|e]; cbn in Hok, Hstep.
  - (* entry *)
    rewrite Hok, decide_False in Hstep by done.
    apply mret_Ret in Hstep as [<- <-].
    rewrite decide_False in Hcount by (by intros []).
    exists rc. split; [lia|]. split.
    + unfold release_inv. cbn [fst snd].
      rewrite Hcount, Z.add_0_r, length_insert.
      repeat split; try done; try lia. by apply Forall_insert.
    + rewrite (weight_sum_insert _ _ _ _ _ Hi). cbn [pc_weight]. lia.
  - (* loop test *)
    subst q. apply bind_Ret in Hstep as (t & g1 & [Ht' ->]%load_task_Ret & Hstep).
    simplify_eq. cbn [t_refcount set_t_refcount] in Hstep.
    destruct (decide (rc > 0)) as [Hpos|Hzero];
      apply mret_Ret in Hstep as [<- <-].
    + rewrite decide_False in Hcount by (by intros []).
      exists rc. split; [lia|]. split.
      * unfold release_inv. cbn [fst snd].
        rewrite Hcount, Z.add_0_r, length_insert.
        repeat split; try done; try lia. apply Forall_insert; [done|].
        cbn. split; [done|lia].
      * rewrite (weight_sum_insert _ _ _ _ _ Hi). cbn [pc_weight].
        rewrite decide_True by done. lia.
    + rewrite decide_True in Hcount by done.
      exists rc. split; [lia|]. split.
      * unfold release_inv. cbn [fst snd].
        rewrite Hcount, length_insert.
        repeat split; try done; try lia. by apply Forall_insert.
      * rewrite (weight_sum_insert _ _ _ _ _ Hi). cbn [pc_weight]. lia.
  - (* compare and swap *)
    destruct Hok as [-> Hr].
    apply bind_Ret in Hstep as (old & g1 & Hcas & Hstep).
    apply atomic_task_Ret in Hcas as (t & Ht' & -> & ->).
    simplify_eq. cbn [t_refcount set_t_refcount fst snd ABTD_atomic_cas_uint32] in *.
    cbn [tasks set_tasks] in *.
    rewrite insert_insert_eq in Hstep.
    destruct (decide (rc = r)) as [->|Hne];
      apply mret_Ret in Hstep as [<- <-].
    + rewrite decide_True in Hcount by done.
      assert (wrap32 (r - 1) = r - 1) as ->
        by (unfold wrap32, uint32_max in *; apply Z.mod_small; lia).
      exists (r - 1). split; [lia|]. split.
      * unfold release_inv. cbn [fst snd].
        rewrite Hcount, length_insert.
        split; [by destruct g0|]. split; [done|].
        repeat split; try lia. by apply Forall_insert.
      * rewrite (weight_sum_insert _ _ _ _ _ Hi). cbn [pc_weight].
        rewrite decide_False by lia.
        pose proof (weight_sum_stale r (r - 1) callers) as Hstale.
        pose proof (weight_sum_insert r callers i _ (RelCas p r) Hi) as Hself.
        rewrite list_insert_id in Hself by done.
        rewrite Z.mul_sub_distr_l, Z.mul_1_r. lia.
    + rewrite decide_False in Hcount by (by intros []).
      exists rc. split; [lia|]. split.
      * unfold release_inv. cbn [fst snd].
        rewrite Hcount, Z.add_0_r, length_insert.
        split; [by destruct g0|]. split; [done|].
        repeat split; try done; try lia. by apply Forall_insert.
      * rewrite (weight_sum_insert _ _ _ _ _ Hi). cbn [pc_weight].
        rewrite decide_False by done. lia.
  - by destruct Hpc.
Qed.

Lemma release_inv_rtc p t0 g0 n rc cfg cfg' :
  p ≠ NULL →
  t_refcount t0 ≤ uint32_max →
  release_inv p t0 g0 n rc cfg →
  rtc release_sys_step cfg cfg' →
  ∃ rc', rc' ≤ rc ∧ release_inv p t0 g0 n rc' cfg'.
Proof.
  intros Hp Hmax Hinv Hsteps. revert rc Hinv.
  induction Hsteps as [cfg|cfg cfg1 cfg' Hstep Hsteps IH]; intros rc Hinv.
  - exists rc. split; [lia|done].
  - destruct (release_inv_step _ _ _ _ _ _ _ Hp Hmax Hinv Hstep)
      as (rc1 & Hle1 & Hinv1 & _).
    destruct (IH rc1 Hinv1) as (rc' & Hle' & Hinv').
    exists rc'. split; [lia|done].
Qed.

(** A caller in flight can always take its next step: no access of a
    release has undefined behaviour while the task object is live. *)
Lemma release_inv_progress p t0 g0 n rc g callers i pc :
  p ≠ NULL →
  release_inv p t0 g0 n rc (g, callers) →
  callers !! i = Some pc →
  ∃ pc' g', release_step pc g = Ret pc' g'.
Proof.
  intros Hp (Hg & _ & _ & _ & _ & Hpcs) Hi. cbn [fst snd] in *.
  pose proof (Forall_lookup_1 _ _ _ _ Hpcs Hi) as Hok.
  assert (deref (tasks g) p = Some (set_t_refcount rc t0)) as Ht.
  { rewrite Hg. cbn. by apply deref_insert_eq. }
  destruct pc as [task|q|q r|e]; cbn in Hok |- *.
  - case_decide; eauto.
  - subst q. unfold mbind, M_bind, load_task. rewrite Ht.
    case_decide; eauto.
  - destruct Hok as [-> _].
    unfold atomic_task, mbind, M_bind, load_task, update_task.
    rewrite Ht. cbn. rewrite Ht. cbn. case_decide; eauto.
  - eauto.
Qed.

(** Every interleaving of [n] releases of a task referenced [M] times has
    at most [2 n M + 3 n] steps: together with [release_inv_progress], all
    callers return. *)
Lemma release_measure_bound p t0 g0 n rc k cfg cfg' :
  p ≠ NULL →
  t_refcount t0 ≤ uint32_max →
  release_inv p t0 g0 n rc cfg →
  nsteps release_sys_step k cfg cfg' →
  Z.of_nat k ≤ release_measure n rc cfg.2.
Proof.
  intros Hp Hmax Hinv Hsteps. revert rc Hinv.
  induction Hsteps as [cfg|k cfg cfg1 cfg' Hstep Hsteps IH]; intros rc Hinv.
  - destruct Hinv as (_ & _ & Hrc & _). unfold release_measure.
    pose proof (weight_sum_range rc cfg.2). nia.
  - destruct (release_inv_step _ _ _ _ _ _ _ Hp Hmax Hinv Hstep)
      as (rc1 & _ & Hinv1 & Hless).
    specialize (IH rc1 Hinv1). lia.
Qed.

Lemma release_steps_bounded task g0 t0 n k cfg :
  deref (tasks g0) (ABTI_task_get_ptr task) = Some t0 →
  0 ≤ t_refcount t0 ≤ uint32_max →
  nsteps release_sys_step k (g0, replicate n (RelEntry task)) cfg →
  Z.of_nat k ≤ 2 * Z.of_nat n * t_refcount t0 + 3 * Z.of_nat n.
Proof.
  intros Ht0 Hrc Hsteps.
  assert (ABTI_task_get_ptr task ≠ NULL) as Hp
    by (apply deref_Some in Ht0; tauto).
  pose proof (release_inv_init task g0 t0 n Ht0 (proj1 Hrc)) as Hinv0.
  pose proof (release_measure_bound _ _ _ _ _ _ _ _ Hp (proj2 Hrc) Hinv0 Hsteps)
    as Hbound.
  unfold release_measure in Hbound. cbn [snd] in Hbound.
  by rewrite weight_sum_replicate in Hbound.
Qed.

(** One step of a configuration, with the next configuration written out. *)
Lemma release_sys_step_to g callers i pc pc' g' callers' :
  callers !! i = Some pc →
  ¬ returned pc →
  release_step pc g = Ret pc' g' →
  callers' = <[i := pc']> callers →
  release_sys_step (g, callers) (g', callers').
Proof. intros Hi Hpc Hstep ->. by econstructor. Qed.

(** The function run by one caller is the transition system run alone. *)
Lemma ABT_task_release_alone fuel task g e g' :
  ABT_task_release (S fuel) task g = Ret e g' →
  rtc release_sys_step (g, [RelEntry task]) (g', [RelReturn e]).
Proof.
  intros Hrun. unfold ABT_task_release in Hrun.
  destruct (decide (ABTI_task_get_ptr task = NULL)) as [Hnull|Hp].
  { apply mret_Ret in Hrun as [<- <-].
    eapply rtc_l; [|apply rtc_refl].
    eapply (release_sys_step_to _ _ 0%nat); [done|by intros []| |done].
    cbn. by rewrite decide_True. }
  apply bind_Ret in Hrun as (? & g1 & Hloop & [<- <-]%mret_Ret).
  destruct (deref (tasks g) (ABTI_task_get_ptr task)) as [t|] eqn:Ht.
  2:{ cbn in Hloop. unfold mbind, M_bind, load_task in Hloop.
      by rewrite Ht in Hloop. }
  rewrite (release_loop_Ret _ _ _ t Ht) in Hloop. injection Hloop as Hg1.
  eapply rtc_l.
  { eapply (release_sys_step_to _ _ 0%nat); [done|by intros []| |done].
    cbn. by rewrite decide_False. }
  cbn [insert list_insert].
  destruct (decide (t_refcount t > 0)) as [Hpos|Hzero]; subst g1.
  - eapply rtc_l.
    { eapply (release_sys_step_to _ _ 0%nat); [done|by intros []| |done].
      cbn. unfold mbind, M_bind, load_task. rewrite Ht.
      by rewrite decide_True. }
    eapply rtc_l; [|apply rtc_refl].
    eapply (release_sys_step_to _ _ 0%nat); [done|by intros []| |done].
    cbn. unfold atomic_task, mbind, M_bind, mret, M_ret, load_task, update_task.
    repeat first [rewrite Ht | rewrite decide_True by done | progress cbn].
    done.
  - eapply rtc_l; [|apply rtc_refl].
    eapply (release_sys_step_to _ _ 0%nat); [done|by intros []| |done].
    cbn. unfold mbind, M_bind, load_task. rewrite Ht.
    by rewrite decide_False.
Qed.

(** C1: callers that release one live task concurrently, each step of any
    of them being one access to the shared counter, only ever change the
    reference count of that task object: at every point of every
    interleaving the process state is the initial one with a count between
    0 and the initial count, the count never grows (so once it is 0 it
    stays 0), the task object stays allocated, and when all [n] callers
    have returned the count is the initial count less [n], or 0 when fewer
    references were held. *)
Theorem ABT_task_release_never_below_zero
    task g0 t0 n g1 callers1 g2 callers2 :
  deref (tasks g0) (ABTI_task_get_ptr task) = Some t0 →
  0 ≤ t_refcount t0 ≤ uint32_max →
  rtc release_sys_step (g0, replicate n (RelEntry task)) (g1, callers1) →
  rtc release_sys_step (g1, callers1) (g2, callers2) →
  let p := ABTI_task_get_ptr task in
  ∃ rc1 rc2,
    g1 = set_tasks (<[p := set_t_refcount rc1 t0]> (tasks g0)) g0
    ∧ g2 = set_tasks (<[p := set_t_refcount rc2 t0]> (tasks g0)) g0
    ∧ deref (tasks g2) p = Some (set_t_refcount rc2 t0)
    ∧ 0 ≤ rc2 ≤ rc1
    ∧ rc1 ≤ t_refcount t0
    ∧ (Forall returned callers2 →
       rc2 = Z.max 0 (t_refcount t0 - Z.of_nat n)).
Proof.
  intros Ht0 Hrc Hsteps1 Hsteps2 p.
  assert (p ≠ NULL) as Hp by (apply deref_Some in Ht0; tauto).
  pose proof (release_inv_init task g0 t0 n Ht0 (proj1 Hrc)) as Hinv0.
  fold p in Hinv0.
  destruct (release_inv_rtc _ _ _ _ _ _ _ Hp (proj2 Hrc) Hinv0 Hsteps1)
    as (rc1 & Hle1 & Hinv1).
  destruct (release_inv_rtc _ _ _ _ _ _ _ Hp (proj2 Hrc) Hinv1 Hsteps2)
    as (rc2 & Hle2 & Hinv2).
  destruct Hinv1 as (Hg1 & _ & Hrc1 & _).
  destruct Hinv2 as (Hg2 & Hlen2 & Hrc2 & Hlow2 & Hexact2 & _).
  cbn [fst snd] in *.
  exists rc1, rc2. split; [done|]. split; [done|].
  split; [rewrite Hg2; cbn; by apply deref_insert_eq|].
  split; [lia|]. split; [lia|].
  intros Hall. rewrite (returned_count_all _ Hall), Hlen2 in Hlow2, Hexact2.
  lia.
Qed.

(** * Further properties of [task.c] *)

(** ** Handles and pointers *)

(** X1: converting a pointer to a handle and back gives the pointer again
    exactly when the pointer is null or is not the address that serves as
    the null handle; converting a handle to a pointer and back gives the
    handle again exactly when the handle is the null handle or is not the
    null address. *)
Theorem ABTI_task_handle_round_trip x :
  (ABTI_task_get_ptr (ABTI_task_get_handle x) = x
   ↔ x = NULL ∨ x ≠ ABT_TASK_NULL)
  ∧ (ABTI_task_get_handle (ABTI_task_get_ptr x) = x
     ↔ x = ABT_TASK_NULL ∨ x ≠ NULL).
Proof.
  unfold ABTI_task_get_ptr, ABTI_task_get_handle.
  split; repeat case_decide; split; intros; simplify_eq; try tauto;
    try (destruct_or?; congruence).
Qed.

(** X2: [ABT_task_equal] always succeeds, leaves the process state alone
    and reads no task object; its result is 0 or 1, being 1 is an
    equivalence on handles, the null handle and the null address compare
    equal, and two handles other than the null address compare equal
    exactly when they are the same handle. *)
Theorem ABT_task_equal_compares_handles task1 task2 task3 g :
  ∃ r12 r21 r23 r13 r11,
    ABT_task_equal task1 task2 g = Ret (ABT_SUCCESS, r12) g
    ∧ ABT_task_equal task2 task1 g = Ret (ABT_SUCCESS, r21) g
    ∧ ABT_task_equal task2 task3 g = Ret (ABT_SUCCESS, r23) g
    ∧ ABT_task_equal task1 task3 g = Ret (ABT_SUCCESS, r13) g
    ∧ ABT_task_equal task1 task1 g = Ret (ABT_SUCCESS, r11) g
    ∧ (r12 = 0 ∨ r12 = 1)
    ∧ r11 = 1
    ∧ r21 = r12
    ∧ (r12 = 1 → r23 = 1 → r13 = 1)
    ∧ (task1 ≠ NULL → task2 ≠ NULL → (r12 = 1 ↔ task1 = task2))
    ∧ ABT_task_equal ABT_TASK_NULL NULL g = Ret (ABT_SUCCESS, 1) g.
Proof.
  unfold ABT_task_equal. eexists _, _, _, _, _.
  repeat (split; [reflexivity|]).
  unfold ABTI_task_get_ptr.
  repeat split; repeat case_decide; simplify_eq; try tauto; try lia;
    try congruence; intros; simplify_eq; try congruence; try lia.
Qed.

(** ** State and name queries *)

Lemma ABT_task_get_state_Ret task state g t :
  deref (tasks g) (ABTI_task_get_ptr task) = Some t →
  ABT_task_get_state task state g = Ret (ABT_SUCCESS, t_state t) g.
Proof.
  intros Ht. unfold ABT_task_get_state.
  rewrite decide_False by (apply deref_Some in Ht; tauto).
  unfold mbind, M_bind, load_task. by rewrite Ht.
Qed.

(** X3: when [ABT_task_create] succeeds with an output handle and the new
    object's address is not the one that serves as the null handle,
    [ABT_task_get_state] on the returned handle succeeds, leaves the state
    alone and reports CREATED for a task created without a stream and
    DELAYED for one created on a stream. *)
Theorem ABT_task_create_then_get_state
    env stream task_func arg cell g h g' state :
  ABT_task_create env stream task_func arg (Some cell) g
  = Ret (ABT_SUCCESS, Some h) g' →
  ce_malloc env ≠ ABT_TASK_NULL →
  ABT_task_get_state h state g'
  = Ret (ABT_SUCCESS,
         if decide (stream = ABT_STREAM_NULL)
         then ABT_TASK_STATE_CREATED else ABT_TASK_STATE_DELAYED) g'.
Proof.
  intros Hcreate Hsentinel.
  apply ABT_task_create_success in Hcreate
    as (Hp & Hfresh & [= ->] & _ & Hcase).
  assert (ABTI_task_get_ptr (ce_malloc env) = ce_malloc env) as Hptr
    by (unfold ABTI_task_get_ptr; by rewrite decide_False).
  destruct Hcase as [(-> & Ht & _)|(Hne & s & s' & _ & _ & Ht & _)].
  - rewrite decide_True by done.
    erewrite ABT_task_get_state_Ret;
      [|rewrite Hptr, Ht; by apply deref_insert_eq]. done.
  - rewrite decide_False by done.
    erewrite ABT_task_get_state_Ret;
      [|rewrite Hptr, Ht; by apply deref_insert_eq]. done.
Qed.

(** What [ABT_task_set_name] does on a handle that is not null. *)
Lemma ABT_task_set_name_effect env task name g e g' :
  ABT_task_set_name env task name g = Ret e g' →
  ABTI_task_get_ptr task ≠ NULL →
  ∃ s t,
    name = Some s
    ∧ deref (tasks g) (ABTI_task_get_ptr task) = Some t
    ∧ (t_p_name t ≠ NULL → is_Some (deref (names g) (t_p_name t)))
    ∧ let names1 := if decide (t_p_name t ≠ NULL)
                    then delete (t_p_name t) (names g) else names g in
      let buf := ABTU_malloc names1 (sn_malloc env) in
      tasks g' = <[ABTI_task_get_ptr task := set_t_p_name buf t]> (tasks g)
      ∧ (buf = NULL → e = ABT_ERR_MEM ∧ names g' = names1)
      ∧ (buf ≠ NULL → e = ABT_SUCCESS ∧ names g' = <[buf := s]> names1)
      ∧ streams g' = streams g ∧ p_tasks g' = p_tasks g
      ∧ task_id g' = task_id g ∧ local_thread g' = local_thread g.
Proof.
  intros Hrun Hp. unfold ABT_task_set_name in Hrun.
  rewrite decide_False in Hrun by done.
  destruct name as [s|]; [|done].
  exists s.
  minv; msimpl; simplify_eq;
    try match goal with
    | Hs : ABTU_strcpy _ _ _ = Ret _ _ |- _ => apply strcpy_Ret in Hs as [_ ->]
    end;
    eexists; (split; [done|]); (split; [done|]); cbn;
    (split; [by intros|]);
    rewrite ?decide_True by done; rewrite ?decide_False by done;
    cbn; rewrite ?insert_insert_eq;
    repeat split; try done; try (intros; congruence).
Qed.

(** X4: after an [ABT_task_set_name] that succeeded, [ABT_task_get_name]
    with the same handle succeeds, leaves the state alone and returns the
    length of the name that was set, and with a buffer also that name; with
    a null buffer only the length is returned. *)
Theorem ABT_task_set_name_then_get_name env task s g g' name len :
  ABT_task_set_name env task (Some s) g = Ret ABT_SUCCESS g' →
  ABT_task_get_name task name len g'
  = Ret (ABT_SUCCESS, (λ _, s) <$> name, Z.of_nat (String.length s)) g'.
Proof.
  intros Hset.
  destruct (decide (ABTI_task_get_ptr task = NULL)) as [Hnull|Hp].
  { unfold ABT_task_set_name in Hset. rewrite decide_True in Hset by done.
    by apply mret_Ret in Hset as [[=] _]. }
  apply ABT_task_set_name_effect in Hset
    as (s' & t & [= <-] & Ht & _ & Htasks & Hfail & Hok & _); [|done].
  cbn zeta in *.
  destruct (decide (ABTU_malloc
                      (if decide (t_p_name t ≠ NULL)
                       then delete (t_p_name t) (names g) else names g)
                      (sn_malloc env) = NULL)) as [Hbuf|Hbuf].
  { by destruct (Hfail Hbuf) as [[=] _]. }
  destruct (Hok Hbuf) as [_ Hnames].
  eapply ABT_task_get_name_Ret.
  - rewrite Htasks. by apply deref_insert_eq.
  - cbn. rewrite Hnames. by apply deref_insert_eq.
Qed.

(** X5: when the allocation of the new buffer fails, [ABT_task_set_name]
    returns the out-of-memory error after it has freed the old name: the
    name pointer of the task is null, the old buffer is gone, and
    [ABT_task_get_name] on the task has no defined behaviour any more. *)
Theorem ABT_task_set_name_failure_loses_name env task s g g' name len :
  ABT_task_set_name env task (Some s) g = Ret ABT_ERR_MEM g' →
  ∃ t t',
    deref (tasks g) (ABTI_task_get_ptr task) = Some t
    ∧ deref (tasks g') (ABTI_task_get_ptr task) = Some t'
    ∧ t' = set_t_p_name NULL t
    ∧ (t_p_name t ≠ NULL →
       is_Some (deref (names g) (t_p_name t))
       ∧ names g' = delete (t_p_name t) (names g))
    ∧ ABT_task_get_name task name len g' = Undefined.
Proof.
  intros Hset.
  destruct (decide (ABTI_task_get_ptr task = NULL)) as [Hnull|Hp].
  { unfold ABT_task_set_name in Hset. rewrite decide_True in Hset by done.
    by apply mret_Ret in Hset as [[=] _]. }
  apply ABT_task_set_name_effect in Hset
    as (s' & t & [= <-] & Ht & Hold & Htasks & Hfail & Hok & _); [|done].
  cbn zeta in *.
  destruct (decide (ABTU_malloc
                      (if decide (t_p_name t ≠ NULL)
                       then delete (t_p_name t) (names g) else names g)
                      (sn_malloc env) = NULL)) as [Hbuf|Hbuf].
  2:{ by destruct (Hok Hbuf) as [[=] _]. }
  destruct (Hfail Hbuf) as [_ Hnames]. rewrite Hbuf in Htasks.
  exists t, (set_t_p_name NULL t). split; [done|].
  split; [rewrite Htasks; by apply deref_insert_eq|]. split; [done|].
  split.
  - intros Hname. split; [by apply Hold|].
    by rewrite decide_True in Hnames.
  - eapply ABT_task_get_name_undefined.
    + rewrite Htasks. by apply deref_insert_eq.
    + apply deref_null.
Qed.

(** ** Retains and releases in a row *)

Lemma with_refcount_again p v w t g :
  set_tasks
    (<[p := set_t_refcount w (set_t_refcount v t)]>
       (tasks (set_tasks (<[p := set_t_refcount v t]> (tasks g)) g)))
    (set_tasks (<[p := set_t_refcount v t]> (tasks g)) g)
  = set_tasks (<[p := set_t_refcount w t]> (tasks g)) g.
Proof. destruct g. cbn. by rewrite insert_insert_eq. Qed.

Lemma with_refcount_same p t g :
  deref (tasks g) p = Some t →
  set_tasks (<[p := set_t_refcount (t_refcount t) t]> (tasks g)) g = g.
Proof.
  intros [_ Ht]%deref_Some.
  rewrite set_t_refcount_id, insert_id by done. apply set_tasks_id.
Qed.

Lemma mrepeat_retain n task g t v :
  deref (tasks g) (ABTI_task_get_ptr task) = Some t →
  0 ≤ v →
  v + Z.of_nat n ≤ uint32_max →
  mrepeat n (ABT_task_retain task)
    (set_tasks (<[ABTI_task_get_ptr task := set_t_refcount v t]> (tasks g)) g)
  = Ret tt
      (set_tasks (<[ABTI_task_get_ptr task :=
                      set_t_refcount (v + Z.of_nat n) t]> (tasks g)) g).
Proof.
  intros Ht. assert (ABTI_task_get_ptr task ≠ NULL) as Hp
    by (apply deref_Some in Ht; tauto).
  revert v. induction n as [|n IH]; intros v Hv Hmax.
  - cbn. by rewrite Z.add_0_r.
  - cbn [mrepeat]. unfold mbind, M_bind at 1.
    erewrite ABT_task_retain_Ret by (cbn; by apply deref_insert_eq).
    cbn [t_refcount set_t_refcount]. rewrite with_refcount_again.
    assert (wrap32 (v + 1) = v + 1) as ->
      by (unfold wrap32, uint32_max in *; apply Z.mod_small; lia).
    rewrite IH by lia.
    by replace (v + 1 + Z.of_nat n) with (v + Z.of_nat (S n)) by lia.
Qed.

Lemma mrepeat_release n fuel task g t v :
  deref (tasks g) (ABTI_task_get_ptr task) = Some t →
  0 ≤ v ≤ uint32_max →
  mrepeat n (ABT_task_release (S fuel) task)
    (set_tasks (<[ABTI_task_get_ptr task := set_t_refcount v t]> (tasks g)) g)
  = Ret tt
      (set_tasks (<[ABTI_task_get_ptr task :=
                      set_t_refcount (Z.max 0 (v - Z.of_nat n)) t]> (tasks g)) g).
Proof.
  intros Ht. assert (ABTI_task_get_ptr task ≠ NULL) as Hp
    by (apply deref_Some in Ht; tauto).
  revert v. induction n as [|n IH]; intros v Hv.
  - cbn [mrepeat]. by replace (Z.max 0 (v - Z.of_nat 0)) with v by lia.
  - cbn [mrepeat]. unfold mbind, M_bind at 1.
    erewrite ABT_task_release_Ret by (cbn; by apply deref_insert_eq).
    cbn [t_refcount set_t_refcount].
    destruct (decide (v > 0)) as [Hpos|Hzero].
    + rewrite with_refcount_again.
      assert (wrap32 (v - 1) = v - 1) as ->
        by (unfold wrap32, uint32_max in *; apply Z.mod_small; lia).
      rewrite IH by lia.
      by replace (Z.max 0 (v - 1 - Z.of_nat n))
        with (Z.max 0 (v - Z.of_nat (S n))) by lia.
    + rewrite IH by lia.
      by replace (Z.max 0 (v - Z.of_nat n))
        with (Z.max 0 (v - Z.of_nat (S n))) by lia.
Qed.


(** ** Cancelling twice *)

(** X9: [ABT_task_cancel] is idempotent: whatever a call returned, the same
    call on the state it left returns the same status and leaves that
    state as it is. *)
Theorem ABT_task_cancel_idempotent task g e g' :
  ABT_task_cancel task g = Ret e g' →
  ABT_task_cancel task g' = Ret e g'.
Proof.
  intros Hrun.
  pose proof Hrun as Hagain.
  apply ABT_task_cancel_Ret in Hrun as [[-> _]|(t & Hthread & Ht & -> & ->)];
    [done|].
  assert (ABTI_task_get_ptr task ≠ NULL) as Hp
    by (apply deref_Some in Ht; tauto).
  unfold ABT_task_cancel, atomic_task.
  repeat first
    [ progress mrun
    | rewrite decide_False by done
    | rewrite deref_insert_eq by done ].
  cbn [ABTD_atomic_fetch_or_uint32 fst snd t_request set_t_request].
  rewrite insert_insert_eq.
  rewrite <- Z.lor_assoc, Z.lor_diag. done.
Qed.

(** ** More on [ABT_task_free] *)

(** What [ABTI_task_free] does. *)
Lemma ABTI_task_free_effect mutex_free p g e g' :
  ABTI_task_free mutex_free p g = Ret e g' →
  ∃ t, deref (tasks g) p = Some t
    ∧ e = mutex_free
    ∧ (¬ t_refcount t > 0 → is_Some (deref (streams g) (t_p_stream t)))
    ∧ (t_p_name t ≠ NULL → is_Some (deref (names g) (t_p_name t)))
    ∧ names g' = (if decide (t_p_name t ≠ NULL)
                  then delete (t_p_name t) (names g) else names g)
    ∧ streams g' = streams g ∧ p_tasks g' = p_tasks g
    ∧ task_id g' = task_id g ∧ local_thread g' = local_thread g
    ∧ (e = ABT_SUCCESS → tasks g' = delete p (tasks g))
    ∧ (e ≠ ABT_SUCCESS → ∃ u, tasks g' = <[p := set_t_unit u t]> (tasks g)).
Proof.
  intros Hrun. unfold ABTI_task_free in Hrun.
  minv; msimpl; simplify_eq;
    (eexists; split; [done|]); (split; [done|]);
    (split; [intros; first [done | eauto]|]);
    (split; [intros; first [done | eauto]|]);
    rewrite ?decide_True by done; rewrite ?decide_False by done.
  all: cbn; repeat split; try done; intros;
    first [done | by rewrite delete_insert_eq | eauto].
Qed.

(** What the part of [ABT_task_free] after the wait does. *)
Lemma free_terminated_effect mutex_free task p g e cell g' :
  free_terminated mutex_free task p g = Ret (e, cell) g' →
  ∃ t s, deref (tasks g) p = Some t
    ∧ deref (streams g) (t_p_stream t) = Some s
    ∧ e = mutex_free
    ∧ (t_p_name t ≠ NULL → is_Some (deref (names g) (t_p_name t)))
    ∧ names g' = (if decide (t_p_name t ≠ NULL)
                  then delete (t_p_name t) (names g) else names g)
    ∧ streams g' = (if decide (t_refcount t > 0)
                    then <[t_p_stream t :=
                             set_s_deads
                               (ABTI_pool_remove (s_deads s) (t_unit t)) s]>
                           (streams g)
                    else streams g)
    ∧ p_tasks g' = p_tasks g
    ∧ task_id g' = task_id g ∧ local_thread g' = local_thread g
    ∧ (e = ABT_SUCCESS → cell = ABT_TASK_NULL ∧ tasks g' = delete p (tasks g))
    ∧ (e ≠ ABT_SUCCESS →
       cell = task ∧ ∃ u, tasks g' = <[p := set_t_unit u t]> (tasks g)).
Proof.
  intros Hrun. unfold free_terminated in Hrun.
  apply bind_Ret in Hrun as (t & g1 & [Ht ->]%load_task_Ret & Hrun).
  apply bind_Ret in Hrun as (? & g1 & Hpool & Hrun).
  apply bind_Ret in Hrun as (e' & g2 & Hfree & Hrun).
  apply ABTI_task_free_effect in Hfree
    as (t' & Ht' & -> & Hstream & Hname & Hnames & Hstreams & Hptasks
        & Hid & Hthread & Hok & Hfail).
  destruct (decide (t_refcount t > 0)) as [Hpos|Hzero].
  - minv; msimpl; simplify_eq; cbn in *;
      (eexists _, _; split; [done|]); (split; [done|]);
      repeat split; try done; intros;
      first [done | by rewrite decide_True | auto].
  - apply mret_Ret in Hpool as [_ <-]. simplify_eq.
    destruct (Hstream Hzero) as [s Hs].
    minv; msimpl; simplify_eq; cbn in *;
      (eexists _, _; split; [done|]); (split; [done|]);
      repeat split; try done; intros;
      first [done | by rewrite decide_False | auto].
Qed.

(** A call of [ABT_task_free] from a thread that returned is a wait of some
    number of yields followed by the teardown. *)
Lemma ABT_task_free_split env task g r g' :
  local_thread g ≠ NULL →
  ABT_task_free env task g = Ret r g' →
  ∃ k, (k ≤ length (fe_yields env))%nat
    ∧ free_terminated (fe_mutex_free env) task (ABTI_task_get_ptr task)
        (after_yields (fe_yields env) k g) = Ret r g'.
Proof.
  intros Hthread Hrun. unfold ABT_task_free in Hrun.
  apply bind_Ret in Hrun as (g0 & g1 & [-> ->]%get_global_Ret & Hrun).
  rewrite decide_False in Hrun by done.
  apply bind_Ret in Hrun as (? & g1 & Hwait & Hrun).
  apply wait_terminated_Ret in Hwait as (k & t & Hk & -> & _).
  eauto.
Qed.

(** X10: unlike the other operations, [ABT_task_free] does not test its
    handle: called from a thread with the null handle it reads the state
    through a null pointer and has no defined behaviour, whatever the rest
    of the runtime does. *)
Theorem ABT_task_free_null_handle_undefined env g :
  local_thread g ≠ NULL →
  ABT_task_free env ABT_TASK_NULL g = Undefined.
Proof.
  intros Hthread. unfold ABT_task_free, mbind, M_bind, get_global.
  rewrite decide_False by done. rewrite ABTI_task_get_ptr_null.
  destruct (fe_yields env); cbn; unfold mbind, M_bind, load_task;
    by rewrite deref_null.
Qed.

(** X11: when [ABT_mutex_free] fails, [ABT_task_free] returns that error
    with the handle cell as it was and the task object still allocated,
    its fields but the unit untouched; yet the name buffer has already been
    freed while the name pointer still holds its address, so that
    [ABT_task_get_name] on the task has no defined behaviour any more. *)
Theorem ABT_task_free_failure_tears_down_name env task g e cell g' :
  local_thread g ≠ NULL →
  ABT_task_free env task g = Ret (e, cell) g' →
  e ≠ ABT_SUCCESS →
  let p := ABTI_task_get_ptr task in
  cell = task
  ∧ ∃ k t u,
      deref (tasks (after_yields (fe_yields env) k g)) p = Some t
      ∧ deref (tasks g') p = Some (set_t_unit u t)
      ∧ (t_p_name t ≠ NULL →
         is_Some (deref (names (after_yields (fe_yields env) k g)) (t_p_name t))
         ∧ deref (names g') (t_p_name t) = None
         ∧ ∀ name len, ABT_task_get_name task name len g' = Undefined).
Proof.
  intros Hthread Hrun He p.
  apply ABT_task_free_split in Hrun as (k & _ & Hrun); [|done].
  apply free_terminated_effect in Hrun
    as (t & s & Ht & _ & -> & Hname & Hnames & _ & _ & _ & _ & _ & Hfail).
  destruct (Hfail He) as [-> [u Htasks]]. split; [done|].
  fold p in Ht, Htasks.
  assert (p ≠ NULL) as Hp by (apply deref_Some in Ht; tauto).
  assert (deref (tasks g') p = Some (set_t_unit u t)) as Ht'
    by (rewrite Htasks; by apply deref_insert_eq).
  exists k, t, u. split; [done|]. split; [done|].
  intros Hpn. rewrite decide_True in Hnames by done.
  assert (deref (names g') (t_p_name t) = None) as Hgone.
  { rewrite Hnames. unfold deref. rewrite decide_False by done.
    apply lookup_delete_eq. }
  split; [by apply Hname|]. split; [done|].
  intros name len. by eapply ABT_task_get_name_undefined.
Qed.

(** X12: [ABT_task_free] reaches the stream of the task in both of its
    branches: on a terminated task whose stream pointer is null or
    designates no live stream (a task created without a stream keeps a
    null one until a stream claims it) it has no defined behaviour. *)
Theorem ABT_task_free_needs_stream env task g t :
  local_thread g ≠ NULL →
  deref (tasks g) (ABTI_task_get_ptr task) = Some t →
  t_state t = ABT_TASK_STATE_TERMINATED →
  deref (streams g) (t_p_stream t) = None →
  ABT_task_free env task g = Undefined.
Proof.
  intros Hthread Ht Hst Hs.
  unfold ABT_task_free. unfold mbind at 1, M_bind at 1, get_global at 1.
  rewrite decide_False by done.
  unfold mbind at 1, M_bind at 1.
  rewrite (wait_terminated_returns _ _ _ 0%nat t); [|lia|done|done|lia].
  change (after_yields (fe_yields env) 0 g) with g.
  unfold free_terminated, ABTI_task_free.
  repeat first
    [ progress mrun
    | rewrite Ht | rewrite Hs
    | case_decide ];
    done.
Qed.

(** X13: [ABT_task_free] never touches the global pool, the pool or the
    state of any scheduler or stream; the one pool it changes is the pool
    of terminated tasks of the task's own stream, from which it removes the
    task's unit, and it does so only when the reference count is not 0. *)
Theorem ABT_task_free_pools env task g r g' :
  local_thread g ≠ NULL →
  ABT_task_free env task g = Ret r g' →
  let p := ABTI_task_get_ptr task in
  ∃ k t s,
    let g_k := after_yields (fe_yields env) k g in
    deref (tasks g_k) p = Some t
    ∧ deref (streams g_k) (t_p_stream t) = Some s
    ∧ p_tasks g' = p_tasks g_k
    ∧ (t_refcount t > 0 →
       streams g'
       = <[t_p_stream t :=
             set_s_deads (ABTI_pool_remove (s_deads s) (t_unit t)) s]>
           (streams g_k)
       ∧ t_unit t ∉ ABTI_pool_remove (s_deads s) (t_unit t))
    ∧ (¬ t_refcount t > 0 → streams g' = streams g_k)
    ∧ ∀ q s', deref (streams g') q = Some s' →
        ∃ s0, deref (streams g_k) q = Some s0
              ∧ s_p_sched s' = s_p_sched s0 ∧ s_state s' = s_state s0
              ∧ s_id s' = s_id s0.
Proof.
  intros Hthread Hrun p. destruct r as [e cell].
  apply ABT_task_free_split in Hrun as (k & _ & Hrun); [|done].
  apply free_terminated_effect in Hrun
    as (t & s & Ht & Hs & _ & _ & _ & Hstreams & Hpool & _).
  fold p in Ht. exists k, t, s. cbn zeta.
  split; [done|]. split; [done|]. split; [done|].
  split; [|split].
  - intros Hpos. rewrite decide_True in Hstreams by done. split; [done|].
    unfold ABTI_pool_remove. intros [Hne _]%list_elem_of_filter. done.
  - intros Hzero. by rewrite decide_False in Hstreams.
  - intros q s' Hq. rewrite Hstreams in Hq.
    destruct (decide (t_refcount t > 0)); [|eauto].
    destruct (decide (t_p_stream t = q)) as [<-|Hne].
    + rewrite deref_insert_eq in Hq by (apply deref_Some in Hs; tauto).
      simplify_eq. eauto.
    + rewrite deref_insert_ne in Hq by done. eauto.
Qed.

(** ** [ABTI_task_print] *)



(** ** Every outcome of [ABT_task_create] *)

Lemma stream_start_any_keeps r g e g' :
  ABTI_stream_start_any r g = Ret e g' →
  tasks g' = tasks g ∧ names g' = names g ∧ p_tasks g' = p_tasks g
  ∧ task_id g' = task_id g ∧ (e = ABT_SUCCESS ∨ e = r).
Proof.
  unfold ABTI_stream_start_any. intros Hrun. minv. subst.
  destruct (p_streams_created _); minv; subst; cbn; auto 10.
Qed.

Lemma stream_start_keeps r p g e g' :
  ABTI_stream_start r p g = Ret e g' →
  tasks g' = tasks g ∧ names g' = names g ∧ p_tasks g' = p_tasks g
  ∧ task_id g' = task_id g ∧ (e = ABT_SUCCESS ∨ e = r)
  ∧ ∀ q s, deref (streams g) q = Some s →
           ∃ s', deref (streams g') q = Some s'
                 ∧ s_p_sched s' = s_p_sched s.
Proof.
  intros Hrun.
  destruct (stream_start_frame _ _ _ _ _ Hrun) as (Ht & Hn & Hp & _ & Hs).
  split; [done|]. split; [done|]. split; [done|].
  split; [|split].
  - unfold ABTI_stream_start in Hrun. minv; by subst.
  - unfold ABTI_stream_start in Hrun. minv; subst; auto.
  - intros q s Hq. destruct (Hs q s Hq) as (s' & ? & ? & _). eauto.
Qed.

(** The outcome of the branch without a stream. *)
Lemma create_global_effect env p h g t e g' :
  deref (tasks g) p = Some t →
  create_global env p h g = Ret e g' →
  tasks g' = <[p := set_t_unit (ABTI_unit_create_from_task h)
                     (set_t_p_stream NULL t)]> (tasks g)
  ∧ names g' = names g ∧ task_id g' = task_id g
  ∧ (ce_global_add_task env = ABT_SUCCESS →
     p_tasks g' = ABTI_pool_push (p_tasks g) (ABTI_unit_create_from_task h)
     ∧ (e = ABT_SUCCESS ∨ e = ce_stream_start_any env)).
Proof.
  intros Ht Hrun. unfold create_global, ABTI_global_add_task in Hrun.
  minv; msimpl; simplify_eq;
    try match goal with
    | Hs : ABTI_stream_start_any _ _ = Ret _ _ |- _ =>
        apply stream_start_any_keeps in Hs as (-> & -> & -> & -> & ?)
    end; cbn; rewrite ?insert_insert_eq; repeat split; try done; auto.
Qed.

(** The outcome of the branch with a stream. *)
Lemma create_bound_effect env stream p h g t e g' :
  deref (tasks g) p = Some t →
  create_bound env stream p h g = Ret e g' →
  ∃ s s', deref (streams g) (ABTI_stream_get_ptr stream) = Some s
    ∧ deref (streams g') (ABTI_stream_get_ptr stream) = Some s'
    ∧ tasks g' = <[p := set_t_unit (u_create_from_task (s_p_sched s) h)
                       (set_t_p_stream (ABTI_stream_get_ptr stream)
                          (set_t_state ABT_TASK_STATE_DELAYED t))]> (tasks g)
    ∧ sched_pool (s_p_sched s')
      = ABTI_pool_push (sched_pool (s_p_sched s))
                       (u_create_from_task (s_p_sched s) h)
    ∧ names g' = names g ∧ task_id g' = task_id g
    ∧ (e = ABT_SUCCESS
       ∨ (e = ce_stream_start env ∧ s_state s = ABT_STREAM_STATE_CREATED)).
Proof.
  intros Ht Hrun. unfold create_bound, ABTI_scheduler_push in Hrun.
  minv; msimpl; simplify_eq.
  - match goal with
    | Hs : ABTI_stream_start _ _ _ = Ret _ _ |- _ =>
        apply stream_start_keeps in Hs as (-> & -> & _ & -> & He & Hs);
        edestruct Hs as (s' & Hs' & Hsched);
          [cbn; by apply deref_insert_eq|]
    end.
    eexists _, s'. split; [done|]. split; [done|]. rewrite Hsched. cbn.
    rewrite !insert_insert_eq. repeat split; try done.
    destruct He as [->| ->]; auto.
  - eexists _, _. split; [done|]. split; [done|]. cbn.
    rewrite !insert_insert_eq. repeat split; try done. by left.
Qed.

(** Every outcome of [ABT_task_create]: either the allocation failed and
    nothing changed, or one task object was added at a fresh address, with
    the counter's value as its id and a null name, the counter advanced,
    and no name buffer or other task object touched. *)
Lemma ABT_task_create_effect env stream task_func arg newtask g r g' :
  ABT_task_create env stream task_func arg newtask g = Ret r g' →
  (ABTU_malloc (tasks g) (ce_malloc env) = NULL ∧ g' = g)
  ∨ (ABTU_malloc (tasks g) (ce_malloc env) = ce_malloc env
     ∧ ce_malloc env ≠ NULL
     ∧ tasks g !! ce_malloc env = None
     ∧ names g' = names g
     ∧ task_id g' = wrap64 (task_id g + 1)
     ∧ ∃ t', tasks g' = <[ce_malloc env := t']> (tasks g)
             ∧ t_id t' = task_id g ∧ t_p_name t' = NULL).
Proof.
  intros Hrun. unfold ABT_task_create in Hrun.
  apply bind_Ret in Hrun as (g0 & g1 & [-> ->]%get_global_Ret & Hrun).
  destruct (decide (ABTU_malloc (tasks g) (ce_malloc env) = NULL)) as [Hm|Hm].
  { apply mret_Ret in Hrun as [_ <-]. by left. }
  right.
  apply ABTU_malloc_fresh in Hm as (Hm & Hp & Hfresh). rewrite !Hm in Hrun.
  split; [done|]. split; [done|]. split; [done|].
  unfold ABTI_task_get_new_id, ABT_mutex_create, ABTD_atomic_fetch_add_uint64 in Hrun.
  minv; msimpl; simplify_eq; cbn [fst snd] in *.
  - cbn. rewrite !insert_insert_eq. eauto 10.
  - match goal with
    | Hc : create_global _ _ _ _ = Ret _ _ |- _ =>
        eapply create_global_effect in Hc as (-> & -> & -> & _);
          [|cbn; by apply deref_insert_eq]
    end.
    cbn. rewrite !insert_insert_eq. eauto 10.
  - match goal with
    | Hc : create_bound _ _ _ _ _ = Ret _ _ |- _ =>
        eapply create_bound_effect in Hc
          as (s & s' & _ & _ & -> & _ & -> & -> & _);
          [|cbn; by apply deref_insert_eq]
    end.
    cbn. rewrite !insert_insert_eq. eauto 10.
  - match goal with
    | Hc : create_global _ _ _ _ = Ret _ _ |- _ =>
        eapply create_global_effect in Hc as (-> & -> & -> & _);
          [|cbn; by apply deref_insert_eq]
    end.
    cbn. rewrite !insert_insert_eq. eauto 10.
  - match goal with
    | Hc : create_bound _ _ _ _ _ = Ret _ _ |- _ =>
        eapply create_bound_effect in Hc
          as (s & s' & _ & _ & -> & _ & -> & -> & _);
          [|cbn; by apply deref_insert_eq]
    end.
    cbn. rewrite !insert_insert_eq. eauto 10.
Qed.

Lemma ABTI_pool_push_elem pool u : u ∈ ABTI_pool_push pool u.
Proof. unfold ABTI_pool_push. set_solver. Qed.

(** X16: [ABT_task_create] never frees what it allocated: whenever it
    returns an error after the allocation succeeded, the new task object is
    still allocated, an id has been consumed, the output cell holds what it
    held, so that no handle designates the object, and the task objects
    that were live are as they were. *)
Theorem ABT_task_create_failure_keeps_object
    env stream task_func arg newtask g e out g' :
  ABT_task_create env stream task_func arg newtask g = Ret (e, out) g' →
  e ≠ ABT_SUCCESS →
  ABTU_malloc (tasks g) (ce_malloc env) ≠ NULL →
  tasks g !! ce_malloc env = None
  ∧ is_Some (tasks g' !! ce_malloc env)
  ∧ out = newtask
  ∧ task_id g' = wrap64 (task_id g + 1)
  ∧ ∀ q t, tasks g !! q = Some t → tasks g' !! q = Some t.
Proof.
  intros Hrun He Hm.
  destruct (ABT_task_create_failure _ _ _ _ _ _ _ _ _ Hrun He)
    as [(? & _)|(_ & -> & _)]; [done|].
  destruct (ABT_task_create_effect _ _ _ _ _ _ _ _ Hrun)
    as [(? & _)|(_ & Hp & Hfresh & _ & Hid & t' & Htasks & _)]; [done|].
  split; [done|]. split; [rewrite Htasks, lookup_insert_eq; eauto|].
  split; [done|]. split; [done|].
  intros q t Hq. rewrite Htasks, lookup_insert_ne; [done|congruence].
Qed.

(** X17: when the start of a stream fails at the end of [ABT_task_create],
    the call returns that error and delivers no handle although the unit of
    the new task is already in the pool it was pushed into (the global pool
    for a task created without a stream, the pool of the stream's scheduler
    otherwise), where a stream can find and run it. *)
Theorem ABT_task_create_start_failure_keeps_task_queued
    env stream task_func arg newtask g e out g' :
  ABT_task_create env stream task_func arg newtask g = Ret (e, out) g' →
  e ≠ ABT_SUCCESS →
  ABTU_malloc (tasks g) (ce_malloc env) ≠ NULL →
  ce_mutex_create env = ABT_SUCCESS →
  out = newtask
  ∧ if decide (stream = ABT_STREAM_NULL) then
      ce_global_add_task env = ABT_SUCCESS →
      e = ce_stream_start_any env
      ∧ ABTI_unit_create_from_task (ce_malloc env) ∈ p_tasks g'
    else
      ∃ s s', deref (streams g) stream = Some s
        ∧ s_state s = ABT_STREAM_STATE_CREATED
        ∧ e = ce_stream_start env
        ∧ deref (streams g') stream = Some s'
        ∧ u_create_from_task (s_p_sched s) (ce_malloc env)
          ∈ sched_pool (s_p_sched s').
Proof.
  intros Hrun He Hm Hmutex.
  destruct (ABT_task_create_failure _ _ _ _ _ _ _ _ _ Hrun He)
    as [(? & _)|(_ & -> & _)]; [done|].
  split; [done|].
  unfold ABT_task_create in Hrun.
  apply bind_Ret in Hrun as (g0 & g1 & [-> ->]%get_global_Ret & Hrun).
  rewrite decide_False in Hrun by done.
  apply ABTU_malloc_fresh in Hm as (Hm & Hp & Hfresh). rewrite !Hm in Hrun.
  unfold ABTI_task_get_new_id, ABT_mutex_create, ABTD_atomic_fetch_add_uint64 in Hrun.
  unfold ABTI_task_get_handle in Hrun.
  rewrite (decide_False (P := ce_malloc env = NULL)) in Hrun by done.
  minv; msimpl; simplify_eq; cbn [fst snd] in *; try done.
  - intros Hadd.
    match goal with
    | Hc : create_global _ _ _ _ = Ret _ _ |- _ =>
        eapply create_global_effect in Hc as (_ & _ & _ & Hpool);
          [|cbn; by apply deref_insert_eq]
    end.
    destruct (Hpool Hadd) as [-> [?|?]]; [done|].
    split; [done|]. apply ABTI_pool_push_elem.
  - match goal with
    | Hc : create_bound _ _ _ _ _ = Ret _ _ |- _ =>
        eapply create_bound_effect in Hc
          as (s & s' & Hs & Hs' & _ & Hpool & _ & _ & Hcase);
          [|cbn; by apply deref_insert_eq]
    end.
    unfold ABTI_stream_get_ptr in *. rewrite decide_False in * by done.
    cbn in Hs. destruct Hcase as [?|[-> Hst]]; [done|].
    exists s, s'. repeat split; try done.
    rewrite Hpool. apply ABTI_pool_push_elem.
Qed.

(** ** Invariants of the process state *)

Lemma ABT_task_free_tasklet_Ret env task g :
  local_thread g = NULL →
  ABT_task_free env task g = Ret (ABT_ERR_TASK, task) g.
Proof.
  intros Hthread. unfold ABT_task_free, mbind, M_bind, get_global.
  by rewrite decide_True.
Qed.

(** A call other than create, free and set_name leaves the counter and the
    name buffers alone, allocates no task object and changes no id and no
    name pointer. *)
Lemma run_call_same_tasks c g e g' :
  (∀ env stream task_func arg newtask,
     c ≠ Call_create env stream task_func arg newtask) →
  (∀ env task, c ≠ Call_free env task) →
  (∀ env task name, c ≠ Call_set_name env task name) →
  run_call c g = Ret e g' →
  names g' = names g ∧ task_id g' = task_id g
  ∧ ∀ q t', tasks g' !! q = Some t' →
      ∃ t, tasks g !! q = Some t ∧ t_id t' = t_id t
           ∧ t_p_name t' = t_p_name t.
Proof.
  intros Hcreate Hfree Hname Hrun.
  destruct c; cbn [run_call] in Hrun;
    try (by edestruct Hcreate); try (by edestruct Hfree);
    try (by edestruct Hname).
  - apply ABT_task_cancel_Ret in Hrun as [[-> _]|(t0 & _ & Ht0 & _ & ->)];
      [eauto 10|].
    cbn. repeat split; try done. intros q t' Hq.
    apply deref_Some in Ht0 as [_ Ht0].
    destruct (decide (ABTI_task_get_ptr task = q)) as [<-|Hne].
    + rewrite lookup_insert_eq in Hq. simplify_eq. eauto.
    + rewrite lookup_insert_ne in Hq by done. eauto.
  - apply ABT_task_retain_inv in Hrun as [->|(t0 & v & Ht0 & ->)];
      [eauto 10|].
    cbn. repeat split; try done. intros q t' Hq.
    apply deref_Some in Ht0 as [_ Ht0].
    destruct (decide (ABTI_task_get_ptr task = q)) as [<-|Hne].
    + rewrite lookup_insert_eq in Hq. simplify_eq. eauto.
    + rewrite lookup_insert_ne in Hq by done. eauto.
  - apply ABT_task_release_inv in Hrun as [->|(t0 & v & Ht0 & ->)];
      [eauto 10|].
    cbn. repeat split; try done. intros q t' Hq.
    apply deref_Some in Ht0 as [_ Ht0].
    destruct (decide (ABTI_task_get_ptr task = q)) as [<-|Hne].
    + rewrite lookup_insert_eq in Hq. simplify_eq. eauto.
    + rewrite lookup_insert_ne in Hq by done. eauto.
  - apply bind_Ret in Hrun as (r & g1 & Hrun & [_ <-]%mret_Ret).
    apply mret_Ret in Hrun as [_ <-]. eauto 10.
  - apply bind_Ret in Hrun as (r & g1 & Hrun & [_ <-]%mret_Ret).
    apply ABT_task_get_state_inv in Hrun as ->. eauto 10.
  - apply bind_Ret in Hrun as (r & g1 & Hrun & [_ <-]%mret_Ret).
    apply ABT_task_get_name_inv in Hrun as ->. eauto 10.
Qed.

Lemma ids_distinct_sub g g' :
  ids_distinct g →
  task_id g' = task_id g →
  (∀ q t', tasks g' !! q = Some t' →
     ∃ t, tasks g !! q = Some t ∧ t_id t' = t_id t) →
  ids_distinct g'.
Proof.
  intros (Hcounter & Hbelow & Hinj) Hid Hsub. unfold ids_distinct.
  rewrite Hid. split; [done|]. split.
  - intros p t' Hp. destruct (Hsub p t' Hp) as (t & Ht & ->). eauto.
  - intros p q t' u' Hp Hq Heq.
    destruct (Hsub p t' Hp) as (t & Ht & Hidt).
    destruct (Hsub q u' Hq) as (u & Hu & Hidu).
    apply (Hinj p q t u Ht Hu). congruence.
Qed.

Lemma names_owned_sub g g' :
  names_owned g →
  names g' = names g →
  (∀ q t', tasks g' !! q = Some t' →
     ∃ t, tasks g !! q = Some t ∧ t_p_name t' = t_p_name t) →
  names_owned g'.
Proof.
  intros (Hlive & Hinj) Hnames Hsub. unfold names_owned.
  rewrite Hnames. split.
  - intros p t' Hp Hne. destruct (Hsub p t' Hp) as (t & Ht & Heq).
    rewrite Heq in *. eauto.
  - intros p q t' u' Hp Hq Hne Heq.
    destruct (Hsub p t' Hp) as (t & Ht & Hnt).
    destruct (Hsub q u' Hq) as (u & Hu & Hnu).
    apply (Hinj p q t u Ht Hu); congruence.
Qed.

(** One call keeps the ids below the counter and pairwise different, and
    advances the counter by at most one, unless the counter wraps. *)
Lemma run_call_ids_distinct c g e g' :
  env_preserves ids_distinct c →
  run_call c g = Ret e g' →
  ids_distinct g →
  task_id g + 1 < 2 ^ 64 →
  ids_distinct g' ∧ task_id g ≤ task_id g' ≤ task_id g + 1.
Proof.
  intros Henv Hrun Hinv Hroom.
  destruct c as [env stream task_func arg newtask|env task| | | | | |env task name| ];
    try (eapply run_call_same_tasks in Hrun as (_ & Hid & Hsub);
         [|done..];
         split; [|lia];
         apply (ids_distinct_sub g); [done|done|];
         intros q t' Hq; destruct (Hsub q t' Hq) as (t & ? & ? & _); eauto).
  - (* create *)
    cbn [run_call] in Hrun.
    apply bind_Ret in Hrun as (r & g1 & Hrun & [_ <-]%mret_Ret).
    apply ABT_task_create_effect in Hrun
      as [(_ & ->)|(_ & Hp & Hfresh & _ & Hid & t' & Htasks & Hidt & _)].
    { split; [done|lia]. }
    destruct Hinv as (Hcounter & Hbelow & Hinj).
    assert (wrap64 (task_id g + 1) = task_id g + 1) as Hw
      by (unfold wrap64; apply Z.mod_small; lia).
    rewrite Hw in Hid. split; [|lia].
    unfold ids_distinct. rewrite Hid, Htasks. split; [lia|]. split.
    + intros q u Hq.
      destruct (decide (ce_malloc env = q)) as [<-|Hne].
      * rewrite lookup_insert_eq in Hq. simplify_eq. lia.
      * rewrite lookup_insert_ne in Hq by done.
        specialize (Hbelow q u Hq). lia.
    + intros q1 q2 u1 u2 Hq1 Hq2 Heq.
      destruct (decide (ce_malloc env = q1)) as [<-|Hne1];
        destruct (decide (ce_malloc env = q2)) as [<-|Hne2]; [done| | |].
      * rewrite lookup_insert_eq in Hq1. rewrite lookup_insert_ne in Hq2 by done.
        simplify_eq. specialize (Hbelow q2 u2 Hq2). lia.
      * rewrite lookup_insert_eq in Hq2. rewrite lookup_insert_ne in Hq1 by done.
        simplify_eq. specialize (Hbelow q1 u1 Hq1). lia.
      * rewrite lookup_insert_ne in Hq1, Hq2 by done. eauto.
  - (* free *)
    cbn [run_call] in Hrun.
    apply bind_Ret in Hrun as (r & g1 & Hrun & [_ <-]%mret_Ret).
    destruct (decide (local_thread g = NULL)) as [Hthread|Hthread].
    { rewrite (ABT_task_free_tasklet_Ret env task g Hthread) in Hrun.
      injection Hrun as _ <-. split; [done|lia]. }
    destruct r as [e' cell].
    apply ABT_task_free_split in Hrun as (k & _ & Hrun); [|done].
    destruct (Henv k g Hinv) as [Hinvk Hidk].
    apply free_terminated_effect in Hrun
      as (t & s & Ht & _ & -> & _ & _ & _ & _ & Hid & _ & Hok & Hfail).
    apply deref_Some in Ht as [_ Ht].
    split; [|lia].
    apply (ids_distinct_sub (after_yields (fe_yields env) k g)); [done|done|].
    intros q t' Hq.
    destruct (decide (fe_mutex_free env = ABT_SUCCESS)) as [He|He].
    + destruct (Hok He) as [_ Htasks]. rewrite Htasks in Hq.
      apply lookup_delete_Some in Hq as [_ Hq]. eauto.
    + destruct (Hfail He) as [_ [u Htasks]]. rewrite Htasks in Hq.
      destruct (decide (ABTI_task_get_ptr task = q)) as [<-|Hne].
      * rewrite lookup_insert_eq in Hq. simplify_eq. eauto.
      * rewrite lookup_insert_ne in Hq by done. eauto.
  - (* set_name *)
    cbn [run_call] in Hrun.
    destruct (decide (ABTI_task_get_ptr task = NULL)) as [Hnull|Hp].
    { unfold ABT_task_set_name in Hrun. rewrite decide_True in Hrun by done.
      apply mret_Ret in Hrun as [_ <-]. split; [done|lia]. }
    apply ABT_task_set_name_effect in Hrun
      as (s & t & _ & Ht & _ & Htasks & _ & _ & _ & _ & Hid & _); [|done].
    cbn zeta in Htasks. apply deref_Some in Ht as [_ Ht].
    split; [|lia].
    apply (ids_distinct_sub g); [done|done|].
    intros q t' Hq. rewrite Htasks in Hq.
    destruct (decide (ABTI_task_get_ptr task = q)) as [<-|Hne].
    + rewrite lookup_insert_eq in Hq. simplify_eq. eauto.
    + rewrite lookup_insert_ne in Hq by done. eauto.
Qed.

(** X7: as long as the counter does not wrap, the calls of the public
    interface keep the ids of the live task objects pairwise different and
    below the counter, and each call advances the counter by at most one:
    no two live tasks ever share an id. *)
Theorem executes_keeps_ids_distinct tr g g' :
  executes g tr g' →
  Forall (λ ce, env_preserves ids_distinct ce.1) tr →
  ids_distinct g →
  task_id g + Z.of_nat (length tr) < 2 ^ 64 →
  ids_distinct g'
  ∧ task_id g ≤ task_id g' ≤ task_id g + Z.of_nat (length tr).
Proof.
  intros Hexec.
  induction Hexec as [g|g c e g1 tr g' Hcall Hexec IH]; intros Henv Hinv Hroom.
  - cbn. split; [done|lia].
  - apply Forall_cons in Henv as [Hc Henv]. cbn [fst] in Hc.
    cbn [length] in Hroom |- *.
    destruct (run_call_ids_distinct c g e g1 Hc Hcall Hinv) as [Hinv1 Hid1];
      [lia|].
    destruct (IH Henv Hinv1) as [Hinv' Hid']; [lia|].
    split; [done|lia].
Qed.

(** One call keeps the names owned, unless it is an [ABT_task_free] that
    failed. *)
Lemma run_call_names_owned c g e g' :
  env_preserves names_owned c →
  ¬ failed_free (c, e) →
  run_call c g = Ret e g' →
  names_owned g →
  names_owned g'.
Proof.
  intros Henv Hnofail Hrun Hinv.
  destruct c as [env stream task_func arg newtask|env task| | | | | |env task name| ];
    try (eapply run_call_same_tasks in Hrun as (Hnames & _ & Hsub);
         [|done..];
         apply (names_owned_sub g); [done|done|];
         intros q t' Hq; destruct (Hsub q t' Hq) as (t & ? & _ & ?); eauto).
  - (* create *)
    cbn [run_call] in Hrun.
    apply bind_Ret in Hrun as (r & g1 & Hrun & [_ <-]%mret_Ret).
    apply ABT_task_create_effect in Hrun
      as [(_ & ->)|(_ & Hp & Hfresh & Hnames & _ & t' & Htasks & _ & Hnull)];
      [done|].
    destruct Hinv as (Hlive & Hinj).
    unfold names_owned. rewrite Hnames, Htasks. split.
    + intros q u Hq Hne.
      destruct (decide (ce_malloc env = q)) as [<-|Hneq].
      * rewrite lookup_insert_eq in Hq. by simplify_eq.
      * rewrite lookup_insert_ne in Hq by done. eauto.
    + intros q1 q2 u1 u2 Hq1 Hq2 Hne Heq.
      destruct (decide (ce_malloc env = q1)) as [<-|Hne1];
        destruct (decide (ce_malloc env = q2)) as [<-|Hne2]; [done| | |].
      * rewrite lookup_insert_eq in Hq1. by simplify_eq.
      * rewrite lookup_insert_eq in Hq2. simplify_eq. congruence.
      * rewrite lookup_insert_ne in Hq1, Hq2 by done. eauto.
  - (* free *)
    cbn [run_call] in Hrun.
    apply bind_Ret in Hrun as (r & g1 & Hrun & [<- <-]%mret_Ret).
    destruct (decide (local_thread g = NULL)) as [Hthread|Hthread].
    { rewrite (ABT_task_free_tasklet_Ret env task g Hthread) in Hrun.
      by injection Hrun as _ <-. }
    destruct r as [e' cell]. cbn in Hnofail.
    apply ABT_task_free_split in Hrun as (k & _ & Hrun); [|done].
    destruct (Henv k g Hinv) as [(Hlive & Hinj) _].
    apply free_terminated_effect in Hrun
      as (t & s & Ht & _ & -> & _ & Hnames & _ & _ & _ & _ & Hok & _).
    apply deref_Some in Ht as [_ Ht].
    destruct Hok as [_ Htasks]; [by apply dec_stable|].
    unfold names_owned. rewrite Htasks, Hnames. split.
    + intros q u [Hneq Hq]%lookup_delete_Some Hne.
      destruct (decide (t_p_name t ≠ NULL)) as [Hpn|_]; [|eauto].
      rewrite lookup_delete_ne; [eauto|].
      intros Heq. apply Hneq. by apply (Hinj _ _ t u Ht Hq).
    + intros q1 q2 u1 u2 [_ Hq1]%lookup_delete_Some [_ Hq2]%lookup_delete_Some.
      eauto.
  - (* set_name *)
    cbn [run_call] in Hrun.
    destruct (decide (ABTI_task_get_ptr task = NULL)) as [Hnull|Hp].
    { unfold ABT_task_set_name in Hrun. rewrite decide_True in Hrun by done.
      by apply mret_Ret in Hrun as [_ <-]. }
    apply ABT_task_set_name_effect in Hrun
      as (s & t & _ & Ht & _ & Htasks & Hfail & Hok & _); [|done].
    cbn zeta in *. apply deref_Some in Ht as [_ Ht].
    destruct Hinv as (Hlive & Hinj).
    set (p := ABTI_task_get_ptr task) in *.
    set (names1 := if decide (t_p_name t ≠ NULL)
                   then delete (t_p_name t) (names g) else names g) in *.
    assert (∀ q u, tasks g !! q = Some u → q ≠ p → t_p_name u ≠ NULL →
              is_Some (names1 !! t_p_name u)) as Hothers.
    { intros q u Hq Hneq Hne. unfold names1.
      destruct (decide (t_p_name t ≠ NULL)) as [Hpn|_]; [|eauto].
      rewrite lookup_delete_ne; [eauto|].
      intros Heq. apply Hneq. symmetry. by apply (Hinj _ _ t u Ht Hq). }
    destruct (decide (ABTU_malloc names1 (sn_malloc env) = NULL)) as [Hbuf|Hbuf].
    + destruct (Hfail Hbuf) as [_ Hnames]. rewrite Hbuf in Htasks.
      unfold names_owned. rewrite Htasks, Hnames. split.
      * intros q u Hq Hne.
        destruct (decide (p = q)) as [<-|Hneq].
        -- rewrite lookup_insert_eq in Hq. by simplify_eq.
        -- rewrite lookup_insert_ne in Hq by done. eauto.
      * intros q1 q2 u1 u2 Hq1 Hq2 Hne Heq.
        destruct (decide (p = q1)) as [<-|Hne1];
          destruct (decide (p = q2)) as [<-|Hne2]; [done| | |].
        -- rewrite lookup_insert_eq in Hq1. by simplify_eq.
        -- rewrite lookup_insert_eq in Hq2. simplify_eq; cbn in *; congruence.
        -- rewrite lookup_insert_ne in Hq1, Hq2 by done. eauto.
    + destruct (Hok Hbuf) as [_ Hnames].
      apply ABTU_malloc_fresh in Hbuf as (Hbuf & Hnz & Hfresh).
      rewrite Hbuf in *.
      unfold names_owned. rewrite Htasks, Hnames. split.
      * intros q u Hq Hne.
        destruct (decide (p = q)) as [<-|Hneq].
        -- rewrite lookup_insert_eq in Hq. simplify_eq. cbn.
           rewrite lookup_insert_eq. eauto.
        -- rewrite lookup_insert_ne in Hq by done.
           destruct (Hothers q u Hq) as [x Hx]; [done..|].
           rewrite lookup_insert_ne; [eauto|]. congruence.
      * intros q1 q2 u1 u2 Hq1 Hq2 Hne Heq.
        destruct (decide (p = q1)) as [<-|Hne1];
          destruct (decide (p = q2)) as [<-|Hne2]; [done| | |].
        -- rewrite lookup_insert_eq in Hq1. rewrite lookup_insert_ne in Hq2 by done.
           simplify_eq. cbn in *.
           destruct (Hothers q2 u2 Hq2) as [x Hx]; [done|congruence|].
           congruence.
        -- rewrite lookup_insert_eq in Hq2. rewrite lookup_insert_ne in Hq1 by done.
           simplify_eq. cbn in *.
           destruct (Hothers q1 u1 Hq1) as [x Hx]; [done|done|].
           congruence.
        -- rewrite lookup_insert_ne in Hq1, Hq2 by done. eauto.
Qed.

(** X6: the calls of the public interface keep the names owned: as long as
    no [ABT_task_free] fails, every name pointer of a live task object is
    null or designates a live buffer, and no buffer is the name of two
    task objects, so that no call frees the name of another task and
    [ABT_task_get_name] returns on every task that has a name. *)
Theorem executes_keeps_names_owned tr g g' :
  executes g tr g' →
  Forall (λ ce, env_preserves names_owned ce.1 ∧ ¬ failed_free ce) tr →
  names_owned g →
  names_owned g'
  ∧ ∀ task t name len,
      deref (tasks g') (ABTI_task_get_ptr task) = Some t →
      t_p_name t ≠ NULL →
      ∃ s, ABT_task_get_name task name len g'
           = Ret (ABT_SUCCESS, (λ _, s) <$> name, Z.of_nat (String.length s)) g'.
Proof.
  intros Hexec Henv Hinv.
  assert (names_owned g') as Hinv'.
  { induction Hexec as [g|g c e g1 tr g' Hcall Hexec IH]; [done|].
    apply Forall_cons in Henv as [[Hc Hnofail] Henv]. cbn [fst] in Hc.
    apply IH; [done|]. by eapply run_call_names_owned. }
  split; [done|].
  intros task t name len Ht Hne.
  destruct Hinv' as [Hlive _].
  pose proof Ht as [_ Ht']%deref_Some.
  destruct (Hlive _ _ Ht' Hne) as [s Hs].
  exists s. eapply ABT_task_get_name_Ret; [done|].
  unfold deref. by rewrite decide_False.
Qed.

(** ** Concurrent releases finish, and one caller alone *)


(** X19: the function run by one caller and the transition system agree:
    on a handle to a live task, a lone caller of the transition system can
    end in a state and with a status exactly when [ABT_task_release]
    returns that state and status. *)
Theorem ABT_task_release_alone_iff fuel task g t e g' :
  deref (tasks g) (ABTI_task_get_ptr task) = Some t →
  0 ≤ t_refcount t ≤ uint32_max →
  rtc release_sys_step (g, [RelEntry task]) (g', [RelReturn e])
  ↔ ABT_task_release (S fuel) task g = Ret e g'.
Proof.
  intros Ht Hrc.
  assert (ABTI_task_get_ptr task ≠ NULL) as Hp
    by (apply deref_Some in Ht; tauto).
  split; [|apply ABT_task_release_alone].
  intros Hsteps.
  pose proof (release_inv_init task g t 1 Ht (proj1 Hrc)) as Hinv0.
  destruct (release_inv_rtc _ _ _ _ _ _ _ Hp (proj2 Hrc) Hinv0 Hsteps)
    as (rc & _ & Hg' & _ & Hrange & Hlow & Hexact & Hpcs).
  cbn [fst snd] in *.
  apply Forall_cons in Hpcs as [He _]. cbn in He. subst e.
  rewrite (returned_count_all [RelReturn ABT_SUCCESS]) in Hlow, Hexact
    by (by repeat constructor).
  cbn [length] in Hlow, Hexact.
  rewrite (ABT_task_release_Ret _ _ _ t Ht). f_equal. rewrite Hg'.
  destruct (decide (t_refcount t > 0)) as [Hpos|Hzero].
  - assert (wrap32 (t_refcount t - 1) = t_refcount t - 1) as ->
      by (unfold wrap32, uint32_max in *; apply Z.mod_small; lia).
    by replace rc with (t_refcount t - 1) by lia.
  - replace rc with (t_refcount t) by lia. by rewrite with_refcount_same.
Qed.

End properties.

(** * Instances of the theorems on concrete states *)

(** A task created on the stream at address 48 from a thread. *)
Lemma ABT_task_create_binding_witness :
  ∃ out g',
    ABT_task_create (hdr := sample_header) (sample_create_env ABT_SUCCESS)
      48 100 200 (Some 0) (sample_start 500) = Ret (ABT_SUCCESS, out) g'
    ∧ ∃ t, deref (tasks g') 16 = Some t
        ∧ t_state t = ABT_TASK_STATE_DELAYED ∧ t_p_stream t = 48.
Proof.
  eexists _, _. split; [vm_compute; reflexivity|].
  edestruct (ABT_task_create_binding (hdr := sample_header)
              (sample_create_env ABT_SUCCESS) 48 100 200 (Some 0)
              (sample_start 500)) as (t & _ & Ht & _ & Hb);
    [vm_compute; reflexivity|].
  destruct Hb as (s & s' & _ & _ & Hst & Hps & _).
  exists t. split; [exact Ht|]. split; [exact Hst|exact Hps].
Defined.

(** C7: a call of [ABT_task_create] whose output cell holds 7 and in which
    the mutex creation fails returns that failure and leaves 7 in the cell,
    not the null sentinel, with the task object still allocated; when the
    allocation itself fails the cell does receive the null sentinel. *)
Theorem ABT_task_create_mutex_failure_keeps_cell :
  (∃ g', ABT_task_create (hdr := sample_header)
           (sample_create_env (ABT_ERR_OTHER 1))
           (ABT_STREAM_NULL (abti_h := sample_header)) 100 200 (Some 7)
           (sample_start 500)
         = Ret (ABT_ERR_OTHER 1, Some 7) g'
         ∧ Some 7 ≠ Some (ABT_TASK_NULL (abti_h := sample_header))
         ∧ is_Some (tasks g' !! 16))
  ∧ ABT_task_create (hdr := sample_header) sample_create_env_nomem
      (ABT_STREAM_NULL (abti_h := sample_header)) 100 200 (Some 7)
      (sample_start 500)
    = Ret (ABT_ERR_MEM, Some (ABT_TASK_NULL (abti_h := sample_header)))
          (sample_start 500).
Proof.
  split.
  - eexists. split; [vm_compute; reflexivity|]. split; [done|].
    vm_compute. eauto.
  - vm_compute. reflexivity.
Qed.

(** A task created with an output handle on the stream at address 48. *)
Lemma ABT_task_create_refcount_witness :
  ∃ out g',
    ABT_task_create (hdr := sample_header) (sample_create_env ABT_SUCCESS)
      48 100 200 (Some 0) (sample_start 500) = Ret (ABT_SUCCESS, out) g'
    ∧ ∃ t, deref (tasks g') 16 = Some t ∧ t_refcount t = 1.
Proof.
  eexists _, _. split; [vm_compute; reflexivity|].
  edestruct (ABT_task_create_refcount (hdr := sample_header)
              (sample_create_env ABT_SUCCESS) 48 100 200 (Some 0)
              (sample_start 500)) as (t & _ & Ht & Hrc);
    [vm_compute; reflexivity|].
  exists t. split; [exact Ht|exact Hrc].
Defined.

(** A thread frees the running task at address 16, which terminates during
    the first yield. *)
Lemma ABT_task_free_waits_then_deallocates_witness :
  ∃ g',
    ABT_task_free (hdr := sample_header) sample_free_env 16
      (sample_with_task 500 ABT_TASK_STATE_RUNNING 0)
    = Ret (ABT_SUCCESS, -1) g'
    ∧ ∃ k t, (k ≤ 1)%nat
        ∧ deref (tasks (after_yields [sample_terminate] k
                          (sample_with_task 500 ABT_TASK_STATE_RUNNING 0)))
                16 = Some t
        ∧ t_state t = ABT_TASK_STATE_TERMINATED
        ∧ deref (tasks g') 16 = None.
Proof.
  eexists. split; [vm_compute; reflexivity|].
  edestruct (ABT_task_free_waits_then_deallocates (hdr := sample_header)
               sample_free_env 16
               (sample_with_task 500 ABT_TASK_STATE_RUNNING 0))
    as (k & t & Hk & Ht & Hst & _ & Hok & _);
    [by vm_compute | vm_compute; reflexivity |].
  exists k, t. split; [exact Hk|]. split; [exact Ht|]. split; [exact Hst|].
  apply Hok. reflexivity.
Defined.

(** A tasklet tries to free the task at address 16. *)
Lemma ABT_task_free_from_task_context_witness :
  ABT_task_free (hdr := sample_header) sample_free_env 16
    (sample_with_task NULL ABT_TASK_STATE_TERMINATED 0)
  = Ret (ABT_ERR_TASK, 16) (sample_with_task NULL ABT_TASK_STATE_TERMINATED 0).
Proof.
  apply (ABT_task_free_from_task_context (hdr := sample_header)).
  reflexivity.
Defined.

(** Retain then release on the task at address 16, which is referenced
    twice. *)
Lemma ABT_task_retain_release_restores_witness :
  ∃ g1 t1,
    ABT_task_retain (hdr := sample_header) 16
      (sample_with_task 500 ABT_TASK_STATE_RUNNING 2) = Ret ABT_SUCCESS g1
    ∧ deref (tasks g1) 16 = Some t1
    ∧ t_refcount t1 = 3
    ∧ ABT_task_release (hdr := sample_header) 1 16 g1
      = Ret ABT_SUCCESS (sample_with_task 500 ABT_TASK_STATE_RUNNING 2).
Proof.
  apply (ABT_task_retain_release_restores (hdr := sample_header) 0 16
           (sample_with_task 500 ABT_TASK_STATE_RUNNING 2)
           (sample_task ABT_TASK_STATE_RUNNING 2)).
  - reflexivity.
  - by vm_compute.
Defined.

(** With every bit of the reference count set, retain wraps the count to 0
    and the release that follows finds nothing to take back: the count ends
    at 0, not at its value before the pair. *)
Lemma ABT_task_retain_release_at_uint32_max :
  ∃ g1 g2 t2,
    ABT_task_retain (hdr := sample_header) 16
      (sample_with_task 500 ABT_TASK_STATE_RUNNING uint32_max)
    = Ret ABT_SUCCESS g1
    ∧ ABT_task_release (hdr := sample_header) 1 16 g1 = Ret ABT_SUCCESS g2
    ∧ deref (tasks g2) 16 = Some t2
    ∧ t_refcount t2 = 0
    ∧ t_refcount t2 ≠ uint32_max.
Proof.
  eexists _, _, _. split; [vm_compute; reflexivity|].
  split; [vm_compute; reflexivity|]. split; [vm_compute; reflexivity|].
  by vm_compute.
Qed.

(** From a thread, cancelling the null handle is an invalid-task error. *)
Lemma null_handle_is_invalid_task_witness :
  ABT_task_cancel (hdr := sample_header) (-1) (sample_start 500)
  = Ret ABT_ERR_INV_TASK (sample_start 500).
Proof.
  apply (null_handle_is_invalid_task (hdr := sample_header) (sample_start 500)
           ABT_TASK_STATE_CREATED None 0
           {| sn_malloc := 64; sn_block := "" |} None 0).
  by vm_compute.
Defined.

(** From a tasklet, cancelling the null handle reports the caller's context,
    not the handle. *)
Lemma ABT_task_cancel_null_from_task_context :
  ABT_task_cancel (hdr := sample_header)
    (ABT_TASK_NULL (abti_h := sample_header)) (sample_start NULL)
  = Ret ABT_ERR_TASK (sample_start NULL)
  ∧ ABT_ERR_TASK ≠ ABT_ERR_INV_TASK.
Proof. split; [reflexivity|done]. Qed.

(** A thread cancels the task at address 16, then retains it, cancels it
    again and releases it. *)
Lemma cancel_request_is_monotonic_witness :
  ∃ g g',
    ABT_task_cancel (hdr := sample_header) 16
      (sample_with_task 500 ABT_TASK_STATE_CREATED 1) = Ret ABT_SUCCESS g
    ∧ runs (hdr := sample_header) 16 g
        [(Call_retain 16, ABT_SUCCESS); (Call_cancel 16, ABT_SUCCESS);
         (Call_release 1 16, ABT_SUCCESS)] g'
    ∧ ∃ t', tasks g' !! 16 = Some t'
        ∧ t_state t' = ABT_TASK_STATE_CREATED
        ∧ cancel_requested (hdr := sample_header) t'.
Proof.
  eexists _, _. split; [vm_compute; reflexivity|].
  assert (∀ p g c e g1 tr g',
            run_call (hdr := sample_header) c g = Ret e g1 →
            is_Some (tasks g1 !! p) →
            runs (hdr := sample_header) p g1 tr g' →
            runs (hdr := sample_header) p g ((c, e) :: tr) g') as Hcons
    by (intros; by eapply runs_cons).
  split.
  - apply Hcons with (g1 := sample_with_task_after_cancel 2 1);
      [vm_compute; reflexivity | vm_compute; eauto |].
    apply Hcons with (g1 := sample_with_task_after_cancel 2 1);
      [vm_compute; reflexivity | vm_compute; eauto |].
    apply Hcons with (g1 := sample_with_task_after_cancel 1 1);
      [vm_compute; reflexivity | vm_compute; eauto |].
    apply runs_nil.
  - edestruct (cancel_request_is_monotonic (hdr := sample_header) 16
                 (sample_with_task 500 ABT_TASK_STATE_CREATED 1)
                 (sample_with_task_after_cancel 1 1)
                 [(Call_retain 16, ABT_SUCCESS); (Call_cancel 16, ABT_SUCCESS);
                  (Call_release 1 16, ABT_SUCCESS)]
                 (sample_with_task_after_cancel 1 1))
      as (t0 & t & t' & _ & _ & _ & _ & _ & Ht' & Hset').
    + vm_compute; reflexivity.
    + repeat constructor.
    + apply Hcons with (g1 := sample_with_task_after_cancel 2 1);
        [vm_compute; reflexivity | vm_compute; eauto |].
      apply Hcons with (g1 := sample_with_task_after_cancel 2 1);
        [vm_compute; reflexivity | vm_compute; eauto |].
      apply Hcons with (g1 := sample_with_task_after_cancel 1 1);
        [vm_compute; reflexivity | vm_compute; eauto |].
      apply runs_nil.
    + exists t'. split; [exact Ht'|]. split; [|exact Hset'].
      vm_compute in Ht'. by injection Ht' as <-.
Defined.

(** A thread creates a task on the stream at address 48, retains it and
    asks for its name. *)
Lemma ABT_task_get_name_needs_set_name_witness :
  ∃ g g',
    ABT_task_create (hdr := sample_header) (sample_create_env ABT_SUCCESS)
      48 100 200 (Some 0) (sample_start 500) = Ret (ABT_SUCCESS, Some 16) g
    ∧ runs (hdr := sample_header) 16 g [(Call_retain 16, ABT_SUCCESS)] g'
    ∧ ABT_task_get_name (hdr := sample_header) 16 None 0 g = Undefined
    ∧ ABT_task_get_name (hdr := sample_header) 16 None 0 g' = Undefined.
Proof.
  eexists _, _. split; [vm_compute; reflexivity|].
  assert (∀ g1, run_call (hdr := sample_header) (Call_retain 16)
                  (sample_created 1) = Ret ABT_SUCCESS g1 →
                is_Some (tasks g1 !! 16) →
                runs (hdr := sample_header) 16 (sample_created 1)
                  [(Call_retain 16, ABT_SUCCESS)] g1) as Hcons
    by (intros; eapply runs_cons; [done..|apply runs_nil]).
  split; [apply (Hcons (sample_created 2));
            [vm_compute; reflexivity | vm_compute; eauto]|].
  edestruct (ABT_task_get_name_needs_set_name (hdr := sample_header)
               (sample_create_env ABT_SUCCESS) 48 100 200 (Some 0)
               (sample_start 500) (Some 16) (sample_created 1)
               [(Call_retain 16, ABT_SUCCESS)] (sample_created 2) 16 None 0)
    as (_ & Hnow & Hlater).
  - vm_compute; reflexivity.
  - reflexivity.
  - repeat constructor.
  - apply (Hcons (sample_created 2)); [vm_compute; reflexivity | vm_compute; eauto].
  - split; [exact Hnow|]. apply Hlater.
    intros Hex. apply Exists_cons in Hex as [[[] _]|Hex].
    by apply Exists_nil in Hex.
Defined.

(** Two callers release the task at address 16, which is referenced once:
    both read the count 1, the first one's compare-and-swap succeeds, the
    second one's fails, and its next test reads 0. *)
Lemma ABT_task_release_never_below_zero_witness :
  rtc (release_sys_step (hdr := sample_header))
      (sample_with_task 500 ABT_TASK_STATE_RUNNING 1,
       replicate 2 (RelEntry 16))
      (sample_with_task 500 ABT_TASK_STATE_RUNNING 1,
       [RelCas 16 1; RelCas 16 1])
  ∧ rtc (release_sys_step (hdr := sample_header))
      (sample_with_task 500 ABT_TASK_STATE_RUNNING 1,
       [RelCas 16 1; RelCas 16 1])
      (sample_with_task 500 ABT_TASK_STATE_RUNNING 0,
       [RelReturn ABT_SUCCESS; RelReturn ABT_SUCCESS])
  ∧ ∃ rc2,
      deref (tasks (sample_with_task 500 ABT_TASK_STATE_RUNNING 0)) 16
      = Some (set_t_refcount rc2 (sample_task ABT_TASK_STATE_RUNNING 1))
      ∧ 0 ≤ rc2
      ∧ rc2 = Z.max 0 (1 - 2).
Proof.
  assert (rtc (release_sys_step (hdr := sample_header))
            (sample_with_task 500 ABT_TASK_STATE_RUNNING 1,
             replicate 2 (RelEntry 16))
            (sample_with_task 500 ABT_TASK_STATE_RUNNING 1,
             [RelCas 16 1; RelCas 16 1])) as Hfirst.
  { eapply rtc_l; [eapply (release_sys_step_to _ _ 0%nat);
      [vm_compute; reflexivity | cbn; tauto
      | vm_compute; reflexivity | reflexivity]|].
    eapply rtc_l; [eapply (release_sys_step_to _ _ 1%nat);
      [vm_compute; reflexivity | cbn; tauto
      | vm_compute; reflexivity | reflexivity]|].
    eapply rtc_l; [eapply (release_sys_step_to _ _ 0%nat);
      [vm_compute; reflexivity | cbn; tauto
      | vm_compute; reflexivity | reflexivity]|].
    eapply rtc_l; [eapply (release_sys_step_to _ _ 1%nat);
      [vm_compute; reflexivity | cbn; tauto
      | vm_compute; reflexivity | reflexivity]|].
    apply rtc_refl. }
  assert (rtc (release_sys_step (hdr := sample_header))
            (sample_with_task 500 ABT_TASK_STATE_RUNNING 1,
             [RelCas 16 1; RelCas 16 1])
            (sample_with_task 500 ABT_TASK_STATE_RUNNING 0,
             [RelReturn ABT_SUCCESS; RelReturn ABT_SUCCESS])) as Hsecond.
  { eapply rtc_l; [eapply (release_sys_step_to _ _ 0%nat);
      [vm_compute; reflexivity | cbn; tauto
      | vm_compute; reflexivity | reflexivity]|].
    eapply rtc_l; [eapply (release_sys_step_to _ _ 1%nat);
      [vm_compute; reflexivity | cbn; tauto
      | vm_compute; reflexivity | reflexivity]|].
    eapply rtc_l; [eapply (release_sys_step_to _ _ 1%nat);
      [vm_compute; reflexivity | cbn; tauto
      | vm_compute; reflexivity | reflexivity]|].
    apply rtc_refl. }
  split; [exact Hfirst|]. split; [exact Hsecond|].
  destruct (ABT_task_release_never_below_zero (hdr := sample_header) 16
              (sample_with_task 500 ABT_TASK_STATE_RUNNING 1)
              (sample_task ABT_TASK_STATE_RUNNING 1) 2 _ _ _ _
              eq_refl ltac:(by vm_compute) Hfirst Hsecond)
    as (rc1 & rc2 & _ & _ & Ht & Hrange & _ & Hall).
  exists rc2. split; [exact Ht|]. split; [lia|].
  apply Hall. repeat constructor.
Defined.

(** ** A run of the whole interface

    A thread creates an unbound task with a handle, retains it, releases it
    twice, names it and reads the name back; a second task gets the next
    id. *)
Example scenario_create_retain_release_name :
  ∃ g1 g2 g3 g4 g5 g6 t1 t2 t4 t6,
    ABT_task_create (hdr := sample_header) (sample_create_env ABT_SUCCESS)
      (-1) 100 200 (Some 0) (sample_start 500) = Ret (ABT_SUCCESS, Some 16) g1
    ∧ deref (tasks g1) 16 = Some t1
    ∧ t_state t1 = ABT_TASK_STATE_CREATED ∧ t_refcount t1 = 1
    ∧ t_unit t1 ∈ p_tasks g1
    ∧ ABT_task_retain (hdr := sample_header) 16 g1 = Ret ABT_SUCCESS g2
    ∧ deref (tasks g2) 16 = Some t2 ∧ t_refcount t2 = 2
    ∧ ABT_task_release (hdr := sample_header) 1 16 g2 = Ret ABT_SUCCESS g3
    ∧ ABT_task_release (hdr := sample_header) 1 16 g3 = Ret ABT_SUCCESS g4
    ∧ deref (tasks g4) 16 = Some t4 ∧ t_refcount t4 = 0
    ∧ ABT_task_set_name (hdr := sample_header)
        {| sn_malloc := 64; sn_block := "" |} 16 (Some "worker-1") g4
      = Ret ABT_SUCCESS g5
    ∧ ABT_task_get_name (hdr := sample_header) 16 (Some "") 0 g5
      = Ret (ABT_SUCCESS, Some "worker-1", 8) g5
    ∧ ABT_task_create (hdr := sample_header)
        {| ce_malloc := 80; ce_block := sample_task ABT_TASK_STATE_RUNNING 77;
           ce_mutex_create := ABT_SUCCESS; ce_mutex := 301;
           ce_global_add_task := ABT_SUCCESS;
           ce_stream_start_any := ABT_SUCCESS;
           ce_stream_start := ABT_SUCCESS |}
        (-1) 100 200 (Some 0) g5 = Ret (ABT_SUCCESS, Some 80) g6
    ∧ deref (tasks g6) 80 = Some t6
    ∧ t_id t1 < t_id t6.
Proof.
  eexists _, _, _, _, _, _, _, _, _, _.
  repeat (split; [vm_compute; reflexivity|]).
  split; [vm_compute; set_solver|].
  repeat (split; [vm_compute; reflexivity|]).
  vm_compute; reflexivity.
Qed.

(** * Instances of the further properties *)

(** A thread creates an unbound task with a handle and asks for its state. *)
Lemma ABT_task_create_then_get_state_witness :
  ∃ g',
    ABT_task_create (hdr := sample_header) (sample_create_env ABT_SUCCESS)
      (-1) 100 200 (Some 0) (sample_start 500)
    = Ret (ABT_SUCCESS, Some 16) g'
    ∧ ABT_task_get_state (hdr := sample_header) 16 ABT_TASK_STATE_RUNNING g'
      = Ret (ABT_SUCCESS, ABT_TASK_STATE_CREATED) g'.
Proof.
  eexists. split; [vm_compute; reflexivity|].
  apply (ABT_task_create_then_get_state (hdr := sample_header)
           (sample_create_env ABT_SUCCESS) (-1) 100 200 0 (sample_start 500)).
  - vm_compute; reflexivity.
  - by vm_compute.
Defined.

(** A thread names the task at address 16 and reads the length of the
    name. *)
Lemma ABT_task_set_name_then_get_name_witness :
  ∃ g',
    ABT_task_set_name (hdr := sample_header) sample_name_env 16
      (Some "worker-1") (sample_with_task 500 ABT_TASK_STATE_RUNNING 1)
    = Ret ABT_SUCCESS g'
    ∧ ABT_task_get_name (hdr := sample_header) 16 None 0 g'
      = Ret (ABT_SUCCESS, None, 8) g'.
Proof.
  eexists. split; [vm_compute; reflexivity|].
  apply (ABT_task_set_name_then_get_name (hdr := sample_header)
           sample_name_env 16 "worker-1"
           (sample_with_task 500 ABT_TASK_STATE_RUNNING 1) _ None 0).
  vm_compute; reflexivity.
Defined.

(** A thread renames the named task at address 16 while the allocator
    fails. *)
Lemma ABT_task_set_name_failure_loses_name_witness :
  ABT_task_get_name (hdr := sample_header) 16 None 0 sample_named
  = Ret (ABT_SUCCESS, None, 8) sample_named
  ∧ ∃ g',
      ABT_task_set_name (hdr := sample_header) sample_name_env_nomem 16
        (Some "worker-2") sample_named
      = Ret ABT_ERR_MEM g'
      ∧ ABT_task_get_name (hdr := sample_header) 16 None 0 g' = Undefined.
Proof.
  split; [vm_compute; reflexivity|].
  eexists. split; [vm_compute; reflexivity|].
  edestruct (ABT_task_set_name_failure_loses_name (hdr := sample_header)
               sample_name_env_nomem 16 "worker-2" sample_named)
    as (t & t' & _ & _ & _ & _ & Hundef);
    [vm_compute; reflexivity|exact Hundef].
Defined.


(** A thread cancels the task at address 16 twice. *)
Lemma ABT_task_cancel_idempotent_witness :
  ABT_task_cancel (hdr := sample_header) 16 (sample_with_task_after_cancel 1 1)
  = Ret ABT_SUCCESS (sample_with_task_after_cancel 1 1).
Proof.
  apply (ABT_task_cancel_idempotent (hdr := sample_header) 16
           (sample_with_task 500 ABT_TASK_STATE_CREATED 1)).
  vm_compute; reflexivity.
Defined.

(** A thread frees the null handle. *)
Lemma ABT_task_free_null_handle_undefined_witness :
  ABT_task_free (hdr := sample_header) sample_free_env (-1) (sample_start 500)
  = Undefined.
Proof.
  apply (ABT_task_free_null_handle_undefined (hdr := sample_header)
           sample_free_env (sample_start 500)).
  by vm_compute.
Defined.

(** A thread frees the named task at address 16 and the mutex cannot be
    freed. *)
Lemma ABT_task_free_failure_tears_down_name_witness :
  ∃ g',
    ABT_task_free (hdr := sample_header) sample_free_env_fail 16 sample_named
    = Ret (ABT_ERR_OTHER 2, 16) g'
    ∧ is_Some (deref (tasks g') 16)
    ∧ ABT_task_get_name (hdr := sample_header) 16 None 0 g' = Undefined.
Proof.
  eexists. split; [vm_compute; reflexivity|].
  edestruct (ABT_task_free_failure_tears_down_name (hdr := sample_header)
               sample_free_env_fail 16 sample_named)
    as (_ & k & t & u & Ht & Ht' & Hname);
    [by vm_compute | vm_compute; reflexivity | done |].
  split; [eexists; exact Ht'|].
  apply Hname.
  destruct k as [|[|k]]; vm_compute in Ht; injection Ht as <-; done.
Defined.

(** A thread frees a terminated task that no stream has claimed. *)
Lemma ABT_task_free_needs_stream_witness :
  ABT_task_free (hdr := sample_header) sample_free_env 16
    sample_unbound_terminated
  = Undefined.
Proof.
  apply (ABT_task_free_needs_stream (hdr := sample_header) sample_free_env 16
           sample_unbound_terminated
           (set_t_p_stream NULL (sample_task ABT_TASK_STATE_TERMINATED 0)));
    [by vm_compute | reflexivity | reflexivity | reflexivity].
Defined.

(** A thread frees the task at address 16, which is referenced once and
    whose unit is in the pool of terminated tasks of the stream at 48. *)
Lemma ABT_task_free_pools_witness :
  ∃ g',
    ABT_task_free (hdr := sample_header) sample_free_env 16
      (sample_with_task 500 ABT_TASK_STATE_RUNNING 1)
    = Ret (ABT_SUCCESS, -1) g'
    ∧ ∃ k t s,
        deref (tasks (after_yields [sample_terminate] k
                        (sample_with_task 500 ABT_TASK_STATE_RUNNING 1))) 16
        = Some t
        ∧ deref (streams (after_yields [sample_terminate] k
                            (sample_with_task 500 ABT_TASK_STATE_RUNNING 1)))
                (t_p_stream t)
          = Some s
        ∧ p_tasks g'
          = p_tasks (after_yields [sample_terminate] k
                       (sample_with_task 500 ABT_TASK_STATE_RUNNING 1))
        ∧ t_unit t ∉ ABTI_pool_remove (s_deads s) (t_unit t).
Proof.
  eexists. split; [vm_compute; reflexivity|].
  edestruct (ABT_task_free_pools (hdr := sample_header) sample_free_env 16
               (sample_with_task 500 ABT_TASK_STATE_RUNNING 1))
    as (k & t & s & Ht & Hs & Hpool & Hdeads & _);
    [by vm_compute | vm_compute; reflexivity |].
  exists k, t, s. split; [exact Ht|]. split; [exact Hs|].
  split; [exact Hpool|]. apply Hdeads.
  destruct k as [|[|k]]; vm_compute in Ht; injection Ht as <-; done.
Defined.



(** A thread creates a task without a stream and the mutex cannot be
    created. *)
Lemma ABT_task_create_failure_keeps_object_witness :
  ∃ g',
    ABT_task_create (hdr := sample_header)
      (sample_create_env (ABT_ERR_OTHER 1)) (-1) 100 200 (Some 7)
      (sample_start 500)
    = Ret (ABT_ERR_OTHER 1, Some 7) g'
    ∧ is_Some (tasks g' !! 16)
    ∧ task_id g' = 1.
Proof.
  eexists. split; [vm_compute; reflexivity|].
  edestruct (ABT_task_create_failure_keeps_object (hdr := sample_header)
               (sample_create_env (ABT_ERR_OTHER 1)) (-1) 100 200 (Some 7)
               (sample_start 500))
    as (_ & Hlive & _ & Hid & _);
    [vm_compute; reflexivity | done | by vm_compute |].
  split; [exact Hlive|exact Hid].
Defined.

(** A thread creates a task on the stream at address 48, which cannot be
    started. *)
Lemma ABT_task_create_start_failure_keeps_task_queued_witness :
  ∃ g' s',
    ABT_task_create (hdr := sample_header) sample_create_env_nostart
      48 100 200 (Some 7) (sample_start 500)
    = Ret (ABT_ERR_OTHER 3, Some 7) g'
    ∧ deref (streams g') 48 = Some s'
    ∧ 33 ∈ sched_pool (s_p_sched s').
Proof.
  eexists _, _. split; [vm_compute; reflexivity|].
  edestruct (ABT_task_create_start_failure_keeps_task_queued
               (hdr := sample_header) sample_create_env_nostart
               48 100 200 (Some 7) (sample_start 500))
    as (_ & s & s' & Hs & _ & _ & Hs' & Hin);
    [vm_compute; reflexivity | done | by vm_compute | reflexivity |].
  split; [vm_compute; reflexivity|].
  vm_compute in Hs. injection Hs as <-.
  vm_compute in Hs'. injection Hs' as <-. exact Hin.
Defined.

(** A thread creates two tasks without a stream, at addresses 16 and 80. *)
Lemma executes_keeps_ids_distinct_witness :
  ∃ g' t1 t2,
    executes (hdr := sample_header) (sample_start 500)
      [(Call_create (sample_create_env_at 16) (-1) 100 200 (Some 0), ABT_SUCCESS);
       (Call_create (sample_create_env_at 80) (-1) 100 200 (Some 0), ABT_SUCCESS)]
      g'
    ∧ tasks g' !! 16 = Some t1
    ∧ tasks g' !! 80 = Some t2
    ∧ t_id t1 ≠ t_id t2.
Proof.
  eexists _, _, _.
  assert (∀ g c e g1 tr g',
            run_call (hdr := sample_header) c g = Ret e g1 →
            executes (hdr := sample_header) g1 tr g' →
            executes (hdr := sample_header) g ((c, e) :: tr) g') as Hcons
    by (intros; by eapply executes_cons).
  split.
  { eapply Hcons; [vm_compute; reflexivity|].
    eapply Hcons; [vm_compute; reflexivity|].
    apply executes_nil. }
  split; [vm_compute; reflexivity|]. split; [vm_compute; reflexivity|].
  edestruct (executes_keeps_ids_distinct (hdr := sample_header)
               [(Call_create (sample_create_env_at 16) (-1) 100 200 (Some 0),
                 ABT_SUCCESS);
                (Call_create (sample_create_env_at 80) (-1) 100 200 (Some 0),
                 ABT_SUCCESS)]
               (sample_start 500))
    as [(_ & _ & Hinj) _].
  - eapply Hcons; [vm_compute; reflexivity|].
    eapply Hcons; [vm_compute; reflexivity|].
    apply executes_nil.
  - repeat constructor.
  - split; [by vm_compute|]. split; intros p t Hp; by vm_compute in Hp.
  - by vm_compute.
  - intros Heq.
    assert ((16 : Z) = 80) as Habs; [|done].
    eapply Hinj; [vm_compute; reflexivity | vm_compute; reflexivity | exact Heq].
Defined.

(** A thread retains the named task at address 16 and renames it; the name
    can be read afterwards. *)
Lemma executes_keeps_names_owned_witness :
  ∃ g' s,
    executes (hdr := sample_header) sample_named
      [(Call_retain 16, ABT_SUCCESS);
       (Call_set_name {| sn_malloc := 96; sn_block := "" |} 16
          (Some "worker-2"), ABT_SUCCESS)]
      g'
    ∧ ABT_task_get_name (hdr := sample_header) 16 None 0 g'
      = Ret (ABT_SUCCESS, None, Z.of_nat (String.length s)) g'.
Proof.
  assert (∀ g c e g1 tr g',
            run_call (hdr := sample_header) c g = Ret e g1 →
            executes (hdr := sample_header) g1 tr g' →
            executes (hdr := sample_header) g ((c, e) :: tr) g') as Hcons
    by (intros; by eapply executes_cons).
  edestruct (executes_keeps_names_owned (hdr := sample_header)
               [(Call_retain 16, ABT_SUCCESS);
                (Call_set_name {| sn_malloc := 96; sn_block := "" |} 16
                   (Some "worker-2"), ABT_SUCCESS)]
               sample_named)
    as [_ Hget].
  - eapply Hcons; [vm_compute; reflexivity|].
    eapply Hcons; [vm_compute; reflexivity|].
    apply executes_nil.
  - repeat constructor; cbn; tauto.
  - unfold names_owned, sample_named. cbn [tasks set_tasks set_names names].
    split.
    + intros p t [<- <-]%lookup_singleton_Some _. vm_compute. eauto.
    + intros p q t u [<- <-]%lookup_singleton_Some
        [<- <-]%lookup_singleton_Some _ _. done.
  - edestruct (Hget 16) as [s Hs]; [vm_compute; reflexivity | by vm_compute |].
    eexists _, s. split; [|exact Hs].
    eapply Hcons; [vm_compute; reflexivity|].
    eapply Hcons; [vm_compute; reflexivity|].
    apply executes_nil.
Defined.


(** One caller releases the task at address 16, referenced twice. *)
Lemma ABT_task_release_alone_iff_witness :
  rtc (release_sys_step (hdr := sample_header))
    (sample_with_task 500 ABT_TASK_STATE_RUNNING 2, [RelEntry 16])
    (sample_with_task 500 ABT_TASK_STATE_RUNNING 1, [RelReturn ABT_SUCCESS]).
Proof.
  apply (ABT_task_release_alone_iff (hdr := sample_header) 0 16
           (sample_with_task 500 ABT_TASK_STATE_RUNNING 2)
           (sample_task ABT_TASK_STATE_RUNNING 2));
    [reflexivity | by vm_compute | vm_compute; reflexivity].
Defined.
